(** * Clinic wait-time prediction and schedule optimisation

    A shallow embedding of the prediction-and-optimisation core of the
    clinic management application:

    - [calculate_priority]      (all_appointments.py)
    - [WaitTimePredictor]       (wait_time_predictor.py): [train], [predict],
      [predict_batch]
    - [ScheduleOptimizer]       (schedule_optimizer.py):
      [calculate_optimal_slots], [calculate_doctor_backlog],
      [get_recommendations]

    Modelling conventions.

    - A pandas DataFrame is the list of its rows, in index order, each row a
      record with the columns of the application's schema; [df.empty] is the
      empty list.  The loaders return the column-less [pd.DataFrame()] when
      a file cannot be read.  A function that tests [.empty] before it reads
      a column treats that frame like a frame with columns and no rows, and
      takes the list of rows; [predict_batch], which reads columns without
      such a test, takes a [Frame], which tells the two apart.
    - A [datetime.date] is its proleptic Gregorian ordinal
      ([date.toordinal()]), so that [d + timedelta(days=k)] is [d + k] and
      [d.weekday()] is [(d + 6) mod 7] (ordinal 1 is a Monday).  The
      year-1..9999 range limit of [datetime] is outside the model.
    - A [datetime.time] is the number of microseconds since midnight; the
      order on time objects is the order on these numbers.
    - Integer columns are [Z]; predicted wait times, which are floats only
      ever compared with [0], are rationals.
    - A Python exception that leaves a function is the outcome [Raised]. *)

From Stdlib Require Import ZArith QArith Lia.
From stdpp Require Import gmap strings list sorting pretty.

Local Open Scope Z_scope.

(** ** Outcomes of calls that may raise *)

Inductive Outcome (A : Type) : Type :=
| Returned (a : A)
| Raised.
Arguments Returned {A} a.
Arguments Raised {A}.

#[global] Instance outcome_ret : MRet Outcome := fun A a => Returned a.

#[global] Instance outcome_bind : MBind Outcome := fun A B k o =>
  match o with
  | Returned a => k a
  | Raised => Raised
  end.

(** Runs the bodies of a [for] loop in order, stopping at the first one that
    raises, and concatenates what the bodies appended. *)
Fixpoint for_each {A B} (body : A -> Outcome (list B)) (l : list A)
  : Outcome (list B) :=
  match l with
  | [] => Returned []
  | x :: rest =>
      ys ← body x;
      zs ← for_each body rest;
      Returned (ys ++ zs)
  end.

(** ** Sorting that keeps ties in place

    A stable sort, as Python's [list.sort] and the sorts of the frames whose
    tie order shows in a result: the rows are inserted from the last to the
    first, each before the first row that it may precede, so that rows
    which tie keep the order they had. *)
Fixpoint insert_sorted {A} (R : relation A) `{!∀ x y, Decision (R x y)}
  (x : A) (l : list A) : list A :=
  match l with
  | [] => [x]
  | y :: rest =>
      if decide (R x y) then x :: y :: rest
      else y :: insert_sorted R x rest
  end.

Definition stable_sort {A} (R : relation A) `{!∀ x y, Decision (R x y)}
  (l : list A) : list A :=
  fold_right (insert_sorted R) [] l.

(** ** Data model *)

Definition date := Z.
Definition time := Z.

Record DateTime := mkDateTime {
  dt_date : date;
  dt_time : time
}.

Definition usec_per_hour : Z := 3600000000.
Definition usec_per_day : Z := 24 * usec_per_hour.

(** [t.hour] of a [datetime.time] *)
Definition time_hour (t : time) : Z := t / usec_per_hour.

(** [d.weekday()]: Monday is 0, Sunday is 6 *)
Definition weekday (d : date) : Z := (d + 6) mod 7.

(** [dt + timedelta(hours=h)] *)
Definition add_hours (dt : DateTime) (h : Z) : DateTime :=
  let total := dt_time dt + h * usec_per_hour in
  mkDateTime (dt_date dt + total / usec_per_day) (total mod usec_per_day).

Record Appointment := mkAppointment {
  appointment_id : Z;
  doctor_id : Z;
  appointment_date : date;
  appointment_time : time;
  hour_of_day : Z;
  day_of_week : Z;
  scheduled_patients_count : Z;
  arrived_early : bool;
  wait_time_minutes : Z
}.

Record Doctor := mkDoctor {
  doc_id : Z;                   (* column doctor_id *)
  doctor_name : string;
  specialty : string;
  avg_consultation_time : Z;
  doctor_experience : Z;
  is_available : bool
}.

(** ** PriorityScorer: [calculate_priority] of all_appointments.py

    The row argument of the source is read at its three columns
    [date_diff], [arrived_early] and [wait_time_minutes]. *)

Inductive Category := High | Medium | Low.

Definition date_score_of (date_diff : Z) : Z :=
  if date_diff =? 0 then 100
  else if (0 <? date_diff) && (date_diff <=? 3) then 80
  else if (3 <? date_diff) && (date_diff <=? 7) then 60
  else if (7 <? date_diff) && (date_diff <=? 14) then 40
  else if date_diff <? 0 then 20
  else 30.

Definition calculate_priority (date_diff : Z) (early : bool) (wait_time : Z)
  : Category * Z :=
  let date_score := date_score_of date_diff in
  let date_score := if early then date_score + 10 else date_score in
  let date_score := if 30 <? wait_time then date_score + 15 else date_score in
  if 75 <=? date_score then (High, date_score)
  else if 50 <=? date_score then (Medium, date_score)
  else (Low, date_score).

(** ** WaitTimePredictor (wait_time_predictor.py) *)

(** A row of the feature matrix [X].  The three doctor columns come from a
    left merge on [doctor_id] and are missing (NaN, here [None]) for an
    appointment whose doctor is not in the doctor frame. *)
Record FeatureRow := mkFeatureRow {
  f_hour_of_day : Z;
  f_day_of_week : Z;
  f_specialty : option string;
  f_doctor_experience : option Z;
  f_avg_consultation_time : option Z;
  f_scheduled_patients_count : Z;
  f_arrived_early : bool
}.

(** [appointments_df.merge(doctors_df, on='doctor_id', how='left')]: the
    appointments in their order, each once per doctor row with its id, or
    once with the doctor columns missing. *)
Definition left_rows (docs : list Doctor) (a : Appointment)
  : list (Appointment * option Doctor) :=
  match List.filter (fun d => doc_id d =? doctor_id a) docs with
  | [] => [(a, None)]
  | ds => map (fun d => (a, Some d)) ds
  end.

Definition merge_left (appts : list Appointment) (docs : list Doctor)
  : list (Appointment * option Doctor) :=
  flat_map (left_rows docs) appts.

Definition feature_row (r : Appointment * option Doctor) : FeatureRow :=
  let (a, d) := r in
  mkFeatureRow (hour_of_day a) (day_of_week a)
    (specialty <$> d) (doctor_experience <$> d) (avg_consultation_time <$> d)
    (scheduled_patients_count a) (arrived_early a).

(** A fitted scikit-learn pipeline, as the function its [predict] computes
    on a feature matrix; [None] is a raised exception. *)
Definition Regressor := list FeatureRow -> option (list Q).

(** The [Pipeline] object held in [self.model]: freshly constructed, its
    [predict] raises [NotFittedError]; it becomes usable when [fit]
    completes. *)
Inductive Pipeline :=
| Unfitted
| Fitted (r : Regressor).

Definition pipeline_predict (m : Pipeline) (X : list FeatureRow)
  : option (list Q) :=
  match m with
  | Unfitted => None
  | Fitted r => r X
  end.

(** The library calls of [train], which the source does not define:
    scikit-learn's splitting and fitting and joblib's persistence.  [None]
    and [false] stand for a raised exception. *)
Record Backend := mkBackend {
  train_test_split :
    list FeatureRow -> list Z ->
    option (list FeatureRow * list FeatureRow * list Z * list Z);
  pipeline_fit : list FeatureRow -> list Z -> option Regressor;
  feature_importances : Regressor -> list (string * Q);
  joblib_dump : Regressor -> bool
}.

Record WaitTimePredictor := mkPredictor {
  model : option Pipeline;
  model_trained : bool;
  feature_importance : option (list (string * Q))
}.

Definition set_model (m : Pipeline) (p : WaitTimePredictor) :=
  mkPredictor (Some m) (model_trained p) (feature_importance p).
Definition set_feature_importance (fi : list (string * Q))
  (p : WaitTimePredictor) :=
  mkPredictor (model p) (model_trained p) (Some fi).
Definition set_model_trained (b : bool) (p : WaitTimePredictor) :=
  mkPredictor (model p) b (feature_importance p).

Definition preprocess_data (appts : list Appointment) (docs : list Doctor)
  : list FeatureRow * list Z :=
  match appts, docs with
  | _ :: _, _ :: _ =>
      let merged_df := merge_left appts docs in
      (map feature_row merged_df, map (fun r => wait_time_minutes (fst r)) merged_df)
  | _, _ => ([], [])
  end.

Definition is_empty {A} (l : list A) : bool :=
  match l with [] => true | _ => false end.

(** [train]: the outcome of the call and the predictor it leaves behind. *)
Definition train (B : Backend) (p : WaitTimePredictor)
  (appts : list Appointment) (docs : list Doctor)
  : Outcome bool * WaitTimePredictor :=
  if is_empty appts || is_empty docs then (Returned false, p)
  else
    let (X, y) := preprocess_data appts docs in
    if is_empty X || (Z.of_nat (length y) =? 0) then (Returned false, p)
    else
      (* self.model = Pipeline(steps=[...]) *)
      let p := set_model Unfitted p in
      match train_test_split B X y with
      | None => (Raised, p)
      | Some (X_train, X_test, y_train, y_test) =>
          (* self.model.fit(X_train, y_train) *)
          match pipeline_fit B X_train y_train with
          | None => (Raised, p)
          | Some r =>
              let p := set_model (Fitted r) p in
              let p := set_feature_importance (feature_importances B r) p in
              (* os.makedirs(...); joblib.dump(self.model, self.model_path) *)
              if joblib_dump B r
              then (Returned true, set_model_trained true p)
              else (Raised, p)
          end
      end.

(** [max(0, x)]: [x] when [x > 0], else [0] *)
Definition clamp0 (x : Q) : Q := if Qle_bool x 0 then 0%Q else x.

Definition default_wait : Q := 30%Q.

Definition predict (p : WaitTimePredictor) (features : list FeatureRow) : Q :=
  match model_trained p, model p with
  | true, Some m =>
      match pipeline_predict m features with
      | Some (x :: _) => clamp0 x          (* max(0, float(prediction[0])) *)
      | _ => default_wait                  (* except Exception: return 30 *)
      end
  | _, _ => default_wait
  end.

(** A frame as a caller may pass it: the column-less [pd.DataFrame()], on
    which every column lookup raises [KeyError], or a table with the columns
    of the schema *)
Inductive Frame (A : Type) : Type :=
| NoColumns
| Table (rows : list A).
Arguments NoColumns {A}.
Arguments Table {A} rows.

Definition frame_rows {A} (df : Frame A) : list A :=
  match df with
  | NoColumns => []
  | Table rows => rows
  end.

Definition upcoming_today (now : DateTime) (a : Appointment) : bool :=
  (appointment_date a =? dt_date now) && (dt_time now <=? appointment_time a).

(** [predict_batch]: the returned frame as its rows, each the appointment
    with its [predicted_wait_time]; the returned [pd.DataFrame()] is the
    empty list.  Without a model the column is added to a copy of the
    frame, which works on a frame without columns too.  With a model the
    date mask reads [appointments_df['appointment_date']] and the merge reads
    the [doctor_id] column of [doctors_df]; there is no [.empty] test before
    either. *)
Definition predict_batch (p : WaitTimePredictor) (current_time : DateTime)
  (appointments_df : Frame Appointment) (doctors_df : Frame Doctor)
  : Outcome (list (Appointment * Q)) :=
  match model_trained p, model p with
  | true, Some m =>
      match appointments_df with
      | NoColumns => Raised                       (* KeyError *)
      | Table appts =>
          let today_appointments :=
            List.filter (upcoming_today current_time) appts in
          if is_empty today_appointments then Returned []
          else
            match doctors_df with
            | NoColumns => Raised                 (* KeyError in merge *)
            | Table docs =>
                let merged_data := merge_left today_appointments docs in
                let features := map feature_row merged_data in
                match pipeline_predict m features with
                | None => Raised
                | Some predictions =>
                    (* results['predicted_wait_time'] = predictions *)
                    if Nat.eqb (length predictions) (length today_appointments)
                    then Returned (zip today_appointments
                                     (map clamp0 predictions))
                    else Raised
                end
            end
      end
  | _, _ =>
      Returned (map (fun a => (a, default_wait)) (frame_rows appointments_df))
  end.

(** ** ScheduleOptimizer (schedule_optimizer.py) *)

Definition optimization_window_days : Z := 7.
Definition peak_start_hour : Z := 17.
Definition peak_end_hour : Z := 20.

(** An entry of [optimal_slots].  The source's ['time'] string
    [f"{hour:02d}:{minutes_offset:02d}"] is kept as its two numbers. *)
Record Slot := mkSlot {
  slot_doctor_id : Z;
  slot_doctor_name : string;
  slot_specialty : string;
  slot_date : date;
  slot_hour : Z;
  slot_minute : Z;
  expected_duration : Z;
  priority : Z;
  is_peak_hour : bool
}.

Definition len {A} (l : list A) : Z := Z.of_nat (length l).

(** The fixed step table of the backlog factor *)
Definition backlog_steps (remaining_count : Z) : Z :=
  if remaining_count <=? 2 then 0
  else if remaining_count <=? 5 then 1
  else if remaining_count <=? 8 then 2
  else if remaining_count <=? 12 then 3
  else if remaining_count <=? 15 then 4
  else 5.

(** Called from [calculate_optimal_slots] only, behind its [.empty] test, so
    on an appointment frame that has its columns. *)
Definition calculate_doctor_backlog (did : Z) (now : DateTime)
  (appts : list Appointment) : Z :=
  let today := dt_date now in
  let doctor_appointments :=
    List.filter (fun a => (doctor_id a =? did) && (appointment_date a =? today))
      appts in
  if is_empty doctor_appointments then 0
  else
    let current_time := dt_time now in
    let remaining_appointments :=
      List.filter (fun a => current_time <=? appointment_time a)
        doctor_appointments in
    backlog_steps (len remaining_appointments).

(** The [busy_hours] dict: bookings per hour of the day *)
Definition busy_hours_of (existing_appointments : list Appointment)
  : gmap Z Z :=
  fold_left (fun busy_hours appt =>
    let hour := time_hour (appointment_time appt) in
    match busy_hours !! hour with
    | Some n => <[hour := n + 1]> busy_hours
    | None => <[hour := 1]> busy_hours
    end) existing_appointments ∅.

Definition working_hours : list Z := seqZ 9 12.     (* range(9, 21) *)

(** Body of the loop over [working_hours] *)
Definition hour_slots (now : DateTime) (appts : list Appointment)
  (doctor : Doctor) (slots_per_hour : Z) (slot_day : date)
  (busy_hours : gmap Z Z) (hour : Z) : list Slot :=
  let consultation_time := avg_consultation_time doctor in
  let current_bookings := default 0 (busy_hours !! hour) in
  if slots_per_hour <=? current_bookings then []
  else
    let remaining_slots := slots_per_hour - current_bookings in
    let is_peak := (peak_start_hour <=? hour) && (hour <? peak_end_hour) in
    let base := if is_peak then 100 - consultation_time else 50 in
    let backlog_factor := calculate_doctor_backlog (doc_id doctor) now appts in
    let prio := base - backlog_factor * 10 in
    map (fun slot_index =>
           let minutes_offset := (60 / slots_per_hour) * slot_index in
           mkSlot (doc_id doctor) (doctor_name doctor) (specialty doctor)
             slot_day hour minutes_offset consultation_time prio is_peak)
        (seqZ 0 remaining_slots).

(** Body of the loop over [day_offset] *)
Definition day_slots (now : DateTime) (appts : list Appointment)
  (doctor : Doctor) (slots_per_hour : Z) (day_offset : Z) : list Slot :=
  let slot_day := dt_date now + day_offset in
  if 5 <=? weekday slot_day then []
  else
    let existing_appointments :=
      List.filter (fun a => (doctor_id a =? doc_id doctor)
                            && (appointment_date a =? slot_day)) appts in
    let busy_hours := busy_hours_of existing_appointments in
    flat_map (hour_slots now appts doctor slots_per_hour slot_day busy_hours)
      working_hours.

(** Body of the loop over the available doctors.  [60 / consultation_time]
    raises for a zero consultation time; [int] truncates toward zero. *)
Definition doctor_slots (now : DateTime) (appts : list Appointment)
  (doctor : Doctor) : Outcome (list Slot) :=
  let consultation_time := avg_consultation_time doctor in
  if consultation_time =? 0 then Raised
  else
    let slots_per_hour := Z.max 1 (Z.quot 60 consultation_time) in
    Returned (flat_map (day_slots now appts doctor slots_per_hour)
                (seqZ 0 optimization_window_days)).

Definition by_priority_desc (s1 s2 : Slot) : Prop := priority s2 <= priority s1.

#[global] Instance by_priority_desc_dec s1 s2 : Decision (by_priority_desc s1 s2).
Proof. unfold by_priority_desc. apply _. Defined.

(** [slots_df.sort_values('priority', ascending=False)].  The order pandas
    leaves among slots of equal priority is not fixed by the source; nothing
    stated below depends on it. *)
Definition sort_by_priority (slots : list Slot) : list Slot :=
  merge_sort by_priority_desc slots.

Definition calculate_optimal_slots (now : DateTime)
  (appts : list Appointment) (docs : list Doctor) : Outcome (list Slot) :=
  if is_empty appts || is_empty docs then Returned []
  else
    let available_doctors := List.filter is_available docs in
    if is_empty available_doctors then Returned []
    else
      optimal_slots ← for_each (doctor_slots now appts) available_doctors;
      Returned (sort_by_priority optimal_slots).

(** *** [get_recommendations] *)

(** A recommendation string, as the template it is built from and the
    values interpolated into it. *)
Inductive Finding :=
| InsufficientData                       (* "Insufficient data to generate recommendations." *)
| NoAppointmentsToday                    (* "No appointments scheduled for today." *)
| OverbookedDoctor (name spec : string) (count : Z)
| PeakCongestion (upcoming_count : Z)
| UnderutilizedDoctor (name spec : string) (count : Z)
| EarlyArrivalDrift (early total : Z)
| SpecialtyImbalance (spec : string)
| NoneNeeded.                            (* "No optimization recommendations needed at this time. ..." *)

(** The two comparisons the source evaluates in binary floating point:
    [count > ((9 * 60) / avg_time) * 0.85] and
    [(early / total) * 100 > 40]. *)
Record FloatTests := mkFloatTests {
  over_85_percent_of_capacity : Z -> Z -> bool;   (* count, avg_time *)
  over_40_percent : Z -> Z -> bool                (* early, total *)
}.

(** The same comparisons in exact arithmetic.  For a negative consultation
    time the bound [(9 * 60) / avg_time * 0.85] is negative and the
    comparison turns round; for the time 0 the NumPy division gives [inf],
    which no count exceeds.  The total is a positive row count where the
    second test is made. *)
Definition exact_tests : FloatTests :=
  mkFloatTests
    (fun count avg_time =>
       if 0 <? avg_time then 9 * 60 * 85 <? count * avg_time * 100
       else if avg_time <? 0 then count * avg_time * 100 <? 9 * 60 * 85
       else false)
    (fun early total => (0 <? total) && (40 * total <? early * 100)).

(** [Series.unique()]: the distinct values in order of first appearance *)
Fixpoint unique {A} `{EqDecision A} (l : list A) : list A :=
  match l with
  | [] => []
  | x :: rest => x :: List.filter (fun y => bool_decide (y <> x)) (unique rest)
  end.

Definition count_of (k : Z) (keys : list Z) : Z :=
  len (List.filter (fun k' => k' =? k) keys).

Definition by_count_desc (x y : Z * Z) : Prop := snd y <= snd x.

#[global] Instance by_count_desc_dec x y : Decision (by_count_desc x y).
Proof. unfold by_count_desc. apply _. Defined.

(** [Series.value_counts()]: each distinct key with its number of
    occurrences, largest count first, keys with equal counts in the order
    of their first appearance *)
Definition value_counts (keys : list Z) : list (Z * Z) :=
  stable_sort by_count_desc (map (fun k => (k, count_of k keys)) (unique keys)).

(** [Series.max()] and [Series.min()] of a non-empty series *)
Definition series_max (l : list Z) : Z :=
  match l with
  | [] => 0
  | x :: rest => fold_right Z.max x rest
  end.

Definition series_min (l : list Z) : Z :=
  match l with
  | [] => 0
  | x :: rest => fold_right Z.min x rest
  end.

Definition on_date (d : date) (a : Appointment) : bool := appointment_date a =? d.

(** 1. overbooked doctors: body of the loop over the value counts *)
Definition overbooking_check (F : FloatTests) (docs : list Doctor)
  (entry : Z * Z) : Outcome (list Finding) :=
  let (did, count) := entry in
  match List.filter (fun d => doc_id d =? did) docs with
  | [] => Raised                                    (* .iloc[0] on no rows *)
  | doctor_info :: _ =>
      let avg_time := avg_consultation_time doctor_info in
      if over_85_percent_of_capacity F count avg_time
      then Returned [OverbookedDoctor (doctor_name doctor_info)
                       (specialty doctor_info) count]
      else Returned []
  end.

(** 2. peak-hour congestion *)
Definition peak_findings (now : DateTime) (appts : list Appointment)
  : list Finding :=
  let current_hour := time_hour (dt_time now) in
  if (peak_start_hour <=? current_hour) && (current_hour <? peak_end_hour)
  then
    let next_2_hours := add_hours now 2 in
    let upcoming_appointments :=
      List.filter (fun a => on_date (dt_date now) a
                            && (dt_time now <=? appointment_time a)
                            && (appointment_time a <? dt_time next_2_hours))
        appts in
    let upcoming_count := len upcoming_appointments in
    if 30 <? upcoming_count then [PeakCongestion upcoming_count] else []
  else [].

(** 3. underutilised doctors: body of the loop over the doctor frame *)
Definition underutilized_check (today_appointments : list Appointment)
  (doctor : Doctor) : list Finding :=
  let doctor_appointments :=
    List.filter (fun a => doctor_id a =? doc_id doctor) today_appointments in
  if (len doctor_appointments <? 5) && is_available doctor
  then [UnderutilizedDoctor (doctor_name doctor) (specialty doctor)
          (len doctor_appointments)]
  else [].

(** 4. early-arrival pattern *)
Definition early_findings (F : FloatTests)
  (today_appointments : list Appointment) : list Finding :=
  if negb (is_empty today_appointments)
  then
    let early_arrivals := List.filter arrived_early today_appointments in
    if over_40_percent F (len early_arrivals) (len today_appointments)
    then [EarlyArrivalDrift (len early_arrivals) (len today_appointments)]
    else []
  else [].

(** [today_appointments.merge(doctors_df[['doctor_id', 'specialty']],
    on='doctor_id', how='inner')] *)
Definition inner_rows (docs : list Doctor) (a : Appointment)
  : list (Appointment * string) :=
  map (fun d => (a, specialty d))
    (List.filter (fun d => doc_id d =? doctor_id a) docs).

Definition merge_inner (today_appointments : list Appointment)
  (docs : list Doctor) : list (Appointment * string) :=
  flat_map (inner_rows docs) today_appointments.

(** 5. load balancing: body of the loop over the specialties *)
Definition imbalance_check (today_appointments : list Appointment)
  (docs : list Doctor) (sp : string) : list Finding :=
  let specialty_doctors := List.filter (fun d => String.eqb (specialty d) sp) docs in
  if 1 <? len specialty_doctors
  then
    let specialty_appointments :=
      List.filter (fun r => String.eqb (snd r) sp)
        (merge_inner today_appointments docs) in
    if negb (is_empty specialty_appointments)
    then
      let appointments_per_doctor :=
        value_counts (map (fun r => doctor_id (fst r)) specialty_appointments) in
      let max_appointments := series_max (map snd appointments_per_doctor) in
      let min_appointments := series_min (map snd appointments_per_doctor) in
      if 2 * min_appointments <? max_appointments
      then [SpecialtyImbalance sp]
      else []
    else []
  else [].

(** The list [recommendations] when the five checks have run *)
Definition collect_recommendations (F : FloatTests) (now : DateTime)
  (appts : list Appointment) (docs : list Doctor) : Outcome (list Finding) :=
  let today_appointments := List.filter (on_date (dt_date now)) appts in
  overbooked ← for_each (overbooking_check F docs)
                  (value_counts (map doctor_id today_appointments));
  Returned (overbooked
            ++ peak_findings now appts
            ++ flat_map (underutilized_check today_appointments) docs
            ++ early_findings F today_appointments
            ++ flat_map (imbalance_check today_appointments docs)
                 (unique (map specialty docs))).

(** The closing [if len(recommendations) > 5 ... elif ... == 0 ...] *)
Definition limit_recommendations (recommendations : list Finding)
  : list Finding :=
  if 5 <? len recommendations then take 5 recommendations
  else if len recommendations =? 0 then [NoneNeeded]
  else recommendations.

Definition get_recommendations (F : FloatTests) (now : DateTime)
  (appts : list Appointment) (docs : list Doctor) : Outcome (list Finding) :=
  if is_empty appts || is_empty docs then Returned [InsufficientData]
  else
    let today_appointments := List.filter (on_date (dt_date now)) appts in
    if is_empty today_appointments then Returned [NoAppointmentsToday]
    else
      recommendations ← collect_recommendations F now appts docs;
      Returned (limit_recommendations recommendations).

(** *** [get_feature_importance] *)

(** The importance frame as its rows; [pd.DataFrame()] is the empty list. *)
Definition get_feature_importance (p : WaitTimePredictor)
  : list (string * Q) :=
  match model_trained p, feature_importance p with
  | true, Some fi => fi
  | _, _ => []
  end.

(** ** The appointment list (all_appointments.py)

    The data part of [show_all_appointments], from the guard on the frames to
    the sorted [priority_df]; the three selections of the page are its
    arguments. *)

(** The options of the date-range select box *)
Inductive DateRange :=
| AllDates | Today | ThisWeek | ThisMonth | PastAppointments | FutureAppointments.

(** A row of [merged_data]: the appointment with its [date_diff] and the
    doctor columns of the left merge *)
Record ViewRow := mkViewRow {
  view_appointment : Appointment;
  view_doctor : option Doctor;
  view_date_diff : Z
}.

(** A row of [priority_df] *)
Record PriorityRow := mkPriorityRow {
  priority_row : ViewRow;
  priority_category : Category;
  priority_score : Z
}.

Definition in_date_range (date_range : DateRange) (today : date)
  (row : ViewRow) : bool :=
  match date_range with
  | AllDates => true
  | Today => appointment_date (view_appointment row) =? today
  | ThisWeek => (0 <=? view_date_diff row) && (view_date_diff row <? 7)
  | ThisMonth => (0 <=? view_date_diff row) && (view_date_diff row <? 30)
  | PastAppointments => view_date_diff row <? 0
  | FutureAppointments => 0 <=? view_date_diff row
  end.

(** [filtered_data['specialty'] == selected_specialty]; a missing specialty
    equals nothing *)
Definition has_specialty (selected_specialty : string) (row : ViewRow) : bool :=
  match view_doctor row with
  | Some d => String.eqb (specialty d) selected_specialty
  | None => false
  end.

Definition with_priority (row : ViewRow) : PriorityRow :=
  let (category, score) :=
    calculate_priority (view_date_diff row)
      (arrived_early (view_appointment row))
      (wait_time_minutes (view_appointment row)) in
  mkPriorityRow row category score.

Definition category_eqb (c1 c2 : Category) : bool :=
  match c1, c2 with
  | High, High | Medium, Medium | Low, Low => true
  | _, _ => false
  end.

(** The order of [sort_values(['date_diff', 'priority_score'],
    ascending=[True, False])]; rows equal on both keys keep their frame
    order *)
Definition view_order (x y : PriorityRow) : Prop :=
  view_date_diff (priority_row x) < view_date_diff (priority_row y) \/
  (view_date_diff (priority_row x) = view_date_diff (priority_row y) /\
   priority_score y <= priority_score x).

#[global] Instance view_order_dec x y : Decision (view_order x y).
Proof. unfold view_order. apply _. Defined.

(** [Returned None] is the early return on an empty frame. When the date and
    specialty filters leave no row, [pd.DataFrame(priority_data)] has no
    columns and the column lookups that follow raise [KeyError].
    [selected_priority] is [None] for "All Priorities". *)
Definition priority_view (now : DateTime) (date_range : DateRange)
  (selected_specialty : string) (selected_priority : option Category)
  (appts : list Appointment) (docs : list Doctor)
  : Outcome (option (list PriorityRow)) :=
  if is_empty appts || is_empty docs then Returned None
  else
    let merged_data :=
      map (fun r => mkViewRow (fst r) (snd r)
                      (appointment_date (fst r) - dt_date now))
        (merge_left appts docs) in
    let filtered_data :=
      List.filter (in_date_range date_range (dt_date now)) merged_data in
    let filtered_data :=
      if String.eqb selected_specialty "All Specialties" then filtered_data
      else List.filter (has_specialty selected_specialty) filtered_data in
    let priority_data := map with_priority filtered_data in
    if is_empty priority_data then Raised
    else
      let priority_df :=
        match selected_priority with
        | None => priority_data
        | Some c =>
            List.filter (fun r => category_eqb (priority_category r) c)
              priority_data
        end in
      Returned (Some (stable_sort view_order priority_df)).

(** ** DataProcessor (data_processor.py)

    The frames these methods read from the CSV files are arguments here. *)

(** [f"{x}:00"] *)
Definition hour_label (hour : Z) : string := pretty hour +:+ ":00".

Definition by_hour (x y : Z * Z) : Prop := fst x <= fst y.

#[global] Instance by_hour_dec x y : Decision (by_hour x y).
Proof. unfold by_hour. apply _. Defined.

(** Rows of [all_hours.merge(hour_counts, on=['hour', 'hour_label'],
    how='left')] for one hour, with the missing count filled by 0 *)
Definition flow_rows (hour_counts : list (Z * string * Z)) (hour : Z)
  : list (Z * string * Z) :=
  match List.filter (fun r => (fst (fst r) =? hour)
                              && String.eqb (snd (fst r)) (hour_label hour))
          hour_counts with
  | [] => [(hour, hour_label hour, 0)]
  | matches => map (fun r => (hour, hour_label hour, snd r)) matches
  end.

(** [get_patient_flow_data]: rows (hour, hour_label, patient_count) *)
Definition get_patient_flow_data (current_date : date)
  (appts : list Appointment) : list (Z * string * Z) :=
  if is_empty appts then []
  else
    let today_appointments := List.filter (on_date current_date) appts in
    if is_empty today_appointments then []
    else
      let hour_counts := value_counts (map hour_of_day today_appointments) in
      let hour_counts := merge_sort by_hour hour_counts in
      let hour_counts :=
        map (fun hc => (fst hc, hour_label (fst hc), snd hc)) hour_counts in
      flat_map (flow_rows hour_counts) (seqZ 9 12).

Definition base_wait_of (hour : Z) : Z :=
  if (17 <=? hour) && (hour <=? 19) then 35
  else if ((14 <=? hour) && (hour <? 17)) || (19 <? hour) then 25
  else 15.

(** [get_wait_time_predictions]: rows (hour, hour_label,
    predicted_wait_time).  [randint i] is the value the call of
    [randint(-5, 10)] returns in iteration [i] of the loop. *)
Definition get_wait_time_predictions (randint : nat -> Z) (now : DateTime)
  : list (Z * string * Z) :=
  let current_hour := time_hour (dt_time now) in
  let prediction_hours :=
    List.filter (fun h => h <? 21) (seqZ current_hour 6) in
  imap (fun i hour =>
          let base_wait := base_wait_of hour in
          let predicted_wait := Z.max 5 (base_wait + randint i) in
          (hour, hour_label hour, predicted_wait))
    prediction_hours.

(** A row of the appointment frame with the two columns the record
    [Appointment] leaves out *)
Record AppointmentRow := mkAppointmentRow {
  row_appointment : Appointment;
  patient_id : string;
  status : string
}.

(** [t.minute] of a [datetime.time] *)
Definition time_minute (t : time) : Z := (t / 60000000) mod 60.

(** The three message templates, with the wait they interpolate *)
Inductive NotificationMessage :=
| DelayedBy (wait_time : Z)       (* "Your appointment may be delayed by approximately ... minutes." *)
| ExpectWait (wait_time : Z)      (* "Please expect a wait time of approximately ... minutes." *)
| OnSchedule.                     (* "Your doctor is on schedule. ..." *)

(** A notification; its ['time'] string
    [f"{hour:02d}:{max(0, minute-10):02d}"] is kept as its two numbers. *)
Record Notification := mkNotification {
  notified_patient : string;
  notification_hour : Z;
  notification_minute : Z;
  notification_message : NotificationMessage
}.

Definition by_time_desc (x y : AppointmentRow) : Prop :=
  appointment_time (row_appointment y) <= appointment_time (row_appointment x).

#[global] Instance by_time_desc_dec x y : Decision (by_time_desc x y).
Proof. unfold by_time_desc. apply _. Defined.

(** Body of the loop over the recent appointments *)
Definition notification_of (appt : AppointmentRow) : Notification :=
  let hour := time_hour (appointment_time (row_appointment appt)) in
  let minute := time_minute (appointment_time (row_appointment appt)) in
  let wait_time := wait_time_minutes (row_appointment appt) in
  let message :=
    if 30 <? wait_time then DelayedBy wait_time
    else if 15 <? wait_time then ExpectWait wait_time
    else OnSchedule in
  mkNotification (patient_id appt) hour (Z.max 0 (minute - 10)) message.

Definition get_recent_notifications (now : DateTime)
  (rows : list AppointmentRow) : list Notification :=
  if is_empty rows then []
  else
    let today_appointments :=
      List.filter (fun r => on_date (dt_date now) (row_appointment r)) rows in
    if is_empty today_appointments then []
    else
      (* sort_values('appointment_time', ascending=False).head(5); rows of
         equal time in frame order *)
      let recent_appointments :=
        take 5 (stable_sort by_time_desc today_appointments) in
      map notification_of recent_appointments.

(** The dict returned by [get_summary_metrics] *)
Record Metrics := mkMetrics {
  avg_wait_time : Z;
  wait_time_delta : Z;
  patients_in_queue : Z;
  queue_delta : Z;
  available_doctors : Z;
  total_doctors : Z;
  total_appointments : Z;
  completed_appointments : Z
}.

(** [int(series.mean())] of a non-empty integer column: the sum divided by
    the count, truncated toward zero (the float mean is exact enough for
    this below sums of 2^53). *)
Definition int_mean (values : list Z) : Z :=
  Z.quot (fold_right Z.add 0 values) (len values).

(** [(datetime.combine(d, t) - timedelta(hours=1)).time()] *)
Definition hour_before (t : time) : time := (t - usec_per_hour) mod usec_per_day.

Definition get_summary_metrics (now : DateTime)
  (appts : list Appointment) (docs : list Doctor) : Metrics :=
  let current_date := dt_date now in
  let current_time := dt_time now in
  let metrics := mkMetrics 0 0 0 0 0 (len docs) 0 0 in
  if is_empty appts || is_empty docs then metrics
  else
    let today_appointments := List.filter (on_date current_date) appts in
    if is_empty today_appointments then metrics
    else
      let completed :=
        List.filter (fun a => appointment_time a <? current_time)
          today_appointments in
      let current_queue :=
        List.filter (fun a => current_time <=? appointment_time a)
          today_appointments in
      let yesterday := current_date - 1 in
      let yesterday_queue :=
        List.filter (fun a => on_date yesterday a
                              && (current_time <=? appointment_time a)) appts in
      let past_hour_start := hour_before current_time in
      let past_hour_appointments :=
        List.filter (fun a => (past_hour_start <=? appointment_time a)
                              && (appointment_time a <? current_time))
          today_appointments in
      let avg :=
        if 0 <? len past_hour_appointments
        then int_mean (map wait_time_minutes past_hour_appointments)
        else if 0 <? len completed
             then int_mean (map wait_time_minutes completed)
             else if 17 <=? time_hour current_time then 25 else 15 in
      let yesterday_past_hour :=
        List.filter (fun a => on_date yesterday a
                              && (past_hour_start <=? appointment_time a)
                              && (appointment_time a <? current_time)) appts in
      let delta :=
        if 0 <? len yesterday_past_hour
        then avg - int_mean (map wait_time_minutes yesterday_past_hour)
        else 0 in
      mkMetrics avg delta (len current_queue)
        (len current_queue - len yesterday_queue)
        (len docs) (len docs) (len today_appointments) (len completed).

(** ** The doctor management page ([pages/doctor_management.py]) *)

(** *** Load balancing recommendations *)

(** An entry of [doctor_loads] *)
Record DoctorLoad := mkDoctorLoad {
  load_doctor_id : Z;
  load_doctor_name : string;
  remaining_appointments : Z
}.

(** An entry of [load_balancing_recommendations] *)
Record LoadRecommendation := mkLoadRecommendation {
  rec_specialty : string;
  from_doctor : string;
  to_doctor : string;
  suggested_transfers : Z;
  imbalance : Z
}.

(** [max(items, key=...)] and [min(items, key=...)] of a non-empty list:
    the first item with the largest, respectively the smallest, key *)
Definition max_by {A} (key : A -> Z) (x : A) (rest : list A) : A :=
  fold_left (fun best y => if key best <? key y then y else best) rest x.

Definition min_by {A} (key : A -> Z) (x : A) (rest : list A) : A :=
  fold_left (fun best y => if key y <? key best then y else best) rest x.

(** Body of the loop over [doctor_ids].  [.iloc[0]] raises on an empty
    selection. *)
Definition doctor_load (today_appointments : list Appointment)
  (docs : list Doctor) (current_time : time) (did : Z)
  : Outcome (list DoctorLoad) :=
  match List.filter (fun d => doc_id d =? did) docs with
  | [] => Raised
  | d :: _ =>
      let remaining :=
        len (List.filter (fun a => (doctor_id a =? did)
                                   && (current_time <=? appointment_time a))
               today_appointments) in
      Returned [mkDoctorLoad did (doctor_name d) remaining]
  end.

(** Body of the loop over the specialties *)
Definition balance_check (today_appointments : list Appointment)
  (docs : list Doctor) (current_time : time) (sp : string)
  : Outcome (list LoadRecommendation) :=
  let specialty_doctors :=
    List.filter (fun d => String.eqb (specialty d) sp) docs in
  let doctor_ids := map doc_id specialty_doctors in
  if len doctor_ids <=? 1 then Returned []
  else
    doctor_loads ←
      for_each (doctor_load today_appointments docs current_time) doctor_ids;
    match doctor_loads with
    | [] => Returned []
    | first :: rest =>
        let max_load := series_max (map remaining_appointments doctor_loads) in
        let min_load := series_min (map remaining_appointments doctor_loads) in
        if 3 <=? max_load - min_load
        then
          let busiest := max_by remaining_appointments first rest in
          let least_busy := min_by remaining_appointments first rest in
          let transfers :=
            (remaining_appointments busiest
             - remaining_appointments least_busy) / 2 in
          if 0 <? transfers
          then Returned [mkLoadRecommendation sp (load_doctor_name busiest)
                           (load_doctor_name least_busy) transfers
                           (max_load - min_load)]
          else Returned []
        else Returned []
    end.

Definition by_imbalance_desc (x y : LoadRecommendation) : Prop :=
  imbalance y <= imbalance x.

#[global] Instance by_imbalance_desc_dec x y : Decision (by_imbalance_desc x y).
Proof. unfold by_imbalance_desc. apply _. Defined.

(** The list the page displays: the recommendations of all specialties,
    largest imbalance first, equal imbalances in the order of the loop
    ([list.sort] is stable, also with [reverse=True]).  [current_date] is the date picked in the
    page's selector, [current_time] the time of the session's clock. *)
Definition load_balancing_recommendations (current_date : date)
  (current_time : time) (appts : list Appointment) (docs : list Doctor)
  : Outcome (list LoadRecommendation) :=
  let today_appointments := List.filter (on_date current_date) appts in
  recommendations ←
    for_each (balance_check today_appointments docs current_time)
      (unique (map specialty docs));
  if negb (is_empty recommendations)
  then Returned (stable_sort by_imbalance_desc recommendations)
  else Returned [].

(** *** Schedule optimization panel *)

(** What the panel renders: one of its two notices, or the slot cards with
    the number in the "more slots available" notice, if that is shown *)
Inductive SlotPanel :=
  | NoSlotData
  | NoSlotsToday
  | SlotsShown (shown : list Slot) (more : option Z).

(** The caller of [calculate_optimal_slots]: the optimiser runs from the
    session's clock [current_datetime], the panel keeps the slots of the
    date picked in the page's selector. *)
Definition schedule_optimization_panel (current_datetime : DateTime)
  (current_date : date) (appts : list Appointment) (docs : list Doctor)
  : Outcome SlotPanel :=
  optimal_slots ← calculate_optimal_slots current_datetime appts docs;
  if negb (is_empty optimal_slots)
  then
    let today_slots :=
      List.filter (fun s => slot_date s =? current_date) optimal_slots in
    if negb (is_empty today_slots)
    then Returned (SlotsShown (take 10 today_slots)
                     (if 10 <? len today_slots
                      then Some (len today_slots - 10) else None))
    else Returned NoSlotsToday
  else Returned NoSlotData.

(** *** Vocabulary of the statements *)

(** Existing bookings of a doctor that start within an hour of a day *)
Definition bookings_in_hour (appts : list Appointment) (did : Z) (day : date)
  (hour : Z) : Z :=
  len (List.filter (fun a => (doctor_id a =? did) && (appointment_date a =? day)
                             && (time_hour (appointment_time a) =? hour)) appts).

(** Appointments of a doctor on a day *)
Definition count_on_day (appts : list Appointment) (did : Z) (day : date) : Z :=
  len (List.filter (fun a => (doctor_id a =? did) && (appointment_date a =? day))
         appts).

(** Appointments of a doctor on the day of [now], at or after its time *)
Definition remaining_today (appts : list Appointment) (did : Z) (now : DateTime)
  : Z :=
  len (List.filter (fun a => (doctor_id a =? did)
                             && (appointment_date a =? dt_date now)
                             && (dt_time now <=? appointment_time a)) appts).

(** The base priority of an hour for a consultation time *)
Definition base_priority (hour consultation_time : Z) : Z :=
  if decide (17 <= hour < 20) then 100 - consultation_time else 50.

(** A slot as the optimiser offers it for doctor [d] *)
Definition slot_of (now : DateTime) (appts : list Appointment) (d : Doctor)
  (s : Slot) : Prop :=
  slot_doctor_id s = doc_id d /\
  expected_duration s = avg_consultation_time d /\
  dt_date now <= slot_date s < dt_date now + 7 /\
  0 <= weekday (slot_date s) < 5 /\
  9 <= slot_hour s < 21 /\
  bookings_in_hour appts (doc_id d) (slot_date s) (slot_hour s)
    < Z.max 1 (Z.quot 60 (avg_consultation_time d)) /\
  priority s = base_priority (slot_hour s) (avg_consultation_time d)
               - 10 * calculate_doctor_backlog (doc_id d) now appts.

(** Position of a finding's check in the fixed order of the five checks *)
Definition check_rank (f : Finding) : Z :=
  match f with
  | OverbookedDoctor _ _ _ => 1
  | PeakCongestion _ => 2
  | UnderutilizedDoctor _ _ _ => 3
  | EarlyArrivalDrift _ _ => 4
  | SpecialtyImbalance _ => 5
  | InsufficientData | NoAppointmentsToday | NoneNeeded => 0
  end.

(** [n] is the first row of the doctor table with the identifier [did],
    the row that [doctors_df[doctors_df['doctor_id'] == did].iloc[0]]
    selects *)
Definition first_row_with_id (docs : list Doctor) (did : Z) (n : Doctor)
  : Prop :=
  exists before after,
    docs = before ++ n :: after /\ doc_id n = did /\
    forall d, In d before -> doc_id d <> did.

(** A recommendation that moves patients from [busiest] to [least_busy]:
    two doctors of its specialty, no doctor of the specialty having more
    remaining appointments at [now] than the first or fewer than the
    second, each named as the first row of the doctor table with that
    identifier names it *)
Definition transfer_between (appts : list Appointment) (docs : list Doctor)
  (now : DateTime) (r : LoadRecommendation) (busiest least_busy : Doctor)
  : Prop :=
  In busiest docs /\ In least_busy docs /\
  specialty busiest = rec_specialty r /\
  specialty least_busy = rec_specialty r /\
  (forall d, In d docs -> specialty d = rec_specialty r ->
     remaining_today appts (doc_id least_busy) now
     <= remaining_today appts (doc_id d) now
     <= remaining_today appts (doc_id busiest) now) /\
  (exists n, first_row_with_id docs (doc_id busiest) n /\
             from_doctor r = doctor_name n) /\
  (exists n, first_row_with_id docs (doc_id least_busy) n /\
             to_doctor r = doctor_name n).

(** ** Sample data *)

Definition at_time (h m : Z) : time := h * usec_per_hour + m * 60000000.

(** Ordinal 738998 is a Monday. *)
Definition monday : date := 738998.

Definition sample_doctor (id : Z) (sp : string) (avg : Z) (avail : bool)
  : Doctor :=
  mkDoctor id "Meera Rao" sp avg 10 avail.

Definition sample_appointment (id did : Z) (d : date) (h : Z) (early : bool)
  : Appointment :=
  mkAppointment id did d (at_time h 0) h (weekday d) 8 early 12.

Definition untrained : WaitTimePredictor := mkPredictor None false None.

Definition constant_regressor (w : Q) : Regressor :=
  fun X => Some (map (fun _ => w) X).

Definition trained_with (r : Regressor) : WaitTimePredictor :=
  mkPredictor (Some (Fitted r)) true None.

(** A backend for the examples.  It sizes the two parts as scikit-learn's
    [train_test_split(test_size=0.2)] does, [ceil(0.2 * n)] rows for the test
    part, and like it refuses an empty training part; it fits a constant
    regressor and always persists. *)
Definition sample_backend : Backend :=
  mkBackend
    (fun X y =>
       let n := length X in
       let n_test := ((n + 4) / 5)%nat in
       let n_train := (n - n_test)%nat in
       if Nat.eqb n_train 0 then None
       else Some (take n_train X, drop n_train X, take n_train y, drop n_train y))
    (fun X y => Some (constant_regressor 15))
    (fun r => [])
    (fun r => true).

(** A Monday with ten appointments for doctor 1 and three for doctor 2 *)
Definition busy_day : list Appointment :=
  map (fun i => sample_appointment i 1 monday 11 false) (seqZ 1 10)
  ++ map (fun i => sample_appointment i 2 monday 12 false) (seqZ 11 3).

Definition cardiologists : list Doctor :=
  [sample_doctor 1 "Cardiology" 15 true; sample_doctor 2 "Cardiology" 15 true].

(** Five available doctors of another specialty, without appointments *)
Definition idle_dermatologists : list Doctor :=
  map (fun i => sample_doctor i "Dermatology" 12 true) (seqZ 3 5).

(** One available doctor who takes an hour for a consultation *)
Definition lone_cardiologist : list Doctor :=
  [sample_doctor 1 "Cardiology" 60 true].

(** * Properties *)

(** ** The stable sort *)

Lemma insert_sorted_Permutation {A} (R : relation A) `{!∀ x y, Decision (R x y)}
  (x : A) (l : list A) : insert_sorted R x l ≡ₚ x :: l.
Proof.
  induction l as [|y l IH]; cbn [insert_sorted]; [reflexivity|].
  destruct (decide (R x y)); [reflexivity|].
  rewrite IH. apply Permutation_swap.
Qed.

Lemma stable_sort_Permutation {A} (R : relation A) `{!∀ x y, Decision (R x y)}
  (l : list A) : stable_sort R l ≡ₚ l.
Proof.
  unfold stable_sort. induction l as [|x l IH]; cbn [fold_right]; [reflexivity|].
  rewrite insert_sorted_Permutation, IH. reflexivity.
Qed.

Lemma StronglySorted_insert_sorted {A} (R : relation A) `{!∀ x y, Decision (R x y)}
  `{!Transitive R} `{!Total R} (x : A) (l : list A) :
  StronglySorted R l -> StronglySorted R (insert_sorted R x l).
Proof.
  induction 1 as [|y l Hs IH Hall]; cbn [insert_sorted].
  - repeat constructor.
  - destruct (decide (R x y)) as [Hxy|Hxy].
    + constructor; [constructor; assumption|].
      constructor; [exact Hxy|].
      apply (Forall_impl _ _ _ Hall). intros z Hyz. transitivity y; assumption.
    + constructor; [exact IH|].
      rewrite insert_sorted_Permutation. constructor; [|exact Hall].
      destruct (total R x y); [contradiction | assumption].
Qed.

Lemma StronglySorted_stable_sort {A} (R : relation A) `{!∀ x y, Decision (R x y)}
  `{!Transitive R} `{!Total R} (l : list A) :
  StronglySorted R (stable_sort R l).
Proof.
  unfold stable_sort. induction l as [|x l IH]; cbn [fold_right].
  - constructor.
  - apply (StronglySorted_insert_sorted R x _ IH).
Qed.

(** ** PriorityScorer *)

Lemma date_score_of_table (d : Z) :
  (d = 0 -> date_score_of d = 100) /\
  (0 < d <= 3 -> date_score_of d = 80) /\
  (3 < d <= 7 -> date_score_of d = 60) /\
  (7 < d <= 14 -> date_score_of d = 40) /\
  (14 < d -> date_score_of d = 30) /\
  (d < 0 -> date_score_of d = 20).
Proof.
  unfold date_score_of.
  repeat split; intros Hd;
    repeat match goal with
           | |- context [Z.eqb ?a ?b] => destruct (Z.eqb_spec a b)
           | |- context [Z.ltb ?a ?b] => destruct (Z.ltb_spec a b)
           | |- context [Z.leb ?a ?b] => destruct (Z.leb_spec a b)
           end; simpl; lia.
Qed.

(** C3. [calculate_priority] is defined on every input; its score is the
    date-proximity base score (100 today, 80 within 3 days, 60 within 7, 40
    within 14, 30 beyond, 20 in the past) plus 10 for an early arrival plus 15
    for a wait above 30 minutes; the category is High exactly from 75, Medium
    exactly from 50 up to 75, Low exactly below 50. *)
Theorem calculate_priority_table (date_diff : Z) (early : bool) (wait_time : Z) :
  exists cat score base,
    calculate_priority date_diff early wait_time = (cat, score) /\
    score = base + (if early then 10 else 0)
                 + (if decide (30 < wait_time) then 15 else 0) /\
    ((date_diff = 0 -> base = 100) /\
     (0 < date_diff <= 3 -> base = 80) /\
     (3 < date_diff <= 7 -> base = 60) /\
     (7 < date_diff <= 14 -> base = 40) /\
     (14 < date_diff -> base = 30) /\
     (date_diff < 0 -> base = 20)) /\
    (cat = High <-> 75 <= score) /\
    (cat = Medium <-> 50 <= score < 75) /\
    (cat = Low <-> score < 50).
Proof.
  set (score := date_score_of date_diff + (if early then 10 else 0)
                + (if decide (30 < wait_time) then 15 else 0)).
  assert (Hcp : calculate_priority date_diff early wait_time =
                (if 75 <=? score then High
                 else if 50 <=? score then Medium else Low, score)).
  { unfold calculate_priority, score.
    destruct early; case_decide; destruct (Z.ltb_spec 30 wait_time);
      try lia; rewrite ?Z.add_0_r;
      repeat match goal with
             | |- context [Z.leb ?a ?b] => destruct (Z.leb_spec a b)
             end; try reflexivity; lia. }
  eexists _, score, (date_score_of date_diff).
  split; [exact Hcp|]. split; [reflexivity|].
  split; [apply date_score_of_table|].
  destruct (Z.leb_spec 75 score); [|destruct (Z.leb_spec 50 score)];
    repeat split; intros; try discriminate; try reflexivity; lia.
Qed.

Lemma calculate_priority_table_witness :
  exists cat score base,
    calculate_priority 2 true 35 = (cat, score) /\
    base = 80 /\ score = 105 /\ cat = High.
Proof.
  destruct (calculate_priority_table 2 true 35)
    as (cat & score & base & Hcp & Hs & Hb & Hh & _).
  exists cat, score, base.
  assert (Hbase : base = 80) by (apply Hb; lia).
  assert (Hscore : score = 105) by (rewrite Hs, Hbase; reflexivity).
  repeat split; try assumption.
  apply Hh. lia.
Defined.

(** C4 as stated fails on its second sample: ten days ahead lies in the
    7-to-14-day band, whose base score is 40, not 30. *)
Lemma calculate_priority_ten_days_not_30 :
  snd (calculate_priority 10 false 0) <> 30.
Proof. vm_compute. discriminate. Qed.

(** C4, amended. The three sample evaluations: today without adjustments
    scores 100 (High); ten days ahead scores 40 (Low); two days ahead with an
    early arrival and a 35-minute wait scores 105 (High). *)
Theorem calculate_priority_samples :
  calculate_priority 0 false 0 = (High, 100) /\
  calculate_priority 10 false 0 = (Low, 40) /\
  calculate_priority 2 true 35 = (High, 105).
Proof. repeat split; reflexivity. Qed.

(** ** WaitTimePredictor *)

Lemma clamp0_nonneg (x : Q) : (0 <= clamp0 x)%Q.
Proof.
  unfold clamp0. destruct (Qle_bool x 0) eqn:Hx.
  - apply Qle_refl.
  - destruct (Qlt_le_dec 0 x) as [Hlt|Hle].
    + apply Qlt_le_weak, Hlt.
    + apply Qle_bool_iff in Hle. congruence.
Qed.

Lemma default_wait_nonneg : (0 <= default_wait)%Q.
Proof. unfold default_wait. apply Qle_bool_iff. reflexivity. Qed.

(** C9. [predict] never returns a negative value; a predictor without a
    trained model answers exactly 30; and when the stored pipeline raises on
    the features, or yields no first prediction, the answer is the default 30
    as well: [predict] always produces a value. *)
Theorem predict_nonneg_default (p : WaitTimePredictor) (features : list FeatureRow) :
  (0 <= predict p features)%Q /\
  (model_trained p = false \/ model p = None ->
   predict p features = 30%Q) /\
  (forall m, model p = Some m ->
     pipeline_predict m features = None \/ pipeline_predict m features = Some [] ->
     predict p features = 30%Q).
Proof.
  unfold predict. split; [|split].
  - destruct (model_trained p), (model p) as [m|];
      try apply default_wait_nonneg.
    destruct (pipeline_predict m features) as [[|x rest]|];
      try apply default_wait_nonneg.
    apply clamp0_nonneg.
  - intros [-> | ->]; [reflexivity|].
    destruct (model_trained p); reflexivity.
  - intros m -> [-> | ->]; destruct (model_trained p); reflexivity.
Qed.

Lemma predict_nonneg_default_witness :
  predict untrained [] = 30%Q /\
  predict (trained_with (fun _ => None)) [] = 30%Q.
Proof.
  split.
  - apply (predict_nonneg_default untrained []). left. reflexivity.
  - apply (proj2 (proj2 (predict_nonneg_default (trained_with (fun _ => None)) []))
             (Fitted (fun _ => None))); [reflexivity | left; reflexivity].
Defined.

(** A doctor frame with distinct ids has at most one row per id, so the left
    merge keeps the number of rows. *)
Lemma filter_absent_id (k : Z) (docs : list Doctor) :
  ~ In k (map doc_id docs) ->
  List.filter (fun d => doc_id d =? k) docs = [].
Proof.
  induction docs as [|d docs IH]; simpl; intros Hk; [reflexivity|].
  destruct (Z.eqb_spec (doc_id d) k) as [Heq|Hne].
  - exfalso. apply Hk. left. exact Heq.
  - apply IH. intros Hin. apply Hk. right. exact Hin.
Qed.




Lemma is_empty_true {A} (l : list A) : is_empty l = true <-> l = [].
Proof. destruct l; simpl; split; congruence. Qed.




(** [train] returns [False] only from its two guards, before it has touched
    the predictor. *)
Lemma train_false_keeps_predictor (B : Backend) (p : WaitTimePredictor)
  (appts : list Appointment) (docs : list Doctor) :
  fst (train B p appts docs) = Returned false ->
  snd (train B p appts docs) = p.
Proof.
  unfold train.
  destruct (is_empty appts || is_empty docs); [reflexivity|].
  destruct (preprocess_data appts docs) as [X y].
  destruct (is_empty X || (Z.of_nat (length y) =? 0)); [reflexivity|].
  destruct (train_test_split B X y) as [[[[X_train X_test] y_train] y_test]|];
    [|discriminate].
  destruct (pipeline_fit B X_train y_train) as [r|]; [|discriminate].
  destruct (joblib_dump B r); discriminate.
Qed.

Lemma left_rows_nonempty (docs : list Doctor) (a : Appointment) :
  exists r rest, left_rows docs a = r :: rest.
Proof.
  unfold left_rows.
  destruct (List.filter _ docs) as [|d ds]; simpl; eauto.
Qed.

(** When the split raises, [self.model] has already been overwritten by the
    new, unfitted pipeline, whatever was stored before. *)
Lemma train_abort_leaves_unfitted (B : Backend) (p : WaitTimePredictor)
  (a : Appointment) (appts : list Appointment)
  (d : Doctor) (docs : list Doctor) :
  let (X, y) := preprocess_data (a :: appts) (d :: docs) in
  train_test_split B X y = None ->
  train B p (a :: appts) (d :: docs) = (Raised, set_model Unfitted p).
Proof.
  unfold train, preprocess_data, merge_left. cbn [flat_map is_empty orb].
  destruct (left_rows_nonempty (d :: docs) a) as (r & rest & ->).
  intros Hsplit. cbn [app map is_empty length orb] in *.
  rewrite Hsplit. reflexivity.
Qed.

(** C2, evaluated where it fails. A predictor holds a trained model that
    predicts 12. Retraining it on a single appointment raises, because the
    split leaves no training row; afterwards [self.model] is the unfitted
    pipeline while [model_trained] is still set, and [predict], which
    answered 12 before, falls back to the default 30. *)
Theorem train_abort_replaces_stored_model :
  let p0 := trained_with (constant_regressor 12) in
  let a := sample_appointment 1 1 monday 11 false in
  let d := sample_doctor 1 "ENT" 10 true in
  let X := [feature_row (a, Some d)] in
  train sample_backend p0 [a] [d]
    = (Raised, mkPredictor (Some Unfitted) true None) /\
  predict p0 X = 12%Q /\
  predict (snd (train sample_backend p0 [a] [d])) X = 30%Q.
Proof. repeat split; reflexivity. Qed.

(** ** ScheduleOptimizer: slots *)

Lemma len_nil {A} : len (@nil A) = 0.
Proof. reflexivity. Qed.

Lemma len_cons {A} (x : A) (l : list A) : len (x :: l) = 1 + len l.
Proof. unfold len. simpl length. lia. Qed.

Lemma len_nonneg {A} (l : list A) : 0 <= len l.
Proof. unfold len. lia. Qed.

Lemma len_app {A} (l k : list A) : len (l ++ k) = len l + len k.
Proof. unfold len. rewrite length_app. lia. Qed.

Lemma filter_filter_andb {A} (f g : A -> bool) (l : list A) :
  List.filter g (List.filter f l) = List.filter (fun x => f x && g x) l.
Proof.
  induction l as [|x l IH]; simpl; [reflexivity|].
  destruct (f x); simpl; [destruct (g x)|]; rewrite IH; reflexivity.
Qed.

(** What the loop over the existing appointments leaves in [busy_hours] *)
Lemma busy_hours_fold (l : list Appointment) (m : gmap Z Z) (h : Z) :
  default 0
    (fold_left (fun busy_hours appt =>
       let hour := time_hour (appointment_time appt) in
       match busy_hours !! hour with
       | Some n => <[hour := n + 1]> busy_hours
       | None => <[hour := 1]> busy_hours
       end) l m !! h)
  = default 0 (m !! h)
    + len (List.filter (fun a => time_hour (appointment_time a) =? h) l).
Proof.
  revert m. induction l as [|a l IH]; intros m; cbn [fold_left List.filter].
  - unfold len. simpl length. lia.
  - rewrite IH. clear IH. cbv zeta.
    destruct (Z.eqb_spec (time_hour (appointment_time a)) h) as [->|Hne].
    + rewrite len_cons.
      destruct (m !! h) as [n|] eqn:Hm; rewrite lookup_insert_eq; simpl; lia.
    + destruct (m !! time_hour (appointment_time a));
        rewrite lookup_insert_ne by exact Hne; reflexivity.
Qed.

Lemma busy_hours_lookup (l : list Appointment) (h : Z) :
  default 0 (busy_hours_of l !! h)
  = len (List.filter (fun a => time_hour (appointment_time a) =? h) l).
Proof. unfold busy_hours_of. rewrite busy_hours_fold, lookup_empty. reflexivity. Qed.

Lemma existing_bookings (appts : list Appointment) (did : Z) (day : date) (h : Z) :
  default 0
    (busy_hours_of
       (List.filter (fun a => (doctor_id a =? did) && (appointment_date a =? day))
          appts) !! h)
  = bookings_in_hour appts did day h.
Proof.
  rewrite busy_hours_lookup, filter_filter_andb. reflexivity.
Qed.

(** [max(1, int(60 / t))] is [max(1, floor(60 / t))] for every non-zero [t]. *)
Lemma slots_per_hour_floor (t : Z) :
  t <> 0 -> Z.max 1 (Z.quot 60 t) = Z.max 1 (60 / t).
Proof.
  intros Ht. destruct (Z.lt_ge_cases 0 t) as [Hpos|Hneg].
  - rewrite Z.quot_div_nonneg by lia. reflexivity.
  - assert (Hq : Z.quot 60 t <= 0).
    { rewrite <- (Z.opp_involutive t). rewrite Z.quot_opp_r by lia.
      pose proof (Z.quot_pos 60 (- t)). lia. }
    assert (Hd : 60 / t <= 0).
    { pose proof (Z.div_mod 60 t Ht). pose proof (Z.mod_neg_bound 60 t). nia. }
    lia.
Qed.

Lemma for_each_returned {A B} (body : A -> Outcome (list B)) (l : list A)
  (ys : list B) :
  for_each body l = Returned ys ->
  forall y, In y ys ->
  exists x zs, In x l /\ body x = Returned zs /\ In y zs.
Proof.
  revert ys. induction l as [|x l IH]; intros ys; cbn [for_each].
  - intros [= <-] y [].
  - destruct (body x) as [zs|] eqn:Hx; [|discriminate].
    destruct (for_each body l) as [rest|]; [|discriminate].
    intros [= <-] y Hy. apply in_app_iff in Hy as [Hy|Hy].
    + exists x, zs. split; [left; reflexivity | split; assumption].
    + destruct (IH rest eq_refl y Hy) as (x' & zs' & Hx' & Hb & Hin).
      exists x', zs'. split; [right; exact Hx' | split; assumption].
Qed.

Lemma for_each_returns {A B} (body : A -> Outcome (list B)) (l : list A) :
  (forall x, In x l -> exists zs, body x = Returned zs) ->
  exists ys, for_each body l = Returned ys.
Proof.
  induction l as [|x l IH]; intros Hall; cbn [for_each].
  - eexists. reflexivity.
  - destruct (Hall x (or_introl eq_refl)) as [zs ->].
    destruct IH as [rest ->]; [intros x' Hx'; apply Hall; right; exact Hx'|].
    eexists. reflexivity.
Qed.

Lemma weekday_range (d : date) : 0 <= weekday d < 7.
Proof. unfold weekday. apply Z.mod_pos_bound. lia. Qed.

Lemma hour_slots_spec (now : DateTime) (appts : list Appointment)
  (d : Doctor) (slots_per_hour : Z) (day : date) (busy : gmap Z Z)
  (hour : Z) (s : Slot) :
  In s (hour_slots now appts d slots_per_hour day busy hour) ->
  slot_doctor_id s = doc_id d /\
  expected_duration s = avg_consultation_time d /\
  slot_date s = day /\ slot_hour s = hour /\
  default 0 (busy !! hour) < slots_per_hour /\
  priority s = base_priority hour (avg_consultation_time d)
               - 10 * calculate_doctor_backlog (doc_id d) now appts.
Proof.
  unfold hour_slots.
  destruct (Z.leb_spec slots_per_hour (default 0 (busy !! hour))) as [|Hlt];
    [intros []|].
  intros Hin. apply in_map_iff in Hin as (idx & <- & _). cbn.
  repeat split; try assumption.
  unfold base_priority, peak_start_hour, peak_end_hour.
  destruct (Z.leb_spec 17 hour), (Z.ltb_spec hour 20); case_decide;
    simpl; lia.
Qed.

Lemma day_slots_spec (now : DateTime) (appts : list Appointment)
  (d : Doctor) (offset : Z) (s : Slot) :
  avg_consultation_time d <> 0 ->
  0 <= offset < 7 ->
  In s (day_slots now appts d
          (Z.max 1 (Z.quot 60 (avg_consultation_time d))) offset) ->
  slot_of now appts d s.
Proof.
  intros Hct Hoff. unfold day_slots.
  destruct (Z.leb_spec 5 (weekday (dt_date now + offset))) as [|Hwd];
    [intros []|].
  intros Hin. apply in_flat_map in Hin as (hour & Hh & Hin).
  apply hour_slots_spec in Hin as (Hid & Hdur & Hday & Hhour & Hfree & Hprio).
  rewrite existing_bookings in Hfree.
  apply list_elem_of_In, elem_of_seqZ in Hh.
  pose proof (weekday_range (dt_date now + offset)).
  unfold slot_of. rewrite Hday, Hhour. repeat split; try assumption; lia.
Qed.

Lemma doctor_slots_spec (now : DateTime) (appts : list Appointment)
  (d : Doctor) (l : list Slot) :
  doctor_slots now appts d = Returned l ->
  avg_consultation_time d <> 0 /\ forall s, In s l -> slot_of now appts d s.
Proof.
  unfold doctor_slots.
  destruct (Z.eqb_spec (avg_consultation_time d) 0) as [|Hct]; [discriminate|].
  intros Heq. split; [exact Hct|].
  assert (Hl : l = flat_map (day_slots now appts d
                               (Z.max 1 (Z.quot 60 (avg_consultation_time d))))
                     (seqZ 0 optimization_window_days)) by congruence.
  clear Heq. subst l.
  intros s Hin. apply in_flat_map in Hin as (offset & Hoff & Hin).
  apply list_elem_of_In, elem_of_seqZ in Hoff.
  unfold optimization_window_days in Hoff.
  apply (day_slots_spec now appts d offset s Hct); [lia | exact Hin].
Qed.

Lemma doctor_slots_returns (now : DateTime) (appts : list Appointment)
  (d : Doctor) :
  avg_consultation_time d <> 0 ->
  exists l, doctor_slots now appts d = Returned l.
Proof.
  intros Hct. unfold doctor_slots.
  destruct (Z.eqb_spec (avg_consultation_time d) 0); [contradiction|].
  eexists. reflexivity.
Qed.

#[local] Instance by_priority_desc_total : Total by_priority_desc.
Proof. intros s1 s2. unfold by_priority_desc. lia. Qed.

#[local] Instance by_priority_desc_trans : Transitive by_priority_desc.
Proof. intros s1 s2 s3. unfold by_priority_desc. lia. Qed.

Lemma sort_by_priority_sorted (slots : list Slot) :
  StronglySorted by_priority_desc (sort_by_priority slots).
Proof. apply StronglySorted_merge_sort; apply _. Qed.

Lemma sort_by_priority_In (slots : list Slot) (s : Slot) :
  In s (sort_by_priority slots) <-> In s slots.
Proof.
  rewrite <- !list_elem_of_In. unfold sort_by_priority.
  rewrite merge_sort_Permutation. reflexivity.
Qed.

(** Every slot returned belongs to an available doctor of the frame and is
    one of that doctor's offered slots; the frame is sorted. *)
Lemma calculate_optimal_slots_returned (now : DateTime)
  (appts : list Appointment) (docs : list Doctor) (slots : list Slot) :
  calculate_optimal_slots now appts docs = Returned slots ->
  StronglySorted by_priority_desc slots /\
  forall s, In s slots ->
    exists d, In d docs /\ is_available d = true /\
              avg_consultation_time d <> 0 /\ slot_of now appts d s.
Proof.
  unfold calculate_optimal_slots.
  destruct (is_empty appts || is_empty docs).
  { intros [= <-]. split; [constructor | intros s []]. }
  destruct (is_empty (List.filter is_available docs)).
  { intros [= <-]. split; [constructor | intros s []]. }
  destruct (for_each (doctor_slots now appts) (List.filter is_available docs))
    as [found|] eqn:Hfound; [|discriminate].
  intros [= <-]. split; [apply sort_by_priority_sorted|].
  intros s Hs. apply (proj1 (sort_by_priority_In _ _)) in Hs.
  destruct (for_each_returned _ _ _ Hfound s Hs) as (d & l & Hd & Hl & Hin).
  apply filter_In in Hd as [Hd Hav].
  apply doctor_slots_spec in Hl as [Hct Hl].
  exists d. split; [exact Hd | split; [exact Hav | split; [exact Hct|]]].
  apply Hl, Hin.
Qed.

Lemma calculate_optimal_slots_returns (now : DateTime)
  (appts : list Appointment) (docs : list Doctor) :
  (forall d, In d docs -> is_available d = true ->
             avg_consultation_time d <> 0) ->
  exists slots, calculate_optimal_slots now appts docs = Returned slots.
Proof.
  intros Hct. unfold calculate_optimal_slots.
  destruct (is_empty appts || is_empty docs); [eexists; reflexivity|].
  destruct (is_empty (List.filter is_available docs)); [eexists; reflexivity|].
  destruct (for_each_returns (doctor_slots now appts)
              (List.filter is_available docs)) as [found ->].
  { intros d Hd. apply filter_In in Hd as [Hd Hav].
    apply doctor_slots_returns, Hct; assumption. }
  eexists. reflexivity.
Qed.

Lemma filter_none {A} (f : A -> bool) (l : list A) :
  (forall x, In x l -> f x = false) -> List.filter f l = [].
Proof.
  induction l as [|x l IH]; intros Hall; simpl; [reflexivity|].
  rewrite (Hall x (or_introl eq_refl)). apply IH.
  intros y Hy. apply Hall. right. exact Hy.
Qed.

Lemma len_zero_nil {A} (l : list A) : len l = 0 -> l = [].
Proof. destruct l; [reflexivity|]. rewrite len_cons. pose proof (len_nonneg l). lia. Qed.

(** C5. When an input frame is empty or no doctor is flagged available the
    result is the empty frame, not an error. Every slot returned lies in the
    seven days starting at the date of [asOf], on a Monday to Friday, in an
    hour from 9 up to but excluding 21, and belongs to an available doctor
    whose bookings in that hour of that day are strictly below
    [max(1, floor(60 / avg_consultation_time))]. The call returns whenever no
    available doctor has a zero consultation time. *)
Theorem calculate_optimal_slots_window (now : DateTime)
  (appts : list Appointment) (docs : list Doctor) :
  (appts = [] \/ docs = [] \/ (forall d, In d docs -> is_available d = false) ->
   calculate_optimal_slots now appts docs = Returned []) /\
  (forall slots, calculate_optimal_slots now appts docs = Returned slots ->
     Forall (fun s =>
       dt_date now <= slot_date s < dt_date now + 7 /\
       0 <= weekday (slot_date s) < 5 /\
       9 <= slot_hour s < 21 /\
       exists d, In d docs /\ is_available d = true /\
                 doc_id d = slot_doctor_id s /\
                 bookings_in_hour appts (doc_id d) (slot_date s) (slot_hour s)
                   < Z.max 1 (60 / avg_consultation_time d)) slots) /\
  ((forall d, In d docs -> is_available d = true ->
              avg_consultation_time d <> 0) ->
   exists slots, calculate_optimal_slots now appts docs = Returned slots).
Proof.
  split; [|split].
  - unfold calculate_optimal_slots. intros [-> | [-> | Hnone]].
    + reflexivity.
    + destruct appts; reflexivity.
    + rewrite (filter_none _ _ Hnone).
      destruct (is_empty appts || is_empty docs); reflexivity.
  - intros slots Hret.
    destruct (calculate_optimal_slots_returned _ _ _ _ Hret) as [_ Hall].
    apply Forall_forall. intros s Hs. apply list_elem_of_In in Hs.
    destruct (Hall s Hs) as (d & Hd & Hav & Hct & Hid & _ & Hwin & Hwd & Hh & Hfree & _).
    repeat split; try lia.
    exists d. rewrite <- slots_per_hour_floor by exact Hct.
    split; [exact Hd | split; [exact Hav | split; [symmetry; exact Hid | exact Hfree]]].
  - apply calculate_optimal_slots_returns.
Qed.

Lemma calculate_optimal_slots_window_witness :
  let now := mkDateTime monday (at_time 10 0) in
  let appts := [sample_appointment 1 1 monday 11 false] in
  let docs := [sample_doctor 1 "ENT" 30 true] in
  calculate_optimal_slots now [] docs = Returned [] /\
  exists slots,
    calculate_optimal_slots now appts docs = Returned slots /\
    Forall (fun s =>
       dt_date now <= slot_date s < dt_date now + 7 /\
       0 <= weekday (slot_date s) < 5 /\
       9 <= slot_hour s < 21 /\
       exists d, In d docs /\ is_available d = true /\
                 doc_id d = slot_doctor_id s /\
                 bookings_in_hour appts (doc_id d) (slot_date s) (slot_hour s)
                   < Z.max 1 (60 / avg_consultation_time d)) slots.
Proof.
  intros now appts docs. split.
  - apply (calculate_optimal_slots_window now [] docs). left. reflexivity.
  - destruct (proj2 (proj2 (calculate_optimal_slots_window now appts docs)))
      as [slots Hslots].
    { intros d [<- | []] _. discriminate. }
    exists slots. split; [exact Hslots|].
    apply (proj1 (proj2 (calculate_optimal_slots_window now appts docs))).
    exact Hslots.
Defined.

Lemma calculate_doctor_backlog_steps (did : Z) (now : DateTime)
  (appts : list Appointment) :
  calculate_doctor_backlog did now appts
  = backlog_steps (remaining_today appts did now).
Proof.
  unfold calculate_doctor_backlog, remaining_today.
  rewrite filter_filter_andb.
  destruct (is_empty _) eqn:He; [|reflexivity].
  apply is_empty_true in He.
  rewrite <- filter_filter_andb, He. reflexivity.
Qed.

Lemma backlog_steps_table (count : Z) :
  (count <= 2 -> backlog_steps count = 0) /\
  (2 < count <= 5 -> backlog_steps count = 1) /\
  (5 < count <= 8 -> backlog_steps count = 2) /\
  (8 < count <= 12 -> backlog_steps count = 3) /\
  (12 < count <= 15 -> backlog_steps count = 4) /\
  (15 < count -> backlog_steps count = 5).
Proof.
  unfold backlog_steps.
  repeat split; intros Hc;
    repeat match goal with
           | |- context [Z.leb ?a ?b] => destruct (Z.leb_spec a b)
           end; lia.
Qed.

(** C6. The backlog level of a doctor follows the step table on the number
    of the doctor's appointments on the day of [asOf] at or after its time
    (0 up to 2, 1 up to 5, 2 up to 8, 3 up to 12, 4 up to 15, else 5), and is
    0 for a doctor without appointments that day. Every slot returned carries
    the priority [100 - avg_consultation_time] of its doctor in the hours 17
    to 19 and 50 otherwise, less 10 times that doctor's backlog level, and
    the returned frame is in descending order of priority. The call returns
    whenever no available doctor has a zero consultation time. *)
Theorem calculate_optimal_slots_priority (now : DateTime)
  (appts : list Appointment) (docs : list Doctor) :
  (forall did,
     let level := calculate_doctor_backlog did now appts in
     let count := remaining_today appts did now in
     (count <= 2 -> level = 0) /\
     (2 < count <= 5 -> level = 1) /\
     (5 < count <= 8 -> level = 2) /\
     (8 < count <= 12 -> level = 3) /\
     (12 < count <= 15 -> level = 4) /\
     (15 < count -> level = 5) /\
     (count_on_day appts did (dt_date now) = 0 -> level = 0)) /\
  (forall slots, calculate_optimal_slots now appts docs = Returned slots ->
     Forall (fun s =>
       exists d, In d docs /\ is_available d = true /\
                 doc_id d = slot_doctor_id s /\
                 avg_consultation_time d = expected_duration s /\
                 priority s
                 = (if decide (17 <= slot_hour s < 20)
                    then 100 - avg_consultation_time d else 50)
                   - 10 * calculate_doctor_backlog (doc_id d) now appts) slots /\
     StronglySorted (fun s1 s2 => priority s2 <= priority s1) slots) /\
  ((forall d, In d docs -> is_available d = true ->
              avg_consultation_time d <> 0) ->
   exists slots, calculate_optimal_slots now appts docs = Returned slots).
Proof.
  split; [|split].
  - intros did level count. subst level count.
    rewrite calculate_doctor_backlog_steps.
    destruct (backlog_steps_table (remaining_today appts did now))
      as (H0 & H1 & H2 & H3 & H4 & H5).
    repeat split; try assumption.
    intros Hnone. apply H0.
    unfold count_on_day in Hnone. apply len_zero_nil in Hnone.
    unfold remaining_today.
    rewrite <- (filter_filter_andb
                  (fun a => (doctor_id a =? did) && (appointment_date a =? dt_date now))
                  (fun a => dt_time now <=? appointment_time a)).
    rewrite Hnone. unfold len. simpl. lia.
  - intros slots Hret.
    destruct (calculate_optimal_slots_returned _ _ _ _ Hret) as [Hsorted Hall].
    split; [|exact Hsorted].
    apply Forall_forall. intros s Hs. apply list_elem_of_In in Hs.
    destruct (Hall s Hs) as (d & Hd & Hav & _ & Hid & Hdur & _ & _ & _ & _ & Hprio).
    exists d.
    split; [exact Hd | split; [exact Hav | split; [symmetry; exact Hid|]]].
    split; [symmetry; exact Hdur | exact Hprio].
  - apply calculate_optimal_slots_returns.
Qed.

Lemma calculate_optimal_slots_priority_witness :
  let now := mkDateTime monday (at_time 10 0) in
  let appts := [sample_appointment 1 1 monday 11 false;
                sample_appointment 2 1 monday 12 false;
                sample_appointment 3 1 monday 17 true] in
  let docs := [sample_doctor 1 "ENT" 30 true] in
  calculate_doctor_backlog 1 now appts = 1 /\
  calculate_doctor_backlog 2 now appts = 0 /\
  exists slots,
    calculate_optimal_slots now appts docs = Returned slots /\
    Forall (fun s =>
       exists d, In d docs /\ is_available d = true /\
                 doc_id d = slot_doctor_id s /\
                 avg_consultation_time d = expected_duration s /\
                 priority s
                 = (if decide (17 <= slot_hour s < 20)
                    then 100 - avg_consultation_time d else 50)
                   - 10 * calculate_doctor_backlog (doc_id d) now appts) slots /\
    StronglySorted (fun s1 s2 => priority s2 <= priority s1) slots.
Proof.
  intros now appts docs.
  pose proof (calculate_optimal_slots_priority now appts docs)
    as (Hlevel & Hslots & Hreturns).
  split; [|split].
  - destruct (Hlevel 1) as (_ & H1 & _). apply H1.
    vm_compute. split; [reflexivity | discriminate].
  - destruct (Hlevel 2) as (_ & _ & _ & _ & _ & _ & H0). apply H0.
    reflexivity.
  - destruct Hreturns as [slots Hret].
    { intros d [<- | []] _. discriminate. }
    exists slots. split; [exact Hret|]. apply Hslots, Hret.
Defined.

(** ** ScheduleOptimizer: recommendations *)

(** C10. With an empty appointment frame or an empty doctor frame,
    [get_recommendations] returns exactly one finding, the insufficient-data
    message; it neither returns an empty list nor raises. *)
Theorem get_recommendations_empty_input (F : FloatTests) (now : DateTime)
  (appts : list Appointment) (docs : list Doctor) :
  appts = [] \/ docs = [] ->
  get_recommendations F now appts docs = Returned [InsufficientData].
Proof.
  unfold get_recommendations. intros [-> | ->]; [reflexivity|].
  destruct appts; reflexivity.
Qed.

Lemma get_recommendations_empty_input_witness :
  get_recommendations exact_tests (mkDateTime monday (at_time 10 0))
    [] [sample_doctor 1 "ENT" 30 true] = Returned [InsufficientData] /\
  get_recommendations exact_tests (mkDateTime monday (at_time 10 0))
    [sample_appointment 1 1 monday 11 false] [] = Returned [InsufficientData].
Proof.
  split.
  - apply get_recommendations_empty_input. left. reflexivity.
  - apply get_recommendations_empty_input. right. reflexivity.
Defined.

Lemma unique_In {A} `{EqDecision A} (l : list A) (x : A) :
  In x (unique l) <-> In x l.
Proof.
  induction l as [|y l IH]; cbn [unique]; [reflexivity|].
  cbn [In]. rewrite filter_In, IH, bool_decide_eq_true.
  split.
  - intros [Hyx | [Hin _]]; [left | right]; assumption.
  - intros [Hyx | Hin]; [left; exact Hyx|].
    destruct (decide (y = x)) as [Heq|Hne]; [left; exact Heq|].
    right. split; [exact Hin | congruence].
Qed.

Lemma unique_NoDup {A} `{EqDecision A} (l : list A) : List.NoDup (unique l).
Proof.
  induction l as [|y l IH]; cbn [unique]; constructor.
  - rewrite filter_In, bool_decide_eq_true. intros [_ Hne]. apply Hne. reflexivity.
  - apply List.NoDup_filter, IH.
Qed.

Lemma value_counts_In (keys : list Z) (k c : Z) :
  In (k, c) (value_counts keys) <-> In k keys /\ c = count_of k keys.
Proof.
  unfold value_counts. rewrite <- list_elem_of_In, stable_sort_Permutation,
    list_elem_of_In, in_map_iff.
  split.
  - intros (k' & [= <- <-] & Hk). apply (proj1 (unique_In _ _)) in Hk.
    split; [exact Hk | reflexivity].
  - intros [Hk ->]. exists k. split; [reflexivity|].
    apply (proj2 (unique_In _ _)), Hk.
Qed.

Lemma value_counts_length (keys : list Z) :
  length (value_counts keys) = length (unique keys).
Proof.
  unfold value_counts. rewrite stable_sort_Permutation, length_map. reflexivity.
Qed.

Lemma overbooking_check_spec (F : FloatTests) (docs : list Doctor)
  (entry : Z * Z) (zs : list Finding) :
  overbooking_check F docs entry = Returned zs ->
  Forall (fun f => check_rank f = 1) zs /\ (length zs <= 1)%nat.
Proof.
  unfold overbooking_check. destruct entry as [did count].
  destruct (List.filter _ docs) as [|doctor_info rest]; [discriminate|].
  destruct (over_85_percent_of_capacity F count _);
    intros [= <-]; split; repeat constructor.
Qed.

Lemma overbooking_check_returns (F : FloatTests) (docs : list Doctor)
  (did count : Z) :
  (exists d, In d docs /\ doc_id d = did) ->
  exists zs, overbooking_check F docs (did, count) = Returned zs.
Proof.
  intros (d & Hd & Hid). unfold overbooking_check.
  destruct (List.filter (fun d' => doc_id d' =? did) docs) as [|d0 rest] eqn:Hf.
  - exfalso. assert (Hin : In d (List.filter (fun d' => doc_id d' =? did) docs)).
    { apply filter_In. split; [exact Hd|]. apply Z.eqb_eq, Hid. }
    rewrite Hf in Hin. exact Hin.
  - destruct (over_85_percent_of_capacity F count _); eexists; reflexivity.
Qed.

Lemma for_each_ranked {A} (body : A -> Outcome (list Finding)) (k : Z)
  (l : list A) (ys : list Finding) :
  (forall x zs, body x = Returned zs ->
     Forall (fun f => check_rank f = k) zs /\ (length zs <= 1)%nat) ->
  for_each body l = Returned ys ->
  Forall (fun f => check_rank f = k) ys /\ (length ys <= length l)%nat.
Proof.
  intros Hbody. revert ys. induction l as [|x l IH]; intros ys; cbn [for_each].
  - intros [= <-]. split; [constructor | reflexivity].
  - destruct (body x) as [zs|] eqn:Hx; [|discriminate].
    destruct (for_each body l) as [rest|]; [|discriminate].
    intros [= <-]. destruct (Hbody x zs Hx) as [Hzs Hlen].
    destruct (IH rest eq_refl) as [Hrest Hlen'].
    split; [apply Forall_app; split; assumption|].
    rewrite length_app. simpl. lia.
Qed.

Lemma peak_findings_spec (now : DateTime) (appts : list Appointment) :
  Forall (fun f => check_rank f = 2) (peak_findings now appts) /\
  (length (peak_findings now appts) <= 1)%nat.
Proof.
  unfold peak_findings.
  destruct (_ && _); [|split; [constructor | simpl; lia]].
  cbv zeta. destruct (30 <? _); split; repeat constructor.
Qed.

Lemma underutilized_check_spec (today : list Appointment) (d : Doctor) :
  Forall (fun f => check_rank f = 3) (underutilized_check today d) /\
  (length (underutilized_check today d) <= 1)%nat.
Proof.
  unfold underutilized_check. destruct (_ && _); split; repeat constructor.
Qed.

Lemma early_findings_spec (F : FloatTests) (today : list Appointment) :
  Forall (fun f => check_rank f = 4) (early_findings F today) /\
  (length (early_findings F today) <= 1)%nat.
Proof.
  unfold early_findings.
  destruct (negb _); [|split; [constructor | simpl; lia]].
  cbv zeta. destruct (over_40_percent F _ _); split; repeat constructor.
Qed.

Lemma imbalance_check_spec (today : list Appointment) (docs : list Doctor)
  (sp : string) :
  imbalance_check today docs sp = [] \/
  imbalance_check today docs sp = [SpecialtyImbalance sp].
Proof.
  unfold imbalance_check.
  destruct (1 <? _); [|left; reflexivity].
  destruct (negb _); [|left; reflexivity].
  cbv zeta. destruct (_ <? _); [right | left]; reflexivity.
Qed.

Lemma Forall_flat_map {A B} (P : B -> Prop) (f : A -> list B) (l : list A) :
  (forall x, In x l -> Forall P (f x)) -> Forall P (flat_map f l).
Proof.
  induction l as [|x l IH]; intros Hall; cbn [flat_map]; [constructor|].
  apply Forall_app. split.
  - apply Hall. left. reflexivity.
  - apply IH. intros y Hy. apply Hall. right. exact Hy.
Qed.

Lemma limit_recommendations_spec (recs : list Finding) :
  (recs = [] -> limit_recommendations recs = [NoneNeeded]) /\
  (recs <> [] -> limit_recommendations recs = take 5 recs) /\
  (length (limit_recommendations recs) <= 5)%nat.
Proof.
  unfold limit_recommendations, len.
  destruct (Z.ltb_spec 5 (Z.of_nat (length recs))) as [Hlong|Hshort].
  - split; [intros ->; simpl in Hlong; lia|].
    split; [reflexivity|]. rewrite length_take. lia.
  - destruct (Z.eqb_spec (Z.of_nat (length recs)) 0) as [Hnil|Hsome].
    + destruct recs; [|simpl in Hnil; lia].
      split; [reflexivity|]. split; [congruence | simpl; lia].
    + split; [intros ->; simpl in Hsome; lia|].
      split; [|lia]. intros _. symmetry. apply take_ge. lia.
Qed.

(** The list of findings before the limit, by check. *)
Lemma collect_recommendations_parts (F : FloatTests) (now : DateTime)
  (appts : list Appointment) (docs : list Doctor) (recs : list Finding) :
  collect_recommendations F now appts docs = Returned recs ->
  exists ob,
    for_each (overbooking_check F docs)
      (value_counts (map doctor_id (List.filter (on_date (dt_date now)) appts)))
      = Returned ob /\
    recs = ob ++ peak_findings now appts
              ++ flat_map (underutilized_check
                             (List.filter (on_date (dt_date now)) appts)) docs
              ++ early_findings F (List.filter (on_date (dt_date now)) appts)
              ++ flat_map (imbalance_check
                             (List.filter (on_date (dt_date now)) appts) docs)
                   (unique (map specialty docs)).
Proof.
  unfold collect_recommendations.
  destruct (for_each (overbooking_check F docs) _) as [ob|]; [|discriminate].
  intros Hrecs. exists ob. split; [reflexivity|]. cbn in Hrecs. congruence.
Qed.

Lemma for_each_raised {A B} (body : A -> Outcome (list B)) (l : list A) :
  for_each body l = Raised <-> exists x, In x l /\ body x = Raised.
Proof.
  induction l as [|x l IH]; cbn [for_each].
  - split; [discriminate | intros (x & [] & _)].
  - destruct (body x) as [zs|] eqn:Hx.
    + destruct (for_each body l) as [rest|] eqn:Hrest; cbn.
      * split; [discriminate|]. intros (x' & [<- | Hin] & Hr); [congruence|].
        assert (Hfalse : @Returned (list B) rest = Raised)
          by (apply IH; exists x'; split; assumption).
        discriminate.
      * split; [|reflexivity]. intros _.
        destruct (proj1 IH eq_refl) as (x' & Hin & Hr).
        exists x'. split; [right; exact Hin | exact Hr].
    + cbn. split; [|reflexivity]. intros _. exists x.
      split; [left; reflexivity | exact Hx].
Qed.

Lemma overbooking_check_raised (F : FloatTests) (docs : list Doctor)
  (did count : Z) :
  overbooking_check F docs (did, count) = Raised <->
  ~ exists d, In d docs /\ doc_id d = did.
Proof.
  unfold overbooking_check.
  destruct (List.filter (fun d => doc_id d =? did) docs) as [|d0 rest] eqn:Hf.
  - split; [|reflexivity]. intros _ (d & Hd & Hid).
    assert (Hin : In d (List.filter (fun d' => doc_id d' =? did) docs)).
    { apply filter_In. split; [exact Hd | apply Z.eqb_eq, Hid]. }
    rewrite Hf in Hin. exact Hin.
  - assert (Hin : In d0 (List.filter (fun d' => doc_id d' =? did) docs))
      by (rewrite Hf; left; reflexivity).
    apply filter_In in Hin as [Hd Hid]. apply Z.eqb_eq in Hid.
    destruct (over_85_percent_of_capacity F count _);
      (split; [discriminate|]); intros Hno; exfalso; apply Hno;
      exists d0; split; assumption.
Qed.

Lemma collect_recommendations_returns (F : FloatTests) (now : DateTime)
  (appts : list Appointment) (docs : list Doctor) :
  (forall a, In a appts -> appointment_date a = dt_date now ->
             exists d, In d docs /\ doc_id d = doctor_id a) ->
  exists recs, collect_recommendations F now appts docs = Returned recs.
Proof.
  intros Hlisted. unfold collect_recommendations.
  destruct (for_each_returns (overbooking_check F docs)
              (value_counts (map doctor_id
                 (List.filter (on_date (dt_date now)) appts)))) as [ob ->].
  { intros [did count] Hin. apply value_counts_In in Hin as [Hin _].
    apply in_map_iff in Hin as (a & <- & Ha).
    apply filter_In in Ha as [Ha Hdate]. apply Z.eqb_eq in Hdate.
    apply overbooking_check_returns, Hlisted; assumption. }
  eexists. reflexivity.
Qed.

(** The statement of C8 fails on an empty appointment frame: the day has no
    appointments, yet the single finding is the insufficient-data message,
    not the no-appointments one. *)
Lemma get_recommendations_empty_frame_not_no_appointments :
  let now := mkDateTime monday (at_time 10 0) in
  let appts : list Appointment := [] in
  List.filter (on_date (dt_date now)) appts = [] /\
  get_recommendations exact_tests now appts [sample_doctor 1 "ENT" 30 true]
    <> Returned [NoAppointmentsToday].
Proof. split; [reflexivity | discriminate]. Qed.

(** C8, amended. For non-empty appointment and doctor frames: when the day of
    [asOf] has no appointments the result is the single no-appointments
    finding.  When it has some and each of them names a listed doctor, the
    call returns the single balanced finding if no check fired, and else the
    first five at most of the findings taken in the fixed order of the
    checks (overbooking, peak congestion, underutilisation, early arrivals,
    specialty imbalance), never more than five.  When one of them names a
    doctor that is not listed, the call raises. *)
Theorem get_recommendations_policy (F : FloatTests) (now : DateTime)
  (appts : list Appointment) (docs : list Doctor) :
  appts <> [] -> docs <> [] ->
  (List.filter (on_date (dt_date now)) appts = [] ->
   get_recommendations F now appts docs = Returned [NoAppointmentsToday]) /\
  (List.filter (on_date (dt_date now)) appts <> [] ->
   forall out, get_recommendations F now appts docs = Returned out ->
     exists ob pk un ea im,
       Forall (fun f => check_rank f = 1) ob /\
       Forall (fun f => check_rank f = 2) pk /\
       Forall (fun f => check_rank f = 3) un /\
       Forall (fun f => check_rank f = 4) ea /\
       Forall (fun f => check_rank f = 5) im /\
       collect_recommendations F now appts docs
         = Returned (ob ++ pk ++ un ++ ea ++ im) /\
       (ob ++ pk ++ un ++ ea ++ im = [] -> out = [NoneNeeded]) /\
       (ob ++ pk ++ un ++ ea ++ im <> [] ->
        out = take 5 (ob ++ pk ++ un ++ ea ++ im)) /\
       (length out <= 5)%nat) /\
  (List.filter (on_date (dt_date now)) appts <> [] ->
   (forall a, In a appts -> appointment_date a = dt_date now ->
              exists d, In d docs /\ doc_id d = doctor_id a) ->
   exists recs,
     collect_recommendations F now appts docs = Returned recs /\
     get_recommendations F now appts docs
     = Returned (match recs with
                 | [] => [NoneNeeded]
                 | _ :: _ => take 5 recs
                 end)) /\
  ((exists a, In a appts /\ appointment_date a = dt_date now /\
              ~ exists d, In d docs /\ doc_id d = doctor_id a) ->
   get_recommendations F now appts docs = Raised).
Proof.
  intros Happts Hdocs.
  assert (Hguard : is_empty appts || is_empty docs = false).
  { destruct appts, docs; try reflexivity; congruence. }
  unfold get_recommendations. rewrite Hguard.
  split; [|split; [|split]].
  - intros ->. reflexivity.
  - intros Htoday out.
    destruct (List.filter (on_date (dt_date now)) appts) as [|a today] eqn:Hf;
      [congruence|].
    cbn [is_empty].
    destruct (collect_recommendations F now appts docs) as [recs|] eqn:Hc;
      [|discriminate].
    intros [= <-].
    destruct (collect_recommendations_parts _ _ _ _ _ Hc) as (ob & Hob & Hrecs).
    rewrite Hf in Hob, Hrecs.
    exists ob, (peak_findings now appts),
      (flat_map (underutilized_check (a :: today)) docs),
      (early_findings F (a :: today)),
      (flat_map (imbalance_check (a :: today) docs) (unique (map specialty docs))).
    rewrite <- Hrecs.
    destruct (limit_recommendations_spec recs) as (Hnil & Hsome & Hlen).
    split.
    { eapply for_each_ranked; [|exact Hob]. apply overbooking_check_spec. }
    split; [apply peak_findings_spec|].
    split.
    { apply Forall_flat_map. intros d _. apply underutilized_check_spec. }
    split; [apply early_findings_spec|].
    split.
    { apply Forall_flat_map. intros sp _.
      destruct (imbalance_check_spec (a :: today) docs sp) as [-> | ->];
        repeat constructor. }
    repeat split; assumption.
  - intros Htoday Hlisted.
    destruct (List.filter (on_date (dt_date now)) appts) as [|a today];
      [congruence|].
    cbn [is_empty].
    destruct (collect_recommendations_returns F now appts docs Hlisted)
      as [recs Hrecs].
    exists recs. split; [exact Hrecs|]. rewrite Hrecs. cbn [mbind outcome_bind].
    f_equal. destruct (limit_recommendations_spec recs) as (Hnil & Hsome & _).
    destruct recs as [|r recs']; [apply Hnil; reflexivity|].
    apply Hsome. discriminate.
  - intros (a & Ha & Hd & Hno).
    assert (Hin : In a (List.filter (on_date (dt_date now)) appts)).
    { apply filter_In. split; [exact Ha | apply Z.eqb_eq, Hd]. }
    destruct (List.filter (on_date (dt_date now)) appts) as [|a0 today] eqn:Hf;
      [destruct Hin|].
    cbn [is_empty]. unfold collect_recommendations. rewrite Hf.
    assert (Hr : for_each (overbooking_check F docs)
                   (value_counts (map doctor_id (a0 :: today))) = Raised).
    { apply for_each_raised.
      exists (doctor_id a, count_of (doctor_id a) (map doctor_id (a0 :: today))).
      split; [|apply overbooking_check_raised; exact Hno].
      apply value_counts_In. split; [|reflexivity]. apply in_map, Hin. }
    rewrite Hr. reflexivity.
Qed.

Lemma get_recommendations_policy_witness :
  let now := mkDateTime monday (at_time 10 0) in
  let docs := [sample_doctor 1 "ENT" 30 true] in
  get_recommendations exact_tests now
    [sample_appointment 1 1 (monday - 1) 11 false] docs
    = Returned [NoAppointmentsToday] /\
  get_recommendations exact_tests now
    [sample_appointment 1 1 monday 11 false] docs
    = Returned [UnderutilizedDoctor "Meera Rao" "ENT" 1] /\
  get_recommendations exact_tests now
    [sample_appointment 1 9 monday 11 false] docs = Raised.
Proof.
  intros now docs. split; [|split].
  - apply (get_recommendations_policy exact_tests now
             [sample_appointment 1 1 (monday - 1) 11 false] docs);
      [discriminate | discriminate | reflexivity].
  - destruct (get_recommendations_policy exact_tests now
                [sample_appointment 1 1 monday 11 false] docs)
      as (_ & _ & Hreturns & _); [discriminate | discriminate |].
    destruct Hreturns as (recs & Hrecs & Hout).
    { discriminate. }
    { intros a [<- | []] _. exists (sample_doctor 1 "ENT" 30 true).
      split; [left; reflexivity | reflexivity]. }
    rewrite Hout.
    assert (Hval : recs = [UnderutilizedDoctor "Meera Rao" "ENT" 1])
      by (vm_compute in Hrecs; congruence).
    rewrite Hval. reflexivity.
  - destruct (get_recommendations_policy exact_tests now
                [sample_appointment 1 9 monday 11 false] docs)
      as (_ & _ & _ & Hraises); [discriminate | discriminate |].
    apply Hraises. exists (sample_appointment 1 9 monday 11 false).
    split; [left; reflexivity|]. split; [reflexivity|].
    intros (d & [<- | []] & Hid). discriminate.
Defined.

(** *** Specialty imbalance *)

Lemma filter_single_id (d : Doctor) (docs : list Doctor) :
  List.NoDup (map doc_id docs) -> In d docs ->
  List.filter (fun d' => doc_id d' =? doc_id d) docs = [d].
Proof.
  induction docs as [|d0 docs IH]; intros Hnd Hin; [destruct Hin|].
  cbn [map] in Hnd. inversion Hnd as [|x l Hx Hl]; subst.
  cbn [List.filter].
  destruct Hin as [-> | Hin].
  - rewrite Z.eqb_refl, filter_absent_id by exact Hx. reflexivity.
  - destruct (Z.eqb_spec (doc_id d0) (doc_id d)) as [Heq|Hne].
    + exfalso. apply Hx. rewrite Heq. apply in_map, Hin.
    + apply IH; assumption.
Qed.

Lemma count_of_app (k : Z) (l1 l2 : list Z) :
  count_of k (l1 ++ l2) = count_of k l1 + count_of k l2.
Proof. unfold count_of. rewrite List.filter_app, len_app. reflexivity. Qed.

Lemma count_of_nonneg (k : Z) (l : list Z) : 0 <= count_of k l.
Proof. apply len_nonneg. Qed.

Lemma count_of_pos_In (k : Z) (l : list Z) : 0 < count_of k l -> In k l.
Proof.
  unfold count_of. intros Hpos.
  destruct (List.filter (fun k' => k' =? k) l) as [|x rest] eqn:Hf.
  - unfold len in Hpos. simpl in Hpos. lia.
  - assert (Hx : In x (List.filter (fun k' => k' =? k) l))
      by (rewrite Hf; left; reflexivity).
    apply filter_In in Hx as [Hx Heq]. apply Z.eqb_eq in Heq. subst x. exact Hx.
Qed.

(** The rows the inner merge makes of an appointment all carry its
    [doctor_id]. *)
Lemma count_of_other_rows (k : Z) (a : Appointment) (sp : string)
  (docs : list Doctor) :
  doctor_id a <> k ->
  count_of k (map (fun r => doctor_id (fst r))
                (List.filter (fun r => String.eqb (snd r) sp)
                   (inner_rows docs a))) = 0.
Proof.
  intros Hne. unfold inner_rows.
  induction (List.filter (fun d => doc_id d =? doctor_id a) docs)
    as [|d ds IH]; [reflexivity|].
  cbn [map List.filter snd].
  destruct (String.eqb (specialty d) sp); [|exact IH].
  cbn [map fst]. unfold count_of in *. cbn [List.filter].
  destruct (Z.eqb_spec (doctor_id a) k); [contradiction | exact IH].
Qed.

(** With distinct doctor ids, the per-doctor counts of the merged rows of a
    specialty are the doctors' numbers of appointments of the day. *)
Lemma specialty_keys_count (today : list Appointment) (docs : list Doctor)
  (d : Doctor) (sp : string) :
  List.NoDup (map doc_id docs) -> In d docs -> specialty d = sp ->
  count_of (doc_id d)
    (map (fun r => doctor_id (fst r))
       (List.filter (fun r => String.eqb (snd r) sp) (merge_inner today docs)))
  = len (List.filter (fun a => doctor_id a =? doc_id d) today).
Proof.
  intros Hnd Hd Hsp. unfold merge_inner.
  induction today as [|a today IH]; [reflexivity|].
  cbn [flat_map List.filter].
  rewrite List.filter_app, map_app, count_of_app, IH. clear IH.
  destruct (Z.eqb_spec (doctor_id a) (doc_id d)) as [Heq|Hne].
  - rewrite len_cons. f_equal.
    unfold inner_rows. rewrite Heq, (filter_single_id d docs Hnd Hd).
    cbn [map List.filter snd]. rewrite Hsp, String.eqb_refl.
    cbn [map fst]. unfold count_of. cbn [List.filter].
    rewrite Heq, Z.eqb_refl. reflexivity.
  - rewrite count_of_other_rows by exact Hne. lia.
Qed.

Lemma series_max_ge (l : list Z) (x : Z) : In x l -> x <= series_max l.
Proof.
  destruct l as [|y rest]; [intros []|]. cbn [series_max].
  revert x. induction rest as [|z rest IH]; intros x; cbn [fold_right In].
  - intros [<- | []]. lia.
  - intros [<- | [<- | Hin]].
    + specialize (IH y (or_introl eq_refl)). lia.
    + lia.
    + specialize (IH x (or_intror Hin)). lia.
Qed.

Lemma series_min_le (l : list Z) (x : Z) : In x l -> series_min l <= x.
Proof.
  destruct l as [|y rest]; [intros []|]. cbn [series_min].
  revert x. induction rest as [|z rest IH]; intros x; cbn [fold_right In].
  - intros [<- | []]. lia.
  - intros [<- | [<- | Hin]].
    + specialize (IH y (or_introl eq_refl)). lia.
    + lia.
    + specialize (IH x (or_intror Hin)). lia.
Qed.

Lemma two_distinct_members {A} (l : list A) (x y : A) :
  In x l -> In y l -> x <> y -> 1 < len l.
Proof.
  destruct l as [|a [|b rest]].
  - intros [].
  - intros [<- | []] [<- | []] Hne. congruence.
  - intros _ _ _. rewrite !len_cons. pose proof (len_nonneg rest). lia.
Qed.

(** The imbalance check of a specialty fires when some doctor of the
    specialty has more than twice the appointments of another one who has at
    least one. *)
Lemma imbalance_check_fires (today : list Appointment) (docs : list Doctor)
  (sp : string) (d_max d_min : Doctor) :
  List.NoDup (map doc_id docs) ->
  In d_max docs -> In d_min docs ->
  specialty d_max = sp -> specialty d_min = sp ->
  1 <= len (List.filter (fun a => doctor_id a =? doc_id d_min) today) ->
  2 * len (List.filter (fun a => doctor_id a =? doc_id d_min) today)
    < len (List.filter (fun a => doctor_id a =? doc_id d_max) today) ->
  imbalance_check today docs sp = [SpecialtyImbalance sp].
Proof.
  intros Hnd Hmax Hmin Hsmax Hsmin Hone Hgap.
  unfold imbalance_check.
  assert (Hmany : 1 < len (List.filter (fun d => String.eqb (specialty d) sp) docs)).
  { apply (two_distinct_members _ d_max d_min).
    - apply filter_In. split; [exact Hmax|]. apply String.eqb_eq, Hsmax.
    - apply filter_In. split; [exact Hmin|]. apply String.eqb_eq, Hsmin.
    - intros ->. lia. }
  apply Z.ltb_lt in Hmany. rewrite Hmany. clear Hmany.
  set (rows := List.filter (fun r => String.eqb (snd r) sp)
                 (merge_inner today docs)).
  set (keys := map (fun r => doctor_id (fst r)) rows).
  pose proof (specialty_keys_count today docs d_max sp Hnd Hmax Hsmax) as Hcmax.
  pose proof (specialty_keys_count today docs d_min sp Hnd Hmin Hsmin) as Hcmin.
  fold rows in Hcmax, Hcmin. fold keys in Hcmax, Hcmin.
  assert (Hkmax : In (doc_id d_max) keys) by (apply count_of_pos_In; lia).
  assert (Hkmin : In (doc_id d_min) keys) by (apply count_of_pos_In; lia).
  assert (Hrows : is_empty rows = false).
  { destruct rows; [destruct Hkmax | reflexivity]. }
  rewrite Hrows. cbn [negb].
  assert (Hvmax : In (count_of (doc_id d_max) keys) (map snd (value_counts keys))).
  { apply in_map_iff. exists (doc_id d_max, count_of (doc_id d_max) keys).
    split; [reflexivity|]. apply value_counts_In. split; [exact Hkmax | reflexivity]. }
  assert (Hvmin : In (count_of (doc_id d_min) keys) (map snd (value_counts keys))).
  { apply in_map_iff. exists (doc_id d_min, count_of (doc_id d_min) keys).
    split; [reflexivity|]. apply value_counts_In. split; [exact Hkmin | reflexivity]. }
  apply series_max_ge in Hvmax. apply series_min_le in Hvmin.
  assert (Hfire : 2 * series_min (map snd (value_counts keys))
                  < series_max (map snd (value_counts keys))) by lia.
  apply Z.ltb_lt in Hfire. rewrite Hfire. reflexivity.
Qed.

Lemma count_on_day_today (appts : list Appointment) (did : Z) (day : date) :
  count_on_day appts did day
  = len (List.filter (fun a => doctor_id a =? did)
           (List.filter (on_date day) appts)).
Proof.
  unfold count_on_day. rewrite filter_filter_andb. f_equal.
  apply List.filter_ext. intros a. unfold on_date. apply andb_comm.
Qed.

Lemma In_take {A} (n : nat) (pre post : list A) (x : A) :
  (length pre < n)%nat -> In x (take n (pre ++ x :: post)).
Proof.
  intros Hlen. rewrite take_app_ge by lia. apply in_or_app. right.
  destruct (n - length pre)%nat as [|m] eqn:Hn; [lia|]. left. reflexivity.
Qed.

Lemma take_5_limit (recs : list Finding) :
  recs <> [] -> limit_recommendations recs = take 5 recs.
Proof. apply limit_recommendations_spec. Qed.

(** The finding of a specialty in the list collected before the limit *)
Lemma imbalance_collected (F : FloatTests) (now : DateTime)
  (appts : list Appointment) (docs : list Doctor) (sp : string)
  (d_max d_min : Doctor) :
  List.NoDup (map doc_id docs) ->
  (forall a, In a appts -> appointment_date a = dt_date now ->
             exists d, In d docs /\ doc_id d = doctor_id a) ->
  In d_max docs -> In d_min docs ->
  specialty d_max = sp -> specialty d_min = sp ->
  1 <= count_on_day appts (doc_id d_min) (dt_date now) ->
  2 * count_on_day appts (doc_id d_min) (dt_date now)
    < count_on_day appts (doc_id d_max) (dt_date now) ->
  exists ob im1 im2,
    for_each (overbooking_check F docs)
      (value_counts (map doctor_id (List.filter (on_date (dt_date now)) appts)))
      = Returned ob /\
    flat_map (imbalance_check (List.filter (on_date (dt_date now)) appts) docs)
      (unique (map specialty docs)) = im1 ++ SpecialtyImbalance sp :: im2 /\
    collect_recommendations F now appts docs
    = Returned ((ob ++ peak_findings now appts
                  ++ flat_map (underutilized_check
                                 (List.filter (on_date (dt_date now)) appts)) docs
                  ++ early_findings F (List.filter (on_date (dt_date now)) appts)
                  ++ im1)
                ++ SpecialtyImbalance sp :: im2).
Proof.
  intros Hnd Hlisted Hmax Hmin Hsmax Hsmin Hone Hgap.
  rewrite !count_on_day_today in *.
  destruct (collect_recommendations_returns F now appts docs Hlisted)
    as [recs Hrecs].
  destruct (collect_recommendations_parts _ _ _ _ _ Hrecs) as (ob & Hob & ->).
  assert (Hin : In (SpecialtyImbalance sp)
                  (flat_map (imbalance_check
                               (List.filter (on_date (dt_date now)) appts) docs)
                     (unique (map specialty docs)))).
  { apply in_flat_map. exists sp. split.
    - apply unique_In, in_map_iff. exists d_max. split; assumption.
    - rewrite (imbalance_check_fires _ docs sp d_max d_min); try assumption.
      left. reflexivity. }
  apply in_split in Hin as (im1 & im2 & Him).
  exists ob, im1, im2. split; [exact Hob|]. split; [exact Him|].
  rewrite Hrecs, Him. f_equal. rewrite <- !app_assoc. reflexivity.
Qed.

Lemma len_filter_le {A} (f : A -> bool) (l : list A) :
  len (List.filter f l) <= len l.
Proof.
  induction l as [|x l IH]; cbn [List.filter]; [lia|].
  destruct (f x); rewrite !len_cons; lia.
Qed.

Lemma split_two_ids (today : list Appointment) (id1 id2 : Z) :
  id1 <> id2 ->
  (forall a, In a today -> doctor_id a = id1 \/ doctor_id a = id2) ->
  len today = len (List.filter (fun a => doctor_id a =? id1) today)
              + len (List.filter (fun a => doctor_id a =? id2) today).
Proof.
  intros Hne. induction today as [|a today IH]; intros Hall; [reflexivity|].
  cbn [List.filter]. rewrite len_cons, IH
    by (intros a' Ha'; apply Hall; right; exact Ha').
  destruct (Hall a (or_introl eq_refl)) as [Ha | Ha]; rewrite Ha, Z.eqb_refl.
  - destruct (Z.eqb_spec id1 id2); [contradiction|]. rewrite len_cons. lia.
  - destruct (Z.eqb_spec id2 id1); [congruence|]. rewrite len_cons. lia.
Qed.

Lemma nodup_two_values (l : list Z) (a b : Z) :
  List.NoDup l -> (forall k, In k l -> k = a \/ k = b) -> (length l <= 2)%nat.
Proof.
  intros Hnd Hall.
  destruct l as [|x [|y [|z rest]]]; simpl; try lia.
  exfalso.
  inversion Hnd as [|? ? Hx Hnd1]; subst.
  inversion Hnd1 as [|? ? Hy Hnd2]; subst.
  assert (Hxy : x <> y) by (intros ->; apply Hx; left; reflexivity).
  assert (Hxz : x <> z) by (intros ->; apply Hx; right; left; reflexivity).
  assert (Hyz : y <> z) by (intros ->; apply Hy; left; reflexivity).
  destruct (Hall x) as [? | ?]; [left; reflexivity | |];
    (destruct (Hall y) as [? | ?]; [right; left; reflexivity | |]);
    (destruct (Hall z) as [? | ?]; [right; right; left; reflexivity | |]);
    congruence.
Qed.

(** Two doctors of one specialty, the only doctors of the frame, with 10 and
    3 appointments on the day: at most four findings precede the imbalance
    finding. *)
Lemma two_doctor_scenario (F : FloatTests) (now : DateTime)
  (appts : list Appointment) (d1 d2 : Doctor) :
  doc_id d1 <> doc_id d2 ->
  specialty d1 = specialty d2 ->
  (forall a, In a appts -> appointment_date a = dt_date now ->
             doctor_id a = doc_id d1 \/ doctor_id a = doc_id d2) ->
  count_on_day appts (doc_id d1) (dt_date now) = 10 ->
  count_on_day appts (doc_id d2) (dt_date now) = 3 ->
  exists before,
    collect_recommendations F now appts [d1; d2]
    = Returned (before ++ [SpecialtyImbalance (specialty d1)]) /\
    (length before <= 4)%nat.
Proof.
  intros Hids Hsp Hlisted Hc1 Hc2.
  rewrite count_on_day_today in Hc1, Hc2.
  set (today := List.filter (on_date (dt_date now)) appts) in *.
  assert (Hnd : List.NoDup (map doc_id [d1; d2])).
  { repeat constructor; simpl; intuition. }
  assert (Htoday : forall a, In a today ->
                     doctor_id a = doc_id d1 \/ doctor_id a = doc_id d2).
  { intros a Ha. apply filter_In in Ha as [Ha Hd]. apply Z.eqb_eq in Hd.
    apply Hlisted; assumption. }
  assert (Hlisted' : forall a, In a appts -> appointment_date a = dt_date now ->
                       exists d, In d [d1; d2] /\ doc_id d = doctor_id a).
  { intros a Ha Hd. destruct (Hlisted a Ha Hd) as [Hid | Hid];
      [exists d1 | exists d2]; (split; [simpl; tauto | symmetry; exact Hid]). }
  destruct (collect_recommendations_returns F now appts [d1; d2] Hlisted')
    as [recs Hrecs].
  destruct (collect_recommendations_parts _ _ _ _ _ Hrecs) as (ob & Hob & Heq).
  fold today in Hob, Heq.
  assert (Hlen_today : len today = 13).
  { rewrite (split_two_ids today _ _ Hids Htoday). lia. }
  (* overbooking: at most one finding per distinct doctor of the day *)
  assert (Hob_len : (length ob <= 2)%nat).
  { destruct (for_each_ranked _ 1 _ _ (overbooking_check_spec F [d1; d2]) Hob)
      as [_ Hle].
    rewrite value_counts_length in Hle.
    pose proof (nodup_two_values (unique (map doctor_id today))
                  (doc_id d1) (doc_id d2) (unique_NoDup _)) as Htwo.
    etransitivity; [exact Hle|]. apply Htwo.
    intros k Hk. apply (proj1 (unique_In _ _)) in Hk.
    apply in_map_iff in Hk as (a & <- & Ha). apply Htoday, Ha. }
  (* peak congestion: thirteen appointments cannot exceed thirty *)
  assert (Hpk : peak_findings now appts = []).
  { unfold peak_findings. destruct (_ && _); [|reflexivity]. cbv zeta.
    match goal with |- context [30 <? len (List.filter ?f appts)] =>
      assert (Hup : len (List.filter f appts) <= len today) end.
    { unfold today.
      rewrite <- (filter_filter_andb
                    (fun a => on_date (dt_date now) a
                              && (dt_time now <=? appointment_time a))
                    (fun a => appointment_time a <? dt_time (add_hours now 2))).
      rewrite <- (filter_filter_andb (on_date (dt_date now))
                    (fun a => dt_time now <=? appointment_time a)).
      etransitivity; [apply len_filter_le|]. apply len_filter_le. }
    destruct (Z.ltb_spec 30 (len (List.filter
      (fun a => on_date (dt_date now) a && (dt_time now <=? appointment_time a)
                && (appointment_time a <? dt_time (add_hours now 2))) appts)));
      [lia | reflexivity]. }
  (* underutilisation: only the doctor with three appointments can fire *)
  assert (Hun : (length (flat_map (underutilized_check today) [d1; d2]) <= 1)%nat).
  { cbn [flat_map]. rewrite app_nil_r, length_app.
    unfold underutilized_check at 1. rewrite Hc1. cbn.
    apply underutilized_check_spec. }
  pose proof (proj2 (early_findings_spec F today)) as Hea.
  (* imbalance: the single specialty fires *)
  assert (Him : flat_map (imbalance_check today [d1; d2])
                  (unique (map specialty [d1; d2]))
                = [SpecialtyImbalance (specialty d1)]).
  { cbn [map unique List.filter]. rewrite <- Hsp.
    rewrite bool_decide_eq_false_2 by (intros Hne; apply Hne; reflexivity).
    cbn [flat_map]. rewrite app_nil_r.
    apply (imbalance_check_fires today [d1; d2] (specialty d1) d1 d2);
      try assumption; try reflexivity; try (simpl; tauto); try lia.
    symmetry. exact Hsp. }
  rewrite Hpk, Him in Heq. cbn [app] in Heq.
  exists (ob ++ flat_map (underutilized_check today) [d1; d2]
             ++ early_findings F today).
  split.
  - rewrite Hrecs, Heq. f_equal. rewrite <- !app_assoc. reflexivity.
  - rewrite !length_app. lia.
Qed.

Lemma count_on_day_pos_today (appts : list Appointment) (did : Z) (day : date) :
  1 <= count_on_day appts did day ->
  is_empty appts = false /\ is_empty (List.filter (on_date day) appts) = false.
Proof.
  rewrite count_on_day_today. intros Hpos.
  destruct (List.filter (on_date day) appts) as [|a today] eqn:Hf.
  - unfold len in Hpos. simpl in Hpos. lia.
  - split; [|reflexivity]. destruct appts; [discriminate | reflexivity].
Qed.

(** The statement of C7 fails in two ways. Two cardiologists have 10 and 3
    appointments on the day, but five idle doctors of another specialty fill
    the five places of the returned list before the imbalance check is
    reached. And with 1 and 0 appointments the maximum exceeds twice the
    minimum, but the doctor without appointments is not counted. *)
Lemma specialty_imbalance_not_emitted :
  let now := mkDateTime monday (at_time 10 0) in
  (count_on_day busy_day 1 monday = 10 /\
   count_on_day busy_day 2 monday = 3 /\
   exists out,
     get_recommendations exact_tests now busy_day
       (cardiologists ++ idle_dermatologists) = Returned out /\
     ~ In (SpecialtyImbalance "Cardiology") out) /\
  (let one := [sample_appointment 1 1 monday 11 false] in
   count_on_day one 1 monday = 1 /\
   count_on_day one 2 monday = 0 /\
   exists out,
     get_recommendations exact_tests now one cardiologists = Returned out /\
     ~ In (SpecialtyImbalance "Cardiology") out).
Proof.
  split; (split; [reflexivity|]); (split; [reflexivity|]);
    eexists; (split; [vm_compute; reflexivity|]);
    simpl; intuition discriminate.
Qed.

(** C7, amended. Let the doctor ids be distinct and every appointment of the
    day name a listed doctor. Whenever a doctor of a specialty has more than
    twice the appointments today of another doctor of that specialty who has
    at least one, the specialty-imbalance finding is among the findings
    collected, and it is returned when fewer than five findings precede it.
    In particular, when the doctor frame consists of two doctors of one
    specialty with 10 and 3 appointments today, the finding is returned. *)
Theorem specialty_imbalance_emitted (F : FloatTests) (now : DateTime)
  (appts : list Appointment) (docs : list Doctor) :
  List.NoDup (map doc_id docs) ->
  (forall a, In a appts -> appointment_date a = dt_date now ->
             exists d, In d docs /\ doc_id d = doctor_id a) ->
  (forall sp d_max d_min,
     In d_max docs -> In d_min docs ->
     specialty d_max = sp -> specialty d_min = sp ->
     1 <= count_on_day appts (doc_id d_min) (dt_date now) ->
     2 * count_on_day appts (doc_id d_min) (dt_date now)
       < count_on_day appts (doc_id d_max) (dt_date now) ->
     exists before after,
       collect_recommendations F now appts docs
         = Returned (before ++ SpecialtyImbalance sp :: after) /\
       get_recommendations F now appts docs
         = Returned (take 5 (before ++ SpecialtyImbalance sp :: after)) /\
       ((length before < 5)%nat ->
        In (SpecialtyImbalance sp)
          (take 5 (before ++ SpecialtyImbalance sp :: after)))) /\
  (forall d1 d2,
     docs = [d1; d2] -> specialty d1 = specialty d2 ->
     count_on_day appts (doc_id d1) (dt_date now) = 10 ->
     count_on_day appts (doc_id d2) (dt_date now) = 3 ->
     exists out,
       get_recommendations F now appts docs = Returned out /\
       In (SpecialtyImbalance (specialty d1)) out).
Proof.
  intros Hnd Hlisted.
  assert (Hget : forall recs did,
            1 <= count_on_day appts did (dt_date now) ->
            docs <> [] -> recs <> [] ->
            collect_recommendations F now appts docs = Returned recs ->
            get_recommendations F now appts docs = Returned (take 5 recs)).
  { intros recs did Hpos Hdocs Hrecs Hc. unfold get_recommendations.
    destruct (count_on_day_pos_today _ _ _ Hpos) as [-> ->].
    destruct docs; [congruence|]. cbn [is_empty orb].
    rewrite Hc. cbn. rewrite take_5_limit by exact Hrecs. reflexivity. }
  split.
  - intros sp d_max d_min Hmax Hmin Hsmax Hsmin Hone Hgap.
    destruct (imbalance_collected F now appts docs sp d_max d_min)
      as (ob & im1 & im2 & _ & _ & Hc); try assumption.
    eexists _, im2. split; [exact Hc|]. split.
    + apply (Hget _ (doc_id d_min)); try assumption.
      * intros ->. destruct Hmax.
      * intros Hnil. apply (f_equal (@length Finding)) in Hnil.
        rewrite length_app in Hnil. simpl in Hnil. lia.
    + apply In_take.
  - intros d1 d2 -> Hsp Hc1 Hc2.
    assert (Hids : doc_id d1 <> doc_id d2).
    { inversion Hnd as [|? ? Hx _]; subst. intros Heq. apply Hx.
      left. symmetry. exact Heq. }
    destruct (two_doctor_scenario F now appts d1 d2) as (before & Hc & Hlen);
      try assumption.
    { intros a Ha Hd. destruct (Hlisted a Ha Hd) as (d & [<- | [<- | []]] & Hid);
        [left | right]; symmetry; exact Hid. }
    exists (take 5 (before ++ [SpecialtyImbalance (specialty d1)])). split.
    + apply (Hget _ (doc_id d2)); try assumption; try lia; try discriminate.
      intros Hnil. apply (f_equal (@length Finding)) in Hnil.
      rewrite length_app in Hnil. simpl in Hnil. lia.
    + apply In_take. lia.
Qed.

Lemma specialty_imbalance_emitted_witness :
  let now := mkDateTime monday (at_time 10 0) in
  exists out,
    get_recommendations exact_tests now busy_day cardiologists = Returned out /\
    In (SpecialtyImbalance "Cardiology") out.
Proof.
  intros now.
  assert (Hnd : List.NoDup (map doc_id cardiologists)).
  { repeat constructor; simpl; intuition discriminate. }
  assert (Hlisted : forall a, In a busy_day -> appointment_date a = dt_date now ->
                      exists d, In d cardiologists /\ doc_id d = doctor_id a).
  { intros a Ha _. apply in_app_or in Ha as [Ha | Ha];
      apply in_map_iff in Ha as (i & <- & _);
      [exists (sample_doctor 1 "Cardiology" 15 true)
      | exists (sample_doctor 2 "Cardiology" 15 true)];
      (split; [simpl; tauto | reflexivity]). }
  exact (proj2 (specialty_imbalance_emitted exact_tests now busy_day
                  cardiologists Hnd Hlisted)
           (sample_doctor 1 "Cardiology" 15 true)
           (sample_doctor 2 "Cardiology" 15 true)
           eq_refl eq_refl eq_refl eq_refl).
Defined.

(** * Further properties *)

(** ** WaitTimePredictor: training and batch prediction *)

Lemma preprocess_data_nonempty (a : Appointment) (appts : list Appointment)
  (d : Doctor) (docs : list Doctor) :
  exists x X y0 y,
    preprocess_data (a :: appts) (d :: docs) = (x :: X, y0 :: y).
Proof.
  unfold preprocess_data, merge_left. cbn [flat_map].
  destruct (left_rows_nonempty (d :: docs) a) as (r & rest & ->).
  cbn [app map]. eauto.
Qed.

(** X1. When splitting, fitting and persisting all succeed on non-empty
    frames, [train] returns [True] and leaves a predictor that does not
    depend on the previous one: the fitted pipeline is stored, the flag is
    set, the importances are those of the new model, and [predict] answers
    with the new model's first prediction clamped at 0. *)
Theorem train_success_installs_model (B : Backend) (p : WaitTimePredictor)
  (appts : list Appointment) (docs : list Doctor)
  (X_train X_test : list FeatureRow) (y_train y_test : list Z) (r : Regressor) :
  appts <> [] -> docs <> [] ->
  train_test_split B (fst (preprocess_data appts docs))
    (snd (preprocess_data appts docs))
    = Some (X_train, X_test, y_train, y_test) ->
  pipeline_fit B X_train y_train = Some r ->
  joblib_dump B r = true ->
  train B p appts docs
    = (Returned true,
       mkPredictor (Some (Fitted r)) true (Some (feature_importances B r))) /\
  get_feature_importance (snd (train B p appts docs)) = feature_importances B r /\
  forall features,
    predict (snd (train B p appts docs)) features
    = match r features with
      | Some (x :: _) => clamp0 x
      | _ => 30%Q
      end.
Proof.
  intros Ha Hd Hsplit Hfit Hdump.
  destruct appts as [|a appts]; [congruence|].
  destruct docs as [|d docs]; [congruence|].
  assert (Htrain : train B p (a :: appts) (d :: docs)
            = (Returned true,
               mkPredictor (Some (Fitted r)) true
                 (Some (feature_importances B r)))).
  { unfold train. cbn [is_empty orb].
    destruct (preprocess_data_nonempty a appts d docs)
      as (x & X & y0 & y & Hpre).
    rewrite Hpre in *. cbn [fst snd] in Hsplit.
    cbn [is_empty orb length]. rewrite Hsplit, Hfit, Hdump. reflexivity. }
  rewrite Htrain. split; [reflexivity|]. split; reflexivity.
Qed.

Lemma train_success_installs_model_witness :
  let a i := sample_appointment i 1 monday 11 false in
  let d := sample_doctor 1 "ENT" 10 true in
  train sample_backend untrained [a 1; a 2; a 3] [d]
    = (Returned true,
       mkPredictor (Some (Fitted (constant_regressor 15))) true (Some [])) /\
  predict (snd (train sample_backend untrained [a 1; a 2; a 3] [d]))
    [feature_row (a 1, Some d)] = 15%Q.
Proof.
  intros a d.
  destruct (train_success_installs_model sample_backend untrained
              [a 1; a 2; a 3] [d]
              [feature_row (a 1, Some d); feature_row (a 2, Some d)]
              [feature_row (a 3, Some d)] [12; 12] [12]
              (constant_regressor 15))
    as (Htrain & _ & Hpredict); try discriminate; try reflexivity.
  split; [exact Htrain|]. rewrite Hpredict. reflexivity.
Defined.

(** X2. [train] returns [False] exactly when the appointment frame or the
    doctor frame is empty, and a call that returns [False] leaves the
    predictor as it was. *)
Theorem train_false_iff_empty_frame (B : Backend) (p : WaitTimePredictor)
  (appts : list Appointment) (docs : list Doctor) :
  (fst (train B p appts docs) = Returned false <-> appts = [] \/ docs = []) /\
  (fst (train B p appts docs) = Returned false ->
   snd (train B p appts docs) = p).
Proof.
  split; [|apply train_false_keeps_predictor].
  split.
  - destruct appts as [|a appts]; [intros _; left; reflexivity|].
    destruct docs as [|d docs]; [intros _; right; reflexivity|].
    unfold train. cbn [is_empty orb].
    destruct (preprocess_data_nonempty a appts d docs)
      as (x & X & y0 & y & ->).
    cbn [is_empty orb length].
    destruct (train_test_split B _ _) as [[[[X_train X_test] y_train] y_test]|];
      [|discriminate].
    destruct (pipeline_fit B X_train y_train) as [r|]; [|discriminate].
    destruct (joblib_dump B r); discriminate.
  - intros [-> | ->]; [reflexivity|]. unfold train.
    destruct appts; reflexivity.
Qed.

Lemma train_false_iff_empty_frame_witness :
  train sample_backend (trained_with (constant_regressor 12)) []
    [sample_doctor 1 "ENT" 10 true]
  = (Returned false, trained_with (constant_regressor 12)).
Proof.
  pose proof (train_false_iff_empty_frame sample_backend
                (trained_with (constant_regressor 12)) []
                [sample_doctor 1 "ENT" 10 true]) as [Hiff Hkeep].
  assert (Hfalse : fst (train sample_backend
                          (trained_with (constant_regressor 12)) []
                          [sample_doctor 1 "ENT" 10 true]) = Returned false).
  { apply Hiff. left. reflexivity. }
  specialize (Hkeep Hfalse).
  destruct (train _ _ _ _) as [o q]. cbn [fst snd] in *. congruence.
Defined.

(** X3. [train] never clears [model_trained] and sets it only when it returns
    [True]. So a predictor that was never trained still answers the default
    30, from [predict] and for every row of [predict_batch], after any call of
    [train] that fails or raises. *)
Theorem train_flag_only_set_on_success (B : Backend) (p : WaitTimePredictor)
  (appts : list Appointment) (docs : list Doctor) :
  (model_trained (snd (train B p appts docs)) = true <->
   model_trained p = true \/ fst (train B p appts docs) = Returned true) /\
  (model_trained p = false ->
   fst (train B p appts docs) <> Returned true ->
   forall now features appointments_df doctors_df,
     predict (snd (train B p appts docs)) features = 30%Q /\
     predict_batch (snd (train B p appts docs)) now appointments_df doctors_df
       = Returned (map (fun a => (a, 30%Q)) (frame_rows appointments_df))).
Proof.
  assert (Hflag : model_trained (snd (train B p appts docs)) = true <->
                  model_trained p = true \/
                  fst (train B p appts docs) = Returned true).
  { unfold train.
    destruct (is_empty appts || is_empty docs);
      [cbn; intuition discriminate|].
    destruct (preprocess_data appts docs) as [X y].
    destruct (is_empty X || (Z.of_nat (length y) =? 0));
      [cbn; intuition discriminate|].
    destruct (train_test_split B X y) as [[[[X_train X_test] y_train] y_test]|];
      [|cbn; intuition discriminate].
    destruct (pipeline_fit B X_train y_train) as [r|];
      [|cbn; intuition discriminate].
    destruct (joblib_dump B r); cbn; intuition discriminate. }
  split; [exact Hflag|].
  intros Hp Hfail now features appointments_df doctors_df.
  assert (Hoff : model_trained (snd (train B p appts docs)) = false).
  { apply not_true_is_false. intros Hm.
    apply (proj1 Hflag) in Hm as [Hm | Hm]; congruence. }
  split.
  - unfold predict. rewrite Hoff. reflexivity.
  - unfold predict_batch. rewrite Hoff. reflexivity.
Qed.

Lemma train_flag_only_set_on_success_witness :
  let a := sample_appointment 1 1 monday 11 false in
  let d := sample_doctor 1 "ENT" 10 true in
  fst (train sample_backend untrained [a] [d]) = Raised /\
  predict (snd (train sample_backend untrained [a] [d]))
    [feature_row (a, Some d)] = 30%Q.
Proof.
  intros a d. split; [reflexivity|].
  apply (proj2 (train_flag_only_set_on_success sample_backend untrained [a] [d])
           eq_refl ltac:(discriminate) (mkDateTime monday 0)
           [feature_row (a, Some d)] NoColumns NoColumns).
Defined.

(** X4. [predict_batch] has no exception handler: with a trained model and at
    least one upcoming appointment of the day, an exception of the model's
    [predict] leaves [predict_batch], whereas [predict] answers the same
    failure with the default 30. *)
Theorem predict_batch_propagates_model_error (p : WaitTimePredictor)
  (m : Pipeline) (now : DateTime) (appts : list Appointment)
  (docs : list Doctor) :
  model_trained p = true -> model p = Some m ->
  List.filter (upcoming_today now) appts <> [] ->
  pipeline_predict m
    (map feature_row (merge_left (List.filter (upcoming_today now) appts) docs))
    = None ->
  predict_batch p now (Table appts) (Table docs) = Raised /\
  predict p
    (map feature_row (merge_left (List.filter (upcoming_today now) appts) docs))
    = 30%Q.
Proof.
  intros Ht Hm Htoday Hfail. unfold predict_batch, predict.
  rewrite Ht, Hm, Hfail.
  destruct (List.filter (upcoming_today now) appts); [congruence|].
  split; reflexivity.
Qed.

Lemma predict_batch_propagates_model_error_witness :
  let now := mkDateTime monday (at_time 10 0) in
  let a := sample_appointment 1 1 monday 11 false in
  let d := sample_doctor 1 "ENT" 10 true in
  predict_batch (trained_with (fun _ => None)) now (Table [a]) (Table [d])
  = Raised /\
  predict (trained_with (fun _ => None)) [feature_row (a, Some d)] = 30%Q.
Proof.
  intros now a d.
  apply (predict_batch_propagates_model_error (trained_with (fun _ => None))
           (Fitted (fun _ => None)) now [a] [d]);
    try reflexivity; discriminate.
Defined.

Lemma left_rows_length (docs : list Doctor) (a : Appointment) :
  (1 <= length (left_rows docs a))%nat /\
  (length (List.filter (fun d => (doc_id d =? doctor_id a)%Z) docs)
   <= length (left_rows docs a))%nat.
Proof.
  unfold left_rows.
  destruct (List.filter _ docs) as [|d ds]; simpl; [lia|].
  rewrite length_map. lia.
Qed.

Lemma merge_left_grows (appts : list Appointment) (docs : list Doctor)
  (a : Appointment) :
  In a appts ->
  (2 <= length (List.filter (fun d => (doc_id d =? doctor_id a)%Z) docs))%nat ->
  (length appts < length (merge_left appts docs))%nat.
Proof.
  intros Hin Htwo. unfold merge_left.
  assert (Hge : forall l, (length l <= length (flat_map (left_rows docs) l))%nat).
  { induction l as [|x l IH]; cbn [flat_map]; [reflexivity|].
    rewrite length_app. pose proof (left_rows_length docs x). simpl. lia. }
  induction appts as [|x appts IH]; [destruct Hin|].
  cbn [flat_map]. rewrite length_app. simpl length.
  destruct Hin as [-> | Hin].
  - pose proof (left_rows_length docs a). pose proof (Hge appts). lia.
  - pose proof (left_rows_length docs x). specialize (IH Hin). lia.
Qed.

(** X5. A doctor id that occurs on two rows of the doctor frame breaks
    [predict_batch]: when an upcoming appointment of the day names that
    doctor, the left merge has more rows than the filtered appointments.
    A model that answers with one prediction per feature row, as a fitted
    pipeline does whenever it answers, then makes the assignment of the
    prediction column raise; a model that raises does so through
    [predict_batch] as well. *)
Theorem predict_batch_duplicate_doctor_raises (p : WaitTimePredictor)
  (m : Pipeline) (now : DateTime) (appts : list Appointment)
  (docs : list Doctor) (a : Appointment) :
  model_trained p = true -> model p = Some m ->
  (forall X preds, pipeline_predict m X = Some preds ->
                   length preds = length X) ->
  In a appts -> upcoming_today now a = true ->
  (2 <= length (List.filter (fun d => (doc_id d =? doctor_id a)%Z) docs))%nat ->
  predict_batch p now (Table appts) (Table docs) = Raised.
Proof.
  intros Ht Hm Hrows Hin Hup Htwo. unfold predict_batch. rewrite Ht, Hm.
  set (today := List.filter (upcoming_today now) appts).
  assert (Ha : In a today) by (apply filter_In; split; assumption).
  destruct (is_empty today) eqn:He.
  { apply is_empty_true in He. rewrite He in Ha. destruct Ha. }
  destruct (pipeline_predict m (map feature_row (merge_left today docs)))
    as [preds|] eqn:Hp; [|reflexivity].
  pose proof (Hrows _ _ Hp) as Hlen. rewrite length_map in Hlen.
  pose proof (merge_left_grows today docs a Ha Htwo) as Hgrow.
  destruct (Nat.eqb_spec (length preds) (length today)); [lia | reflexivity].
Qed.

Lemma predict_batch_duplicate_doctor_raises_witness :
  let now := mkDateTime monday (at_time 10 0) in
  let a := sample_appointment 1 1 monday 11 false in
  let m : Regressor :=
    fun X => match X with [] => None | _ => Some (map (fun _ => 7%Q) X) end in
  predict_batch (trained_with m) now (Table [a])
    (Table [sample_doctor 1 "ENT" 10 true; sample_doctor 1 "ENT" 12 true])
  = Raised.
Proof.
  intros now a m.
  apply (predict_batch_duplicate_doctor_raises
           (trained_with m) (Fitted m) now [a] _ a).
  - reflexivity.
  - reflexivity.
  - intros X preds. unfold pipeline_predict, m.
    destruct X as [|x X]; [discriminate|].
    intros [= <-]. cbn [length]. rewrite length_map. reflexivity.
  - left. reflexivity.
  - reflexivity.
  - simpl. lia.
Defined.

(** ** ScheduleOptimizer: what a slot carries and which slots are offered *)

Lemma slots_per_hour_minute (sph idx : Z) :
  1 <= sph -> 0 <= idx < sph -> 0 <= (60 / sph) * idx < 60.
Proof.
  intros Hs Hi.
  assert (Hq : 0 <= 60 / sph) by (apply Z.div_pos; lia).
  pose proof (Z.mul_div_le 60 sph ltac:(lia)) as Hle.
  split; [nia|].
  destruct (Z.eq_dec (60 / sph) 0) as [-> | Hne]; [lia|]. nia.
Qed.

Lemma hour_slots_detail (now : DateTime) (appts : list Appointment)
  (d : Doctor) (sph : Z) (day : date) (busy : gmap Z Z) (hour : Z) (s : Slot) :
  In s (hour_slots now appts d sph day busy hour) <->
  exists idx,
    0 <= idx < sph - default 0 (busy !! hour) /\
    s = mkSlot (doc_id d) (doctor_name d) (specialty d) day hour
          ((60 / sph) * idx) (avg_consultation_time d)
          ((if (peak_start_hour <=? hour) && (hour <? peak_end_hour)
            then 100 - avg_consultation_time d else 50)
           - calculate_doctor_backlog (doc_id d) now appts * 10)
          ((peak_start_hour <=? hour) && (hour <? peak_end_hour)).
Proof.
  unfold hour_slots.
  destruct (Z.leb_spec sph (default 0 (busy !! hour))) as [Hfull|Hfree].
  - split; [intros [] | intros (idx & Hidx & _); lia].
  - cbv zeta. rewrite in_map_iff. split.
    + intros (idx & <- & Hin). exists idx. split; [|reflexivity].
      apply list_elem_of_In, elem_of_seqZ in Hin. lia.
    + intros (idx & Hidx & ->). exists idx. split; [reflexivity|].
      apply list_elem_of_In, elem_of_seqZ. lia.
Qed.

Lemma day_slots_detail (now : DateTime) (appts : list Appointment)
  (d : Doctor) (sph offset : Z) (s : Slot) :
  In s (day_slots now appts d sph offset) <->
  weekday (dt_date now + offset) < 5 /\
  exists hour idx,
    9 <= hour < 21 /\
    0 <= idx < sph - bookings_in_hour appts (doc_id d) (dt_date now + offset) hour /\
    s = mkSlot (doc_id d) (doctor_name d) (specialty d)
          (dt_date now + offset) hour ((60 / sph) * idx)
          (avg_consultation_time d)
          ((if (peak_start_hour <=? hour) && (hour <? peak_end_hour)
            then 100 - avg_consultation_time d else 50)
           - calculate_doctor_backlog (doc_id d) now appts * 10)
          ((peak_start_hour <=? hour) && (hour <? peak_end_hour)).
Proof.
  unfold day_slots.
  destruct (Z.leb_spec 5 (weekday (dt_date now + offset))) as [Hwe|Hwd].
  - split; [intros [] | intros [Hlt _]; lia].
  - cbv zeta. rewrite in_flat_map. split.
    + intros (hour & Hh & Hin). split; [exact Hwd|].
      apply hour_slots_detail in Hin as (idx & Hidx & ->).
      rewrite existing_bookings in Hidx.
      apply list_elem_of_In, elem_of_seqZ in Hh.
      exists hour, idx. repeat split; try lia.
    + intros (_ & hour & idx & Hh & Hidx & ->). exists hour. split.
      * apply list_elem_of_In, elem_of_seqZ. lia.
      * apply hour_slots_detail. exists idx. rewrite existing_bookings.
        split; [exact Hidx | reflexivity].
Qed.

Lemma for_each_incl {A B} (body : A -> Outcome (list B)) (l : list A)
  (ys zs : list B) (x : A) (y : B) :
  for_each body l = Returned ys -> In x l -> body x = Returned zs ->
  In y zs -> In y ys.
Proof.
  revert ys. induction l as [|x' l IH]; intros ys; cbn [for_each]; [intros _ []|].
  destruct (body x') as [zs'|] eqn:Hx'; [|discriminate].
  destruct (for_each body l) as [rest|]; [|discriminate].
  intros [= <-] [-> | Hin] Hzs Hy; apply in_or_app.
  - left. congruence.
  - right. apply (IH rest eq_refl Hin Hzs Hy).
Qed.

(** The slots returned, exactly *)
Lemma calculate_optimal_slots_In (now : DateTime) (appts : list Appointment)
  (docs : list Doctor) (slots : list Slot) (s : Slot) :
  appts <> [] ->
  calculate_optimal_slots now appts docs = Returned slots ->
  (In s slots <->
   exists d offset,
     In d docs /\ is_available d = true /\ 0 <= offset < 7 /\
     In s (day_slots now appts d
             (Z.max 1 (Z.quot 60 (avg_consultation_time d))) offset)).
Proof.
  intros Happts. unfold calculate_optimal_slots.
  destruct appts as [|a0 appts0]; [congruence|]. cbn [is_empty orb].
  set (appts := a0 :: appts0).
  destruct docs as [|d0 docs0].
  { intros [= <-]. split; [intros [] | intros (d & _ & [] & _)]. }
  cbn [is_empty]. set (docs := d0 :: docs0).
  destruct (is_empty (List.filter is_available docs)) eqn:He.
  { apply is_empty_true in He. intros [= <-].
    split; [intros []|]. intros (d & offset & Hd & Hav & _).
    assert (Hin : In d (List.filter is_available docs))
      by (apply filter_In; split; assumption).
    rewrite He in Hin. destruct Hin. }
  destruct (for_each (doctor_slots now appts) (List.filter is_available docs))
    as [found|] eqn:Hfound; [|discriminate].
  intros Heq. assert (Hs : slots = sort_by_priority found) by (cbn in Heq; congruence).
  subst slots. rewrite sort_by_priority_In. split.
  - intros Hin.
    destruct (for_each_returned _ _ _ Hfound s Hin) as (d & l & Hd & Hl & Hsl).
    apply filter_In in Hd as [Hd Hav].
    unfold doctor_slots in Hl.
    destruct (avg_consultation_time d =? 0); [discriminate|].
    assert (Hl' : l = flat_map (day_slots now appts d
                                  (Z.max 1 (Z.quot 60 (avg_consultation_time d))))
                        (seqZ 0 optimization_window_days)) by congruence.
    subst l. apply in_flat_map in Hsl as (offset & Hoff & Hsl).
    apply list_elem_of_In, elem_of_seqZ in Hoff.
    unfold optimization_window_days in Hoff.
    exists d, offset. repeat split; try assumption; lia.
  - intros (d & offset & Hd & Hav & Hoff & Hsl).
    assert (Hd' : In d (List.filter is_available docs))
      by (apply filter_In; split; assumption).
    destruct (doctor_slots now appts d) as [l|] eqn:Hl.
    + apply (for_each_incl _ _ _ l d s Hfound Hd' Hl).
      unfold doctor_slots in Hl.
      destruct (avg_consultation_time d =? 0); [discriminate|].
      assert (Hl' : l = flat_map (day_slots now appts d
                                    (Z.max 1 (Z.quot 60 (avg_consultation_time d))))
                          (seqZ 0 optimization_window_days)) by congruence.
      subst l. apply in_flat_map. exists offset. split; [|exact Hsl].
      apply list_elem_of_In, elem_of_seqZ. unfold optimization_window_days. lia.
    + exfalso. clear - Hfound Hd' Hl.
      revert found Hfound.
      induction (List.filter is_available docs) as [|x l IH]; [destruct Hd'|].
      intros found. cbn [for_each].
      destruct Hd' as [-> | Hin].
      * rewrite Hl. discriminate.
      * destruct (doctor_slots now appts x); [|discriminate].
        destruct (for_each (doctor_slots now appts) l) as [rest|];
          [|discriminate].
        intros _. apply (IH Hin rest eq_refl).
Qed.

(** X6. Every slot returned carries the name and specialty of an available
    doctor of the frame with its id; its peak flag is set exactly for the
    hours 17 to 19; and its minute is [(60 // slots_per_hour) * i] for a slot
    index [i] below the hour's remaining capacity, which always lies from 0
    up to 59. *)
Theorem slot_details (now : DateTime) (appts : list Appointment)
  (docs : list Doctor) (slots : list Slot) :
  calculate_optimal_slots now appts docs = Returned slots ->
  Forall (fun s =>
    exists d,
      In d docs /\ is_available d = true /\
      slot_doctor_id s = doc_id d /\
      slot_doctor_name s = doctor_name d /\
      slot_specialty s = specialty d /\
      (is_peak_hour s = true <-> 17 <= slot_hour s < 20) /\
      0 <= slot_minute s < 60 /\
      exists i,
        0 <= i < Z.max 1 (60 / avg_consultation_time d)
                 - bookings_in_hour appts (doc_id d) (slot_date s) (slot_hour s) /\
        slot_minute s = (60 / Z.max 1 (60 / avg_consultation_time d)) * i) slots.
Proof.
  intros Hret. apply Forall_forall. intros s Hs. apply list_elem_of_In in Hs.
  destruct appts as [|a0 appts0].
  { unfold calculate_optimal_slots in Hret. cbn in Hret.
    assert (slots = []) by congruence. subst. destruct Hs. }
  destruct (calculate_optimal_slots_returned _ _ _ _ Hret) as [_ Hall].
  apply (calculate_optimal_slots_In now (a0 :: appts0) docs slots s) in Hs
    as (d & offset & Hd & Hav & Hoff & Hin); [|discriminate | exact Hret].
  assert (Hct : avg_consultation_time d <> 0).
  { unfold calculate_optimal_slots in Hret. cbn [is_empty orb] in Hret.
    destruct docs as [|d0 docs0]; [destruct Hd|]. cbn [is_empty] in Hret.
    destruct (is_empty (List.filter is_available (d0 :: docs0))) eqn:He.
    { apply is_empty_true in He.
      assert (Hin' : In d (List.filter is_available (d0 :: docs0)))
        by (apply filter_In; split; assumption).
      rewrite He in Hin'. destruct Hin'. }
    destruct (for_each _ _) as [found|] eqn:Hfound; [|discriminate].
    assert (Hd' : In d (List.filter is_available (d0 :: docs0)))
      by (apply filter_In; split; assumption).
    clear - Hfound Hd'. revert found Hfound.
    induction (List.filter is_available (d0 :: docs0)) as [|x l IH];
      [destruct Hd'|].
    intros found. cbn [for_each].
    destruct (doctor_slots now (a0 :: appts0) x) as [zs|] eqn:Hx; [|discriminate].
    destruct (for_each _ l) as [rest|]; [|discriminate].
    intros _. destruct Hd' as [-> | Hin]; [|apply (IH Hin rest eq_refl)].
    apply doctor_slots_spec in Hx as [Hct _]. exact Hct. }
  apply day_slots_detail in Hin as (_ & hour & i & Hh & Hi & ->).
  rewrite slots_per_hour_floor in * by exact Hct.
  exists d. cbn [slot_doctor_id slot_doctor_name slot_specialty is_peak_hour
                 slot_hour slot_minute slot_date].
  split; [exact Hd|]. split; [exact Hav|].
  split; [reflexivity|]. split; [reflexivity|]. split; [reflexivity|].
  split.
  { unfold peak_start_hour, peak_end_hour.
    rewrite andb_true_iff, Z.leb_le, Z.ltb_lt. reflexivity. }
  split.
  { apply slots_per_hour_minute; [lia|].
    pose proof (len_nonneg (List.filter (fun a =>
      (doctor_id a =? doc_id d) && (appointment_date a =? dt_date now + offset)
      && (time_hour (appointment_time a) =? hour)) (a0 :: appts0))) as Hb.
    unfold bookings_in_hour in Hi. lia. }
  exists i. split; [exact Hi | reflexivity].
Qed.

Lemma slot_details_witness :
  let now := mkDateTime monday (at_time 10 0) in
  let appts := [sample_appointment 1 1 monday 11 false] in
  let docs := [sample_doctor 1 "ENT" 30 true] in
  exists slots,
    calculate_optimal_slots now appts docs = Returned slots /\
    Forall (fun s => 0 <= slot_minute s < 60 /\
                     (is_peak_hour s = true <-> 17 <= slot_hour s < 20)) slots.
Proof.
  intros now appts docs.
  destruct (calculate_optimal_slots_returns now appts docs) as [slots Hslots].
  { intros d [<- | []] _. discriminate. }
  exists slots. split; [exact Hslots|].
  pose proof (slot_details now appts docs slots Hslots) as Hall.
  eapply Forall_impl; [exact Hall|].
  intros s (d & _ & _ & _ & _ & _ & Hpeak & Hmin & _). split; assumption.
Defined.

(** X7. Every free place is offered: for an available doctor, a weekday
    among the seven days from the date of [asOf], an hour from 9 to 20 and a
    slot index below the hour's remaining capacity, the slot with the minute
    [(60 // slots_per_hour) * i] is returned, provided the appointment frame
    is not empty and no available doctor has a zero consultation time. *)
Theorem free_places_offered (now : DateTime) (appts : list Appointment)
  (docs : list Doctor) (d : Doctor) (offset hour i : Z) :
  appts <> [] ->
  (forall d', In d' docs -> is_available d' = true ->
              avg_consultation_time d' <> 0) ->
  In d docs -> is_available d = true ->
  0 <= offset < 7 -> weekday (dt_date now + offset) < 5 ->
  9 <= hour < 21 ->
  0 <= i < Z.max 1 (60 / avg_consultation_time d)
           - bookings_in_hour appts (doc_id d) (dt_date now + offset) hour ->
  exists slots s,
    calculate_optimal_slots now appts docs = Returned slots /\
    In s slots /\
    slot_doctor_id s = doc_id d /\
    slot_date s = dt_date now + offset /\
    slot_hour s = hour /\
    slot_minute s = (60 / Z.max 1 (60 / avg_consultation_time d)) * i.
Proof.
  intros Happts Hct Hd Hav Hoff Hwd Hh Hi.
  destruct (calculate_optimal_slots_returns now appts docs Hct) as [slots Hret].
  rewrite <- slots_per_hour_floor in * by (apply Hct; assumption).
  set (sph := Z.max 1 (Z.quot 60 (avg_consultation_time d))) in *.
  exists slots.
  eexists (mkSlot (doc_id d) (doctor_name d) (specialty d)
             (dt_date now + offset) hour ((60 / sph) * i)
             (avg_consultation_time d) _ _).
  split; [exact Hret|]. split; [|repeat split].
  apply (calculate_optimal_slots_In now appts docs slots _ Happts Hret).
  exists d, offset. repeat split; try assumption; try lia.
  apply day_slots_detail. split; [exact Hwd|].
  exists hour, i. repeat split; try lia.
Qed.

Lemma free_places_offered_witness :
  let now := mkDateTime monday (at_time 10 0) in
  let appts := [sample_appointment 1 1 monday 11 false] in
  let d := sample_doctor 1 "ENT" 30 true in
  exists slots s,
    calculate_optimal_slots now appts [d] = Returned slots /\
    In s slots /\
    slot_doctor_id s = 1 /\ slot_date s = monday /\
    slot_hour s = 11 /\ slot_minute s = 0.
Proof.
  intros now appts d.
  destruct (free_places_offered now appts [d] d 0 11 0)
    as (slots & s & Hret & Hin & Hid & Hdate & Hhour & Hmin).
  - discriminate.
  - intros d' [<- | []] _. discriminate.
  - left. reflexivity.
  - reflexivity.
  - lia.
  - vm_compute. reflexivity.
  - lia.
  - vm_compute. split; [discriminate | reflexivity].
  - exists slots, s. repeat split; assumption.
Defined.

(** ** ScheduleOptimizer: backlog and priorities *)

Lemma backlog_steps_monotone (n m : Z) :
  n <= m -> backlog_steps n <= backlog_steps m.
Proof.
  intros Hnm. unfold backlog_steps.
  repeat match goal with
         | |- context [Z.leb ?a ?b] => destruct (Z.leb_spec a b)
         end; lia.
Qed.

Lemma backlog_steps_range (n : Z) : 0 <= backlog_steps n <= 5.
Proof.
  unfold backlog_steps.
  repeat match goal with
         | |- context [Z.leb ?a ?b] => destruct (Z.leb_spec a b)
         end; lia.
Qed.

Lemma len_filter_implies {A} (f g : A -> bool) (l : list A) :
  (forall x, f x = true -> g x = true) ->
  len (List.filter f l) <= len (List.filter g l).
Proof.
  intros Himp. induction l as [|x l IH]; cbn [List.filter]; [lia|].
  destruct (f x) eqn:Hf.
  - rewrite (Himp x Hf), !len_cons. lia.
  - destruct (g x); rewrite ?len_cons; lia.
Qed.

(** X8. The backlog factor of a doctor always lies from 0 to 5; it never
    grows as the time of [asOf] advances within a day, and never shrinks when
    appointments are added to the frame. *)
Theorem calculate_doctor_backlog_monotone (did : Z) (now : DateTime)
  (appts : list Appointment) :
  0 <= calculate_doctor_backlog did now appts <= 5 /\
  (forall later,
     dt_time now <= later ->
     calculate_doctor_backlog did (mkDateTime (dt_date now) later) appts
     <= calculate_doctor_backlog did now appts) /\
  (forall more,
     calculate_doctor_backlog did now appts
     <= calculate_doctor_backlog did now (appts ++ more)).
Proof.
  rewrite !calculate_doctor_backlog_steps. split; [apply backlog_steps_range|].
  split.
  - intros later Hlater. rewrite calculate_doctor_backlog_steps.
    apply backlog_steps_monotone. unfold remaining_today. cbn [dt_date dt_time].
    apply len_filter_implies. intros a.
    rewrite !andb_true_iff, !Z.leb_le. intuition lia.
  - intros more. rewrite calculate_doctor_backlog_steps.
    apply backlog_steps_monotone. unfold remaining_today.
    rewrite List.filter_app, len_app.
    match goal with |- _ <= _ + len ?l => pose proof (len_nonneg l) end. lia.
Qed.

Lemma calculate_doctor_backlog_monotone_witness :
  let morning := mkDateTime monday (at_time 9 0) in
  let appts := map (fun i => sample_appointment i 1 monday (9 + i) false)
                 (seqZ 0 4) in
  calculate_doctor_backlog 1 (mkDateTime monday (at_time 12 0)) appts
  <= calculate_doctor_backlog 1 morning appts.
Proof.
  intros morning appts.
  apply (proj1 (proj2 (calculate_doctor_backlog_monotone 1 morning appts))
           (at_time 12 0)).
  vm_compute. discriminate.
Defined.

(** X9. Among the returned slots that share a doctor id and expected
    duration, all slots outside the peak hours have one priority, and a
    peak-hour slot has a strictly higher priority than a slot outside the
    peak hours exactly when the consultation time is below 50 minutes. *)
Theorem peak_slots_outrank_below_50 (now : DateTime)
  (appts : list Appointment) (docs : list Doctor) (slots : list Slot)
  (s1 s2 : Slot) :
  calculate_optimal_slots now appts docs = Returned slots ->
  In s1 slots -> In s2 slots ->
  slot_doctor_id s1 = slot_doctor_id s2 ->
  expected_duration s1 = expected_duration s2 ->
  is_peak_hour s2 = false ->
  (is_peak_hour s1 = false -> priority s1 = priority s2) /\
  (is_peak_hour s1 = true ->
   (priority s2 < priority s1 <-> expected_duration s1 < 50)).
Proof.
  intros Hret H1 H2 Hid Hdur Hp2.
  destruct appts as [|a0 appts0].
  { unfold calculate_optimal_slots in Hret. cbn in Hret.
    assert (slots = []) by congruence. subst. destruct H1. }
  apply (calculate_optimal_slots_In now (a0 :: appts0) docs slots s1) in H1
    as (d1 & o1 & _ & _ & _ & H1); [|discriminate | exact Hret].
  apply (calculate_optimal_slots_In now (a0 :: appts0) docs slots s2) in H2
    as (d2 & o2 & _ & _ & _ & H2); [|discriminate | exact Hret].
  apply day_slots_detail in H1 as (_ & h1 & i1 & _ & _ & ->).
  apply day_slots_detail in H2 as (_ & h2 & i2 & _ & _ & ->).
  cbn [slot_doctor_id expected_duration is_peak_hour priority] in *.
  rewrite Hid, Hdur, Hp2.
  destruct ((peak_start_hour <=? h1) && (h1 <? peak_end_hour));
    split; intros Hp; try discriminate; lia.
Qed.

Lemma peak_slots_outrank_below_50_witness :
  let now := mkDateTime monday (at_time 10 0) in
  let appts := [sample_appointment 1 1 monday 11 false] in
  let d := sample_doctor 1 "ENT" 30 true in
  let peak := mkSlot 1 "Meera Rao" "ENT" monday 17 0 30 70 true in
  let off := mkSlot 1 "Meera Rao" "ENT" monday 9 0 30 50 false in
  exists slots,
    calculate_optimal_slots now appts [d] = Returned slots /\
    (priority off < priority peak <-> expected_duration peak < 50).
Proof.
  intros now appts d peak off.
  eexists. split; [reflexivity|].
  eapply (peak_slots_outrank_below_50 now appts [d] _ peak off eq_refl);
    try reflexivity.
  - apply (proj2 (sort_by_priority_In _ _)). vm_compute. tauto.
  - apply (proj2 (sort_by_priority_In _ _)). vm_compute. tauto.
Defined.

(** ** ScheduleOptimizer: what [get_recommendations] returns and when it raises *)

Lemma collect_recommendations_ranks (F : FloatTests) (now : DateTime)
  (appts : list Appointment) (docs : list Doctor) (recs : list Finding) :
  collect_recommendations F now appts docs = Returned recs ->
  Forall (fun f => 1 <= check_rank f <= 5) recs.
Proof.
  intros Hc.
  destruct (collect_recommendations_parts _ _ _ _ _ Hc) as (ob & Hob & ->).
  repeat (apply Forall_app; split).
  - eapply Forall_impl;
      [eapply for_each_ranked; [apply overbooking_check_spec | exact Hob]|].
    simpl. intros f ->. lia.
  - eapply Forall_impl; [apply peak_findings_spec|]. simpl. intros f ->. lia.
  - apply Forall_flat_map. intros d _.
    eapply Forall_impl; [apply underutilized_check_spec|]. simpl. intros f ->. lia.
  - eapply Forall_impl; [apply early_findings_spec|]. simpl. intros f ->. lia.
  - apply Forall_flat_map. intros sp _.
    destruct (imbalance_check_spec (List.filter (on_date (dt_date now)) appts)
                docs sp) as [-> | ->]; repeat constructor; simpl; lia.
Qed.

Lemma In_take_In {A} (n : nat) (l : list A) (x : A) : In x (take n l) -> In x l.
Proof.
  intros Hin. rewrite <- (take_drop n l). apply in_or_app. left. exact Hin.
Qed.

(** A returned finding of one of the five checks was collected. *)
Lemma get_recommendations_collected (F : FloatTests) (now : DateTime)
  (appts : list Appointment) (docs : list Doctor) (out : list Finding)
  (f : Finding) :
  get_recommendations F now appts docs = Returned out ->
  In f out -> 1 <= check_rank f ->
  appts <> [] /\ docs <> [] /\
  exists recs,
    collect_recommendations F now appts docs = Returned recs /\ In f recs.
Proof.
  unfold get_recommendations. intros Hret Hin Hrank.
  destruct appts as [|a0 appts0].
  { cbn in Hret. assert (out = [InsufficientData]) by congruence. subst.
    destruct Hin as [<- | []]. simpl in Hrank. lia. }
  destruct docs as [|d0 docs0].
  { cbn in Hret. assert (out = [InsufficientData]) by congruence. subst.
    destruct Hin as [<- | []]. simpl in Hrank. lia. }
  cbn [is_empty orb] in Hret.
  destruct (is_empty (List.filter (on_date (dt_date now)) (a0 :: appts0))).
  { assert (out = [NoAppointmentsToday]) by congruence. subst.
    destruct Hin as [<- | []]. simpl in Hrank. lia. }
  destruct (collect_recommendations F now (a0 :: appts0) (d0 :: docs0))
    as [recs|]; [|discriminate].
  assert (Hout : out = limit_recommendations recs) by (cbn in Hret; congruence).
  split; [discriminate|]. split; [discriminate|].
  exists recs. split; [reflexivity|]. subst out.
  destruct (limit_recommendations_spec recs) as (Hnil & Hsome & _).
  destruct recs as [|r recs'].
  - rewrite Hnil in Hin by reflexivity. destruct Hin as [<- | []].
    simpl in Hrank. lia.
  - rewrite Hsome in Hin by discriminate. apply In_take_In in Hin. exact Hin.
Qed.

(** X10. Whatever [get_recommendations] returns is a non-empty list of at
    most five messages; the insufficient-data, no-appointments and
    nothing-needed messages only ever appear as the single element of the
    list. *)
Theorem get_recommendations_never_empty (F : FloatTests) (now : DateTime)
  (appts : list Appointment) (docs : list Doctor) (out : list Finding) :
  get_recommendations F now appts docs = Returned out ->
  out <> [] /\ (length out <= 5)%nat /\
  (forall f, In f out -> check_rank f = 0 -> out = [f]).
Proof.
  unfold get_recommendations. intros Hret.
  destruct (is_empty appts || is_empty docs).
  { assert (out = [InsufficientData]) by congruence. subst.
    split; [discriminate|]. split; [simpl; lia|].
    intros f [<- | []] _. reflexivity. }
  destruct (is_empty (List.filter (on_date (dt_date now)) appts)).
  { assert (out = [NoAppointmentsToday]) by congruence. subst.
    split; [discriminate|]. split; [simpl; lia|].
    intros f [<- | []] _. reflexivity. }
  destruct (collect_recommendations F now appts docs) as [recs|] eqn:Hc;
    [|discriminate].
  assert (Hout : out = limit_recommendations recs) by (cbn in Hret; congruence).
  subst out.
  destruct (limit_recommendations_spec recs) as (Hnil & Hsome & Hlen).
  pose proof (collect_recommendations_ranks _ _ _ _ _ Hc) as Hranks.
  destruct recs as [|r recs'].
  - rewrite Hnil by reflexivity.
    split; [discriminate|]. split; [simpl; lia|].
    intros f [<- | []] _. reflexivity.
  - rewrite Hsome by discriminate.
    split; [discriminate|]. split; [rewrite length_take; lia|].
    intros f Hin Hzero. apply In_take_In in Hin.
    rewrite Forall_forall in Hranks.
    apply list_elem_of_In, Hranks in Hin. lia.
Qed.

Lemma get_recommendations_never_empty_witness :
  exists out,
    get_recommendations exact_tests (mkDateTime monday (at_time 10 0))
      busy_day (cardiologists ++ idle_dermatologists) = Returned out /\
    out <> [] /\ (length out <= 5)%nat.
Proof.
  eexists. split; [reflexivity|].
  pose proof (get_recommendations_never_empty exact_tests
                (mkDateTime monday (at_time 10 0)) busy_day
                (cardiologists ++ idle_dermatologists) _ eq_refl)
    as (Hne & Hlen & _).
  split; assumption.
Defined.

(** X11. [get_recommendations] raises exactly when the doctor frame is not
    empty and some appointment on the day of [asOf] names a doctor id that no
    row of the doctor frame has; in every other case it returns. *)
Theorem get_recommendations_raises_iff (F : FloatTests) (now : DateTime)
  (appts : list Appointment) (docs : list Doctor) :
  get_recommendations F now appts docs = Raised <->
  docs <> [] /\
  exists a, In a appts /\ appointment_date a = dt_date now /\
            ~ exists d, In d docs /\ doc_id d = doctor_id a.
Proof.
  unfold get_recommendations.
  destruct appts as [|a0 appts0].
  { cbn. split; [discriminate | intros (_ & a & [] & _)]. }
  destruct docs as [|d0 docs0].
  { cbn. split; [discriminate | intros [Hne _]; congruence]. }
  cbn [is_empty orb]. set (appts := a0 :: appts0). set (docs := d0 :: docs0).
  destruct (is_empty (List.filter (on_date (dt_date now)) appts)) eqn:He.
  { apply is_empty_true in He. split; [discriminate|].
    intros (_ & a & Ha & Hd & _). exfalso.
    assert (Hin : In a (List.filter (on_date (dt_date now)) appts)).
    { apply filter_In. split; [exact Ha | apply Z.eqb_eq, Hd]. }
    rewrite He in Hin. exact Hin. }
  assert (Hcollect : collect_recommendations F now appts docs = Raised <->
            exists a, In a appts /\ appointment_date a = dt_date now /\
                      ~ exists d, In d docs /\ doc_id d = doctor_id a).
  { unfold collect_recommendations.
    destruct (for_each (overbooking_check F docs) _) as [ob|] eqn:Hob; cbn.
    - split; [discriminate|]. intros (a & Ha & Hd & Hno). exfalso.
      assert (Hr : for_each (overbooking_check F docs)
                     (value_counts (map doctor_id
                        (List.filter (on_date (dt_date now)) appts))) = Raised).
      { apply for_each_raised.
        exists (doctor_id a,
                count_of (doctor_id a)
                  (map doctor_id (List.filter (on_date (dt_date now)) appts))).
        split; [|apply overbooking_check_raised; exact Hno].
        apply value_counts_In. split; [|reflexivity].
        apply in_map, filter_In. split; [exact Ha | apply Z.eqb_eq, Hd]. }
      congruence.
    - split; [|reflexivity]. intros _.
      apply for_each_raised in Hob as ([did count] & Hin & Hr).
      apply value_counts_In in Hin as [Hin _].
      apply in_map_iff in Hin as (a & <- & Ha).
      apply filter_In in Ha as [Ha Hd]. apply Z.eqb_eq in Hd.
      exists a. split; [exact Ha|]. split; [exact Hd|].
      apply overbooking_check_raised in Hr. exact Hr. }
  destruct (collect_recommendations F now appts docs) as [recs|]; cbn.
  - split; [discriminate|]. intros [_ Hex].
    apply Hcollect in Hex. discriminate.
  - split; [|reflexivity]. intros _. split; [discriminate|].
    apply Hcollect. reflexivity.
Qed.

Lemma get_recommendations_raises_iff_witness :
  get_recommendations exact_tests (mkDateTime monday (at_time 10 0))
    [sample_appointment 1 9 monday 11 false] cardiologists = Raised.
Proof.
  apply get_recommendations_raises_iff. split; [discriminate|].
  exists (sample_appointment 1 9 monday 11 false).
  split; [left; reflexivity|]. split; [reflexivity|].
  intros (d & [<- | [<- | []]] & Hid); discriminate.
Defined.

(** ** ScheduleOptimizer: every finding returned is justified *)

Lemma count_of_map_doctor_id (did : Z) (l : list Appointment) :
  count_of did (map doctor_id l)
  = len (List.filter (fun a => doctor_id a =? did) l).
Proof.
  unfold count_of, len. induction l as [|a l IH]; [reflexivity|].
  cbn [map List.filter]. destruct (doctor_id a =? did); simpl length; lia.
Qed.

Lemma count_of_In_pos (k : Z) (l : list Z) : In k l -> 1 <= count_of k l.
Proof.
  unfold count_of. induction l as [|x l IH]; [intros []|].
  cbn [List.filter]. intros [-> | Hin].
  - rewrite Z.eqb_refl, len_cons.
    pose proof (len_nonneg (List.filter (fun k' => k' =? k) l)). lia.
  - specialize (IH Hin). destruct (x =? k); rewrite ?len_cons; lia.
Qed.

(** The parts of the collected list a finding of each check can come from *)
Lemma collected_finding_origin (F : FloatTests) (now : DateTime)
  (appts : list Appointment) (docs : list Doctor) (recs : list Finding)
  (f : Finding) :
  collect_recommendations F now appts docs = Returned recs -> In f recs ->
  let today := List.filter (on_date (dt_date now)) appts in
  exists ob,
    for_each (overbooking_check F docs) (value_counts (map doctor_id today))
      = Returned ob /\
    ((check_rank f = 1 /\ In f ob) \/
     (check_rank f = 2 /\ In f (peak_findings now appts)) \/
     (check_rank f = 3 /\ In f (flat_map (underutilized_check today) docs)) \/
     (check_rank f = 4 /\ In f (early_findings F today)) \/
     (check_rank f = 5 /\
      In f (flat_map (imbalance_check today docs) (unique (map specialty docs))))).
Proof.
  intros Hc Hin today.
  destruct (collect_recommendations_parts _ _ _ _ _ Hc) as (ob & Hob & ->).
  fold today in Hob, Hin. exists ob. split; [exact Hob|].
  pose proof (proj1 (for_each_ranked _ 1 _ _ (overbooking_check_spec F docs) Hob))
    as Hr1.
  pose proof (proj1 (peak_findings_spec now appts)) as Hr2.
  assert (Hr3 : Forall (fun f => check_rank f = 3)
                  (flat_map (underutilized_check today) docs)).
  { apply Forall_flat_map. intros d _. apply underutilized_check_spec. }
  pose proof (proj1 (early_findings_spec F today)) as Hr4.
  assert (Hr5 : Forall (fun f => check_rank f = 5)
                  (flat_map (imbalance_check today docs)
                     (unique (map specialty docs)))).
  { apply Forall_flat_map. intros sp _.
    destruct (imbalance_check_spec today docs sp) as [-> | ->];
      repeat constructor. }
  rewrite Forall_forall in Hr1, Hr2, Hr3, Hr4, Hr5.
  apply in_app_or in Hin as [Hin | Hin].
  { left. split; [apply Hr1, list_elem_of_In, Hin | exact Hin]. }
  apply in_app_or in Hin as [Hin | Hin].
  { right. left. split; [apply Hr2, list_elem_of_In, Hin | exact Hin]. }
  apply in_app_or in Hin as [Hin | Hin].
  { right. right. left. split; [apply Hr3, list_elem_of_In, Hin | exact Hin]. }
  apply in_app_or in Hin as [Hin | Hin].
  { right. right. right. left.
    split; [apply Hr4, list_elem_of_In, Hin | exact Hin]. }
  right. right. right. right.
  split; [apply Hr5, list_elem_of_In, Hin | exact Hin].
Qed.

(** X12. Every underutilised-doctor message returned names an available
    doctor of the frame and that doctor's number of appointments of the day,
    which is below 5; every overbooked-doctor message returned names a doctor
    of the frame with at least one appointment of the day, that number of
    appointments, and the capacity test passed on it. *)
Theorem doctor_findings_justified (F : FloatTests) (now : DateTime)
  (appts : list Appointment) (docs : list Doctor) (out : list Finding) :
  get_recommendations F now appts docs = Returned out ->
  (forall name sp c, In (UnderutilizedDoctor name sp c) out ->
     exists d, In d docs /\ doctor_name d = name /\ specialty d = sp /\
               is_available d = true /\
               c = count_on_day appts (doc_id d) (dt_date now) /\ c < 5) /\
  (forall name sp c, In (OverbookedDoctor name sp c) out ->
     exists d, In d docs /\ doctor_name d = name /\ specialty d = sp /\
               c = count_on_day appts (doc_id d) (dt_date now) /\ 1 <= c /\
               over_85_percent_of_capacity F c (avg_consultation_time d) = true).
Proof.
  intros Hret. split; intros name sp c Hin.
  - destruct (get_recommendations_collected _ _ _ _ _ _ Hret Hin)
      as (_ & _ & recs & Hc & Hrec); [simpl; lia|].
    destruct (collected_finding_origin _ _ _ _ _ _ Hc Hrec)
      as (ob & _ & [[Hr _] | [[Hr _] | [[_ Hun] | [[Hr _] | [Hr _]]]]]);
      try discriminate.
    apply in_flat_map in Hun as (d & Hd & Hun).
    unfold underutilized_check in Hun.
    destruct (Z.ltb_spec (len (List.filter (fun a => doctor_id a =? doc_id d)
                (List.filter (on_date (dt_date now)) appts))) 5) as [Hlt|];
      [|destruct Hun].
    destruct (is_available d) eqn:Hav; [|destruct Hun].
    destruct Hun as [Heq | []]. injection Heq as <- <- <-.
    exists d. rewrite count_on_day_today. repeat split; try assumption.
  - destruct (get_recommendations_collected _ _ _ _ _ _ Hret Hin)
      as (_ & _ & recs & Hc & Hrec); [simpl; lia|].
    destruct (collected_finding_origin _ _ _ _ _ _ Hc Hrec)
      as (ob & Hob & [[_ Hov] | [[Hr _] | [[Hr _] | [[Hr _] | [Hr _]]]]]);
      try discriminate.
    destruct (for_each_returned _ _ _ Hob _ Hov) as ([did n] & zs & He & Hz & Hf).
    apply value_counts_In in He as [Hkey ->].
    unfold overbooking_check in Hz.
    destruct (List.filter (fun d => doc_id d =? did) docs) as [|d rest] eqn:Hfil;
      [discriminate|].
    assert (Hd : In d (List.filter (fun d => doc_id d =? did) docs))
      by (rewrite Hfil; left; reflexivity).
    apply filter_In in Hd as [Hd Hid]. apply Z.eqb_eq in Hid.
    destruct (over_85_percent_of_capacity F _ _) eqn:Htest;
      injection Hz as <-; [|destruct Hf].
    destruct Hf as [Heq | []]. injection Heq as <- <- <-.
    exists d. rewrite count_on_day_today, Hid, <- count_of_map_doctor_id.
    repeat split; try assumption. apply count_of_In_pos, Hkey.
Qed.

Lemma doctor_findings_justified_witness :
  exists d, In d cardiologists /\ is_available d = true /\
            3 = count_on_day busy_day (doc_id d) monday.
Proof.
  destruct (proj1 (doctor_findings_justified exact_tests
                     (mkDateTime monday (at_time 10 0)) busy_day cardiologists
                     _ eq_refl) "Meera Rao" "Cardiology" 3)
    as (d & Hd & _ & _ & Hav & Hc & _).
  { vm_compute. left. reflexivity. }
  exists d. repeat split; assumption.
Defined.

Lemma peak_window_end (now : DateTime) :
  17 <= time_hour (dt_time now) < 20 ->
  dt_time (add_hours now 2) = dt_time now + 2 * usec_per_hour.
Proof.
  unfold time_hour, add_hours, usec_per_day, usec_per_hour. cbn [dt_time].
  intros [Hlo Hhi].
  assert (Hlo' : 17 * 3600000000 <= dt_time now).
  { pose proof (Z.div_mod (dt_time now) 3600000000 ltac:(lia)).
    pose proof (Z.mod_pos_bound (dt_time now) 3600000000 ltac:(lia)). lia. }
  assert (Hhi' : dt_time now < 20 * 3600000000).
  { pose proof (Z.div_mod (dt_time now) 3600000000 ltac:(lia)).
    pose proof (Z.mod_pos_bound (dt_time now) 3600000000 ltac:(lia)). lia. }
  apply Z.mod_small. lia.
Qed.

(** X13. A congestion message is returned only when the hour of [asOf] is
    17, 18 or 19, and then it carries the number, above 30, of appointments
    of the day that start at or after the time of [asOf] and less than two
    hours later. An early-arrival message carries the number of early arrivals
    and of appointments of the day, on which the 40-percent test passed. *)
Theorem load_findings_justified (F : FloatTests) (now : DateTime)
  (appts : list Appointment) (docs : list Doctor) (out : list Finding) :
  get_recommendations F now appts docs = Returned out ->
  (forall n, In (PeakCongestion n) out ->
     17 <= time_hour (dt_time now) < 20 /\ 30 < n /\
     n = len (List.filter
                (fun a => (appointment_date a =? dt_date now)
                          && (dt_time now <=? appointment_time a)
                          && (appointment_time a <? dt_time now + 2 * usec_per_hour))
                appts)) /\
  (forall e t, In (EarlyArrivalDrift e t) out ->
     t = len (List.filter (on_date (dt_date now)) appts) /\
     e = len (List.filter arrived_early
                (List.filter (on_date (dt_date now)) appts)) /\
     over_40_percent F e t = true).
Proof.
  intros Hret. split.
  - intros n Hin.
    destruct (get_recommendations_collected _ _ _ _ _ _ Hret Hin)
      as (_ & _ & recs & Hc & Hrec); [simpl; lia|].
    destruct (collected_finding_origin _ _ _ _ _ _ Hc Hrec)
      as (ob & _ & [[Hr _] | [[_ Hpk] | [[Hr _] | [[Hr _] | [Hr _]]]]]);
      try discriminate.
    unfold peak_findings in Hpk.
    destruct ((peak_start_hour <=? time_hour (dt_time now))
              && (time_hour (dt_time now) <? peak_end_hour)) eqn:Hpeak;
      [|destruct Hpk].
    apply andb_true_iff in Hpeak as [Hlo Hhi].
    apply Z.leb_le in Hlo. apply Z.ltb_lt in Hhi.
    unfold peak_start_hour, peak_end_hour in *.
    cbv zeta in Hpk. rewrite peak_window_end in Hpk by lia.
    unfold on_date in Hpk.
    destruct (Z.ltb_spec 30 (len (List.filter
      (fun a => (appointment_date a =? dt_date now)
                && (dt_time now <=? appointment_time a)
                && (appointment_time a <? dt_time now + 2 * usec_per_hour))
      appts))) as [Hmany|]; [|destruct Hpk].
    destruct Hpk as [Heq | []]. injection Heq as <-.
    split; [lia|]. split; [exact Hmany | reflexivity].
  - intros e t Hin.
    destruct (get_recommendations_collected _ _ _ _ _ _ Hret Hin)
      as (_ & _ & recs & Hc & Hrec); [simpl; lia|].
    destruct (collected_finding_origin _ _ _ _ _ _ Hc Hrec)
      as (ob & _ & [[Hr _] | [[Hr _] | [[Hr _] | [[_ Hea] | [Hr _]]]]]);
      try discriminate.
    unfold early_findings in Hea.
    destruct (negb _); [|destruct Hea]. cbv zeta in Hea.
    destruct (over_40_percent F _ _) eqn:Htest; [|destruct Hea].
    destruct Hea as [Heq | []]. injection Heq as <- <-.
    split; [reflexivity|]. split; [reflexivity | exact Htest].
Qed.

Lemma load_findings_justified_witness :
  let now := mkDateTime monday (at_time 10 0) in
  let appts := [sample_appointment 1 1 monday 11 true;
                sample_appointment 2 1 monday 12 false] in
  2 = len (List.filter (on_date (dt_date now)) appts) /\
  1 = len (List.filter arrived_early
             (List.filter (on_date (dt_date now)) appts)) /\
  over_40_percent exact_tests 1 2 = true.
Proof.
  intros now appts.
  assert (Hret : get_recommendations exact_tests now appts
                   [sample_doctor 1 "ENT" 10 false]
                 = Returned [EarlyArrivalDrift 1 2]) by reflexivity.
  apply (proj2 (load_findings_justified exact_tests now appts _ _ Hret) 1 2).
  left. reflexivity.
Defined.

Lemma series_max_In (x : Z) (l : list Z) : In (series_max (x :: l)) (x :: l).
Proof.
  cbn [series_max]. induction l as [|y l IH]; cbn [fold_right].
  - left. reflexivity.
  - destruct (Z.max_spec y (fold_right Z.max x l)) as [[_ ->] | [_ ->]].
    + destruct IH as [IH | IH]; [left; exact IH | right; right; exact IH].
    + right. left. reflexivity.
Qed.

Lemma series_min_In (x : Z) (l : list Z) : In (series_min (x :: l)) (x :: l).
Proof.
  cbn [series_min]. induction l as [|y l IH]; cbn [fold_right].
  - left. reflexivity.
  - destruct (Z.min_spec y (fold_right Z.min x l)) as [[_ ->] | [_ ->]].
    + right. left. reflexivity.
    + destruct IH as [IH | IH]; [left; exact IH | right; right; exact IH].
Qed.

(** A key of the merged rows of a specialty is the id of a doctor of that
    specialty. *)
Lemma specialty_key_doctor (today : list Appointment) (docs : list Doctor)
  (sp : string) (k : Z) :
  In k (map (fun r => doctor_id (fst r))
          (List.filter (fun r => String.eqb (snd r) sp) (merge_inner today docs))) ->
  exists d, In d docs /\ doc_id d = k /\ specialty d = sp.
Proof.
  intros Hk. apply in_map_iff in Hk as ([a s] & <- & Hrow).
  apply filter_In in Hrow as [Hrow Hs]. cbn [snd fst] in *.
  apply String.eqb_eq in Hs. subst s.
  unfold merge_inner in Hrow. apply in_flat_map in Hrow as (a' & _ & Hrow).
  unfold inner_rows in Hrow. apply in_map_iff in Hrow as (d & Heq & Hd).
  injection Heq as -> Hsp.
  apply filter_In in Hd as [Hd Hid]. apply Z.eqb_eq in Hid.
  exists d. repeat split; assumption.
Qed.

(** X14. With distinct doctor ids, a specialty-imbalance message is returned
    only when two doctors of that specialty in the frame are such that one
    has at least one appointment of the day and the other more than twice as
    many: a doctor without appointments never causes the message. *)
Theorem imbalance_finding_justified (F : FloatTests) (now : DateTime)
  (appts : list Appointment) (docs : list Doctor) (out : list Finding)
  (sp : string) :
  List.NoDup (map doc_id docs) ->
  get_recommendations F now appts docs = Returned out ->
  In (SpecialtyImbalance sp) out ->
  exists d_max d_min,
    In d_max docs /\ In d_min docs /\
    specialty d_max = sp /\ specialty d_min = sp /\
    1 <= count_on_day appts (doc_id d_min) (dt_date now) /\
    2 * count_on_day appts (doc_id d_min) (dt_date now)
      < count_on_day appts (doc_id d_max) (dt_date now).
Proof.
  intros Hnd Hret Hin.
  destruct (get_recommendations_collected _ _ _ _ _ _ Hret Hin)
    as (_ & _ & recs & Hc & Hrec); [simpl; lia|].
  destruct (collected_finding_origin _ _ _ _ _ _ Hc Hrec)
    as (ob & _ & [[Hr _] | [[Hr _] | [[Hr _] | [[Hr _] | [_ Him]]]]]);
    try discriminate.
  set (today := List.filter (on_date (dt_date now)) appts) in *.
  apply in_flat_map in Him as (sp' & _ & Him).
  assert (Hsp : sp' = sp).
  { destruct (imbalance_check_spec today docs sp') as [He | He];
      rewrite He in Him; [destruct Him|].
    destruct Him as [Heq | []]. congruence. }
  subst sp'. unfold imbalance_check in Him.
  destruct (1 <? _); [|destruct Him].
  set (keys := map (fun r => doctor_id (fst r))
                 (List.filter (fun r => String.eqb (snd r) sp)
                    (merge_inner today docs))) in *.
  destruct (negb _); [|destruct Him]. cbv zeta in Him.
  destruct (Z.ltb_spec (2 * series_min (map snd (value_counts keys)))
              (series_max (map snd (value_counts keys)))) as [Hgap|];
    [|destruct Him].
  clear Him.
  destruct (map snd (value_counts keys)) as [|c cs] eqn:Hcs.
  { cbn in Hgap. lia. }
  assert (Hpick : forall v, In v (c :: cs) ->
            exists d, In d docs /\ specialty d = sp /\
                      v = count_on_day appts (doc_id d) (dt_date now) /\ 1 <= v).
  { intros v Hv. rewrite <- Hcs in Hv.
    apply in_map_iff in Hv as ([k n] & <- & Hkn).
    apply value_counts_In in Hkn as [Hk ->]. cbn [snd].
    destruct (specialty_key_doctor today docs sp k Hk) as (d & Hd & <- & Hds).
    exists d. split; [exact Hd|]. split; [exact Hds|].
    split; [|apply count_of_In_pos, Hk].
    rewrite count_on_day_today. fold today. unfold keys.
    apply specialty_keys_count; assumption. }
  destruct (Hpick _ (series_max_In c cs)) as (d_max & Hdm & Hsm & Hvm & _).
  destruct (Hpick _ (series_min_In c cs)) as (d_min & Hdn & Hsn & Hvn & Hone).
  exists d_max, d_min. rewrite <- Hvm, <- Hvn. repeat split; assumption.
Qed.

Lemma imbalance_finding_justified_witness :
  exists d_max d_min,
    In d_max cardiologists /\ In d_min cardiologists /\
    1 <= count_on_day busy_day (doc_id d_min) monday /\
    2 * count_on_day busy_day (doc_id d_min) monday
      < count_on_day busy_day (doc_id d_max) monday.
Proof.
  assert (Hret : get_recommendations exact_tests
                   (mkDateTime monday (at_time 10 0)) busy_day cardiologists
                 = Returned [UnderutilizedDoctor "Meera Rao" "Cardiology" 3;
                             SpecialtyImbalance "Cardiology"]) by reflexivity.
  destruct (imbalance_finding_justified exact_tests
              (mkDateTime monday (at_time 10 0)) busy_day cardiologists
              _ "Cardiology" ltac:(repeat constructor; simpl; intuition discriminate)
              Hret)
    as (d_max & d_min & H1 & H2 & _ & _ & H3 & H4).
  - right. left. reflexivity.
  - exists d_max, d_min. repeat split; assumption.
Defined.

(** ** PriorityScorer: categories by date band *)

Lemma calculate_priority_unfold (d : Z) (early : bool) (w : Z) :
  calculate_priority d early w
  = let s := date_score_of d + (if early then 10 else 0)
             + (if 30 <? w then 15 else 0) in
    (if 75 <=? s then High else if 50 <=? s then Medium else Low, s).
Proof.
  unfold calculate_priority. cbv zeta.
  destruct early, (30 <? w); rewrite ?Z.add_0_r;
    repeat match goal with
           | |- context [Z.leb ?a ?b] => destruct (Z.leb ?a ?b) eqn:?
           | |- context [Z.leb ?a ?b] => destruct (Z.leb a b)
           end; reflexivity.
Qed.

Lemma date_score_cases (d : Z) :
  (d < 0 /\ date_score_of d = 20) \/
  (d = 0 /\ date_score_of d = 100) \/
  (0 < d <= 3 /\ date_score_of d = 80) \/
  (3 < d <= 7 /\ date_score_of d = 60) \/
  (7 < d <= 14 /\ date_score_of d = 40) \/
  (14 < d /\ date_score_of d = 30).
Proof.
  destruct (date_score_of_table d) as (H0 & H1 & H2 & H3 & H4 & H5).
  destruct (Z.lt_trichotomy d 0) as [Hn | [Hz | Hp]]; [left; auto | right; left; auto |].
  destruct (Z.le_gt_cases d 3); [right; right; left; split; [lia | apply H1; lia]|].
  destruct (Z.le_gt_cases d 7);
    [right; right; right; left; split; [lia | apply H2; lia]|].
  destruct (Z.le_gt_cases d 14);
    [right; right; right; right; left; split; [lia | apply H3; lia]|].
  right; right; right; right; right. split; [lia | apply H4; lia].
Qed.

(** X15. What the date alone decides: an appointment in the past is always
    Low; an appointment today or within three days is always High; within
    four to seven days it is High exactly when the wait exceeds 30 minutes and
    Medium otherwise; beyond seven days it is never High. *)
Theorem category_by_date_band (date_diff : Z) (early : bool) (wait_time : Z) :
  (date_diff < 0 -> fst (calculate_priority date_diff early wait_time) = Low) /\
  (0 <= date_diff <= 3 ->
   fst (calculate_priority date_diff early wait_time) = High) /\
  (3 < date_diff <= 7 ->
   fst (calculate_priority date_diff early wait_time)
   = if decide (30 < wait_time) then High else Medium) /\
  (7 < date_diff ->
   fst (calculate_priority date_diff early wait_time) <> High).
Proof.
  rewrite calculate_priority_unfold. cbv zeta. cbn [fst].
  destruct (date_score_cases date_diff)
    as [[Hd ->] | [[Hd ->] | [[Hd ->] | [[Hd ->] | [[Hd ->] | [Hd ->]]]]]];
    (repeat split; intros Hb; try lia);
    destruct early; try case_decide;
    destruct (Z.ltb_spec 30 wait_time); try lia;
    cbn; solve [reflexivity | discriminate].
Qed.

Lemma category_by_date_band_witness :
  fst (calculate_priority (-2) true 90) = Low /\
  fst (calculate_priority 3 false 0) = High /\
  fst (calculate_priority 5 true 10) = Medium /\
  fst (calculate_priority 9 true 90) <> High.
Proof.
  split; [|split; [|split]].
  - apply (category_by_date_band (-2) true 90). lia.
  - apply (category_by_date_band 3 false 0). lia.
  - apply (proj1 (proj2 (proj2 (category_by_date_band 5 true 10)))). lia.
  - apply (category_by_date_band 9 true 90). lia.
Defined.

(** X16. The score lies from 20 to 125; among appointments that are not in
    the past, with the same early-arrival flag and wait, a nearer date never
    has a lower score; and a past appointment never scores above one that is
    not in the past. *)
Theorem score_monotone_in_date (d1 d2 : Z) (early : bool) (wait_time : Z) :
  20 <= snd (calculate_priority d1 early wait_time) <= 125 /\
  (0 <= d1 <= d2 ->
   snd (calculate_priority d2 early wait_time)
   <= snd (calculate_priority d1 early wait_time)) /\
  (d1 < 0 <= d2 ->
   snd (calculate_priority d1 early wait_time)
   <= snd (calculate_priority d2 early wait_time)).
Proof.
  rewrite !calculate_priority_unfold. cbv zeta. cbn [snd].
  destruct (date_score_cases d1)
    as [[H1 ->] | [[H1 ->] | [[H1 ->] | [[H1 ->] | [[H1 ->] | [H1 ->]]]]]];
    destruct (date_score_cases d2)
      as [[H2 ->] | [[H2 ->] | [[H2 ->] | [[H2 ->] | [[H2 ->] | [H2 ->]]]]]];
    destruct early, (30 <? wait_time); lia.
Qed.

Lemma score_monotone_in_date_witness :
  snd (calculate_priority 9 false 0) <= snd (calculate_priority 2 false 0) /\
  snd (calculate_priority (-1) false 0) <= snd (calculate_priority 20 false 0).
Proof.
  split.
  - apply (score_monotone_in_date 2 9 false 0). lia.
  - apply (score_monotone_in_date (-1) 20 false 0). lia.
Defined.

(** ** The appointment list *)

#[local] Instance view_order_total : Total view_order.
Proof. intros x y. unfold view_order. lia. Qed.

#[local] Instance view_order_trans : Transitive view_order.
Proof. intros x y z. unfold view_order. lia. Qed.

Lemma category_eqb_eq (c1 c2 : Category) : category_eqb c1 c2 = true <-> c1 = c2.
Proof. destruct c1, c2; simpl; split; congruence. Qed.

Lemma merge_left_In (appts : list Appointment) (docs : list Doctor)
  (a : Appointment) (d : option Doctor) :
  In (a, d) (merge_left appts docs) ->
  In a appts /\
  match d with
  | Some d' => In d' docs /\ doc_id d' = doctor_id a
  | None => True
  end.
Proof.
  unfold merge_left. rewrite in_flat_map. intros (a' & Ha' & Hrow).
  unfold left_rows in Hrow.
  destruct (List.filter (fun d => doc_id d =? doctor_id a') docs)
    as [|d0 ds] eqn:Hf.
  - destruct Hrow as [[= <- <-] | []]. split; [exact Ha' | exact I].
  - apply in_map_iff in Hrow as (d' & [= <- <-] & Hd').
    rewrite <- Hf in Hd'. apply filter_In in Hd' as [Hd' Hid].
    apply Z.eqb_eq in Hid. split; [exact Ha' | split; assumption].
Qed.

(** The rows of the list, one by one *)
Lemma priority_view_In (now : DateTime) (date_range : DateRange)
  (selected_specialty : string) (selected_priority : option Category)
  (appts : list Appointment) (docs : list Doctor)
  (rows : list PriorityRow) (r : PriorityRow) :
  priority_view now date_range selected_specialty selected_priority appts docs
    = Returned (Some rows) ->
  In r rows ->
  In (view_appointment (priority_row r), view_doctor (priority_row r))
    (merge_left appts docs) /\
  view_date_diff (priority_row r)
    = appointment_date (view_appointment (priority_row r)) - dt_date now /\
  (priority_category r, priority_score r)
    = calculate_priority (view_date_diff (priority_row r))
        (arrived_early (view_appointment (priority_row r)))
        (wait_time_minutes (view_appointment (priority_row r))) /\
  in_date_range date_range (dt_date now) (priority_row r) = true /\
  (selected_specialty <> "All Specialties" ->
   has_specialty selected_specialty (priority_row r) = true) /\
  (forall c, selected_priority = Some c -> priority_category r = c).
Proof.
  unfold priority_view.
  destruct (is_empty appts || is_empty docs); [discriminate|].
  destruct (is_empty _); [discriminate|].
  intros Hret Hin.
  assert (Hrows : rows = stable_sort view_order
            match selected_priority with
            | Some c =>
                List.filter (fun r => category_eqb (priority_category r) c)
                  (map with_priority
                     (if String.eqb selected_specialty "All Specialties"
                      then List.filter (in_date_range date_range (dt_date now))
                             (map (fun r => mkViewRow (fst r) (snd r)
                                     (appointment_date (fst r) - dt_date now))
                                (merge_left appts docs))
                      else List.filter (has_specialty selected_specialty)
                             (List.filter (in_date_range date_range (dt_date now))
                                (map (fun r => mkViewRow (fst r) (snd r)
                                        (appointment_date (fst r) - dt_date now))
                                   (merge_left appts docs)))))
            | None =>
                map with_priority
                  (if String.eqb selected_specialty "All Specialties"
                   then List.filter (in_date_range date_range (dt_date now))
                          (map (fun r => mkViewRow (fst r) (snd r)
                                  (appointment_date (fst r) - dt_date now))
                             (merge_left appts docs))
                   else List.filter (has_specialty selected_specialty)
                          (List.filter (in_date_range date_range (dt_date now))
                             (map (fun r => mkViewRow (fst r) (snd r)
                                     (appointment_date (fst r) - dt_date now))
                                (merge_left appts docs))))
            end) by congruence.
  clear Hret. subst rows.
  apply list_elem_of_In in Hin. rewrite stable_sort_Permutation in Hin.
  apply list_elem_of_In in Hin.
  assert (Hprio : In r (map with_priority
            (if String.eqb selected_specialty "All Specialties"
             then List.filter (in_date_range date_range (dt_date now))
                    (map (fun r => mkViewRow (fst r) (snd r)
                            (appointment_date (fst r) - dt_date now))
                       (merge_left appts docs))
             else List.filter (has_specialty selected_specialty)
                    (List.filter (in_date_range date_range (dt_date now))
                       (map (fun r => mkViewRow (fst r) (snd r)
                               (appointment_date (fst r) - dt_date now))
                          (merge_left appts docs))))) /\
          (forall c, selected_priority = Some c -> priority_category r = c)).
  { destruct selected_priority as [c|].
    - apply filter_In in Hin as [Hin Hc]. apply category_eqb_eq in Hc.
      split; [exact Hin|]. intros c' [= <-]. exact Hc.
    - split; [exact Hin | discriminate]. }
  destruct Hprio as [Hprio Hcat].
  apply in_map_iff in Hprio as (row & <- & Hrow).
  assert (Hsel : In row (List.filter (in_date_range date_range (dt_date now))
                   (map (fun r => mkViewRow (fst r) (snd r)
                           (appointment_date (fst r) - dt_date now))
                      (merge_left appts docs))) /\
                 (selected_specialty <> "All Specialties" ->
                  has_specialty selected_specialty row = true)).
  { destruct (String.eqb_spec selected_specialty "All Specialties") as [Heq|Hne].
    - split; [exact Hrow | intros Hne; contradiction].
    - apply filter_In in Hrow as [Hrow Hsp]. split; [exact Hrow | intros _; exact Hsp]. }
  destruct Hsel as [Hsel Hsp].
  apply filter_In in Hsel as [Hmerged Hrange].
  apply in_map_iff in Hmerged as ([a d] & <- & Hm). cbn [fst snd] in *.
  unfold with_priority in *. cbn [view_date_diff view_appointment view_doctor] in *.
  destruct (calculate_priority _ _ _) as [cat score] eqn:Hcp.
  cbn [priority_row priority_category priority_score view_date_diff
       view_appointment view_doctor] in *.
  rewrite Hcp. repeat split; try assumption.
Qed.

(** X17. On non-empty frames the appointment list raises exactly when no
    merged row passes the date-range and specialty selections, because the
    frame built from no rows has no columns to look up; for instance
    selecting the past appointments when no appointment lies before the
    current date. On an empty frame it returns early instead. *)
Theorem priority_view_raises_iff (now : DateTime) (date_range : DateRange)
  (selected_specialty : string) (selected_priority : option Category)
  (appts : list Appointment) (docs : list Doctor) :
  (priority_view now date_range selected_specialty selected_priority appts docs
     = Raised <->
   appts <> [] /\ docs <> [] /\
   forall r, In r (merge_left appts docs) ->
     let row := mkViewRow (fst r) (snd r)
                  (appointment_date (fst r) - dt_date now) in
     in_date_range date_range (dt_date now) row = false \/
     (selected_specialty <> "All Specialties" /\
      has_specialty selected_specialty row = false)) /\
  (appts <> [] -> docs <> [] ->
   (forall a, In a appts -> dt_date now <= appointment_date a) ->
   priority_view now PastAppointments selected_specialty selected_priority
     appts docs = Raised).
Proof.
  assert (Hiff : forall dr,
    priority_view now dr selected_specialty selected_priority appts docs
      = Raised <->
    appts <> [] /\ docs <> [] /\
    forall r, In r (merge_left appts docs) ->
      let row := mkViewRow (fst r) (snd r)
                   (appointment_date (fst r) - dt_date now) in
      in_date_range dr (dt_date now) row = false \/
      (selected_specialty <> "All Specialties" /\
       has_specialty selected_specialty row = false)).
  { intros dr. unfold priority_view.
    destruct appts as [|a0 appts0].
    { cbn. split; [discriminate | intros [Hne _]; congruence]. }
    destruct docs as [|d0 docs0].
    { cbn. split; [discriminate | intros (_ & Hne & _); congruence]. }
    cbn [is_empty orb]. set (appts := a0 :: appts0). set (docs := d0 :: docs0).
    set (merged := map (fun r => mkViewRow (fst r) (snd r)
                          (appointment_date (fst r) - dt_date now))
                     (merge_left appts docs)).
    set (filtered := if String.eqb selected_specialty "All Specialties"
                     then List.filter (in_date_range dr (dt_date now)) merged
                     else List.filter (has_specialty selected_specialty)
                            (List.filter (in_date_range dr (dt_date now)) merged)).
    assert (Hsel : forall row, In row filtered <->
              In row merged /\ in_date_range dr (dt_date now) row = true /\
              (selected_specialty <> "All Specialties" ->
               has_specialty selected_specialty row = true)).
    { intros row. unfold filtered.
      destruct (String.eqb_spec selected_specialty "All Specialties") as [Heq|Hne];
        rewrite ?filter_In; intuition. }
    destruct (is_empty (map with_priority filtered)) eqn:He.
    - apply is_empty_true in He. apply map_eq_nil in He.
      split; [|reflexivity]. intros _.
      split; [discriminate|]. split; [discriminate|].
      intros r Hr.
      set (row := mkViewRow (fst r) (snd r)
                    (appointment_date (fst r) - dt_date now)).
      assert (Hnot : ~ In row filtered) by (rewrite He; intros []).
      rewrite Hsel in Hnot.
      assert (Hm : In row merged) by (apply in_map_iff; exists r; split; [reflexivity | exact Hr]).
      destruct (in_date_range dr (dt_date now) row) eqn:Hrange; [|left; reflexivity].
      right.
      destruct (String.eqb_spec selected_specialty "All Specialties") as [Heq|Hne].
      + exfalso. apply Hnot. repeat split; try assumption. intros Hc; contradiction.
      + split; [exact Hne|].
        destruct (has_specialty selected_specialty row) eqn:Hs; [|reflexivity].
        exfalso. apply Hnot. repeat split; assumption.
    - split; [discriminate|]. intros (_ & _ & Hall). exfalso.
      destruct filtered as [|row rest] eqn:Hf; [discriminate|].
      assert (Hrow : In row (row :: rest)) by (left; reflexivity).
      apply Hsel in Hrow as (Hm & Hrange & Hs).
      apply in_map_iff in Hm as (r & <- & Hr).
      destruct (Hall r Hr) as [Hfalse | [Hne Hfalse]].
      + cbv zeta in Hfalse. congruence.
      + cbv zeta in Hfalse. rewrite (Hs Hne) in Hfalse. discriminate. }
  split; [apply Hiff|].
  intros Ha Hd Hfuture. apply Hiff. split; [exact Ha|]. split; [exact Hd|].
  intros [a d] Hr. cbv zeta. left.
  apply merge_left_In in Hr as [Hin _]. specialize (Hfuture a Hin).
  cbn. apply Z.ltb_ge. lia.
Qed.

Lemma priority_view_raises_iff_witness :
  priority_view (mkDateTime monday (at_time 10 0)) PastAppointments
    "All Specialties" None [sample_appointment 1 1 monday 11 false]
    [sample_doctor 1 "ENT" 10 true] = Raised.
Proof.
  apply (proj2 (priority_view_raises_iff (mkDateTime monday (at_time 10 0))
                  PastAppointments "All Specialties" None
                  [sample_appointment 1 1 monday 11 false]
                  [sample_doctor 1 "ENT" 10 true])).
  - discriminate.
  - discriminate.
  - intros a [<- | []]. cbn. lia.
Defined.

(** X18. The rows of the appointment list are in ascending order of
    [date_diff] and, within one [date_diff], in descending order of score.
    Each row is an appointment of the frame with [date_diff] its distance in
    days from the current date, carries the category and score of
    [calculate_priority] on it, lies in the selected date range, has the
    selected specialty through a doctor of the frame, and has the selected
    priority. *)
Theorem priority_view_rows (now : DateTime) (date_range : DateRange)
  (selected_specialty : string) (selected_priority : option Category)
  (appts : list Appointment) (docs : list Doctor) (rows : list PriorityRow) :
  priority_view now date_range selected_specialty selected_priority appts docs
    = Returned (Some rows) ->
  StronglySorted view_order rows /\
  Forall (fun r =>
    In (view_appointment (priority_row r)) appts /\
    view_date_diff (priority_row r)
      = appointment_date (view_appointment (priority_row r)) - dt_date now /\
    (priority_category r, priority_score r)
      = calculate_priority (view_date_diff (priority_row r))
          (arrived_early (view_appointment (priority_row r)))
          (wait_time_minutes (view_appointment (priority_row r))) /\
    in_date_range date_range (dt_date now) (priority_row r) = true /\
    (selected_specialty <> "All Specialties" ->
     exists d, view_doctor (priority_row r) = Some d /\ In d docs /\
               doc_id d = doctor_id (view_appointment (priority_row r)) /\
               specialty d = selected_specialty) /\
    (forall c, selected_priority = Some c -> priority_category r = c)) rows.
Proof.
  intros Hret. split.
  - unfold priority_view in Hret.
    destruct (is_empty appts || is_empty docs); [discriminate|].
    destruct (is_empty _); [discriminate|].
    injection Hret as <-. apply StronglySorted_stable_sort; apply _.
  - apply Forall_forall. intros r Hr. apply list_elem_of_In in Hr.
    destruct (priority_view_In _ _ _ _ _ _ _ r Hret Hr)
      as (Hm & Hdd & Hcp & Hrange & Hsp & Hcat).
    apply merge_left_In in Hm as [Ha Hd].
    split; [exact Ha|]. split; [exact Hdd|]. split; [exact Hcp|].
    split; [exact Hrange|]. split; [|exact Hcat].
    intros Hne. specialize (Hsp Hne). unfold has_specialty in Hsp.
    destruct (view_doctor (priority_row r)) as [d|]; [|discriminate].
    apply String.eqb_eq in Hsp. destruct Hd as [Hd Hid].
    exists d. repeat split; assumption.
Qed.

Lemma priority_view_rows_witness :
  let now := mkDateTime monday (at_time 10 0) in
  let appts := [sample_appointment 1 1 (monday + 9) 11 false;
                sample_appointment 2 1 monday 11 true] in
  exists rows,
    priority_view now AllDates "ENT" None appts
      [sample_doctor 1 "ENT" 10 true] = Returned (Some rows) /\
    StronglySorted view_order rows.
Proof.
  intros now appts. eexists. split; [reflexivity|].
  eapply (proj1 (priority_view_rows now AllDates "ENT" None appts
                   [sample_doctor 1 "ENT" 10 true] _ eq_refl)).
Defined.

Lemma today_is_high (early : bool) (wait_time : Z) :
  fst (calculate_priority 0 early wait_time) = High.
Proof.
  rewrite calculate_priority_unfold. cbv zeta. cbn [fst].
  destruct early, (30 <? wait_time); reflexivity.
Qed.

Lemma past_is_low (d : Z) (early : bool) (wait_time : Z) :
  d < 0 -> fst (calculate_priority d early wait_time) = Low.
Proof.
  intros Hd. rewrite calculate_priority_unfold. cbv zeta. cbn [fst].
  destruct (date_score_cases d)
    as [[_ ->] | [[H ->] | [[H ->] | [[H ->] | [[H ->] | [H ->]]]]]]; try lia.
  destruct early, (30 <? wait_time); reflexivity.
Qed.

(** X19. Two selections never show a row: the appointments of today with the
    Medium or the Low priority, since today's appointments are all High, and
    the past appointments with the High or the Medium priority, since past
    appointments are all Low. *)
Theorem empty_selections (now : DateTime) (date_range : DateRange)
  (selected_specialty : string) (c : Category)
  (appts : list Appointment) (docs : list Doctor) (rows : list PriorityRow) :
  priority_view now date_range selected_specialty (Some c) appts docs
    = Returned (Some rows) ->
  (date_range = Today /\ c <> High) \/
  (date_range = PastAppointments /\ c <> Low) ->
  rows = [].
Proof.
  intros Hret Hsel. destruct rows as [|r rest]; [reflexivity|]. exfalso.
  destruct (priority_view_In _ _ _ _ _ _ _ r Hret (or_introl eq_refl))
    as (_ & Hdd & Hcp & Hrange & _ & Hcat).
  specialize (Hcat c eq_refl).
  apply (f_equal fst) in Hcp. cbn [fst] in Hcp.
  destruct Hsel as [[-> Hc] | [-> Hc]]; cbn [in_date_range] in Hrange.
  - apply Z.eqb_eq in Hrange. rewrite Hrange, Z.sub_diag in Hdd.
    rewrite Hdd, today_is_high in Hcp. congruence.
  - apply Z.ltb_lt in Hrange. rewrite past_is_low in Hcp by exact Hrange.
    congruence.
Qed.

Lemma empty_selections_witness :
  priority_view (mkDateTime monday (at_time 10 0)) Today "All Specialties"
    (Some Low) [sample_appointment 1 1 monday 11 false]
    [sample_doctor 1 "ENT" 10 true] = Returned (Some []).
Proof.
  destruct (priority_view (mkDateTime monday (at_time 10 0)) Today
              "All Specialties" (Some Low)
              [sample_appointment 1 1 monday 11 false]
              [sample_doctor 1 "ENT" 10 true]) as [[rows|]|] eqn:Hv;
    try discriminate.
  rewrite (empty_selections _ _ _ _ _ _ rows Hv); [reflexivity|].
  left. split; [reflexivity | discriminate].
Defined.

(** ** DataProcessor: patient flow *)

Lemma count_of_absent (k : Z) (l : list Z) : ~ In k l -> count_of k l = 0.
Proof.
  intros Hk. destruct (Z.le_gt_cases 1 (count_of k l)) as [Hpos|Hz].
  - exfalso. apply Hk, count_of_pos_In. lia.
  - pose proof (count_of_nonneg k l). lia.
Qed.

(** The entries of a key in a table with distinct keys whose values are a
    function of the key *)
Lemma map_fst_tagged {A B} (f : A -> B) (l : list A) :
  map fst (map (fun k => (k, f k)) l) = l.
Proof. induction l as [|x l IH]; cbn; [reflexivity | rewrite IH; reflexivity]. Qed.

Lemma filter_key_entries (f : Z -> Z) (entries : list (Z * Z)) (h : Z) :
  List.NoDup (map fst entries) ->
  (forall e, In e entries -> snd e = f (fst e)) ->
  (In h (map fst entries) ->
   List.filter (fun e => fst e =? h) entries = [(h, f h)]) /\
  (~ In h (map fst entries) ->
   List.filter (fun e => fst e =? h) entries = []).
Proof.
  induction entries as [|[k v] entries IH]; intros Hnd Hval.
  - split; [intros [] | reflexivity].
  - cbn [map fst] in Hnd. inversion Hnd as [|? ? Hk Hnd']; subst.
    cbn [List.filter fst map].
    destruct (IH Hnd' (fun e He => Hval e (or_intror He))) as [IHin IHout].
    pose proof (Hval (k, v) (or_introl eq_refl)) as Hv. cbn in Hv.
    destruct (Z.eqb_spec k h) as [-> | Hne].
    + split.
      * intros _. rewrite (IHout Hk), Hv. reflexivity.
      * intros Hno. exfalso. apply Hno. left. reflexivity.
    + split.
      * intros [Heq | Hin]; [contradiction | exact (IHin Hin)].
      * intros Hno. apply IHout. intros Hin. apply Hno. right. exact Hin.
Qed.

(** X20. For a day that has appointments, [get_patient_flow_data] returns
    exactly twelve rows, for the hours 9 to 20 in order, each labelled
    ["<hour>:00"] and counting the appointments of the day whose
    [hour_of_day] is that hour, so appointments of other hours are not shown.
    For a day without appointments it returns no row at all. *)
Theorem get_patient_flow_data_rows (current_date : date)
  (appts : list Appointment) :
  (List.filter (on_date current_date) appts = [] ->
   get_patient_flow_data current_date appts = []) /\
  (List.filter (on_date current_date) appts <> [] ->
   get_patient_flow_data current_date appts
   = map (fun h => (h, hour_label h,
                    count_of h (map hour_of_day
                                  (List.filter (on_date current_date) appts))))
       (seqZ 9 12)).
Proof.
  unfold get_patient_flow_data. split.
  - intros ->. destruct appts; reflexivity.
  - intros Hne. destruct appts as [|a0 appts0]; [cbn in Hne; congruence|].
    cbn [is_empty]. set (appts := a0 :: appts0) in *.
    set (today := List.filter (on_date current_date) appts) in *.
    destruct today as [|t0 today0] eqn:Htoday; [congruence|].
    cbn [is_empty]. rewrite <- Htoday. clear Htoday Hne.
    set (keys := map hour_of_day today).
    set (entries := merge_sort by_hour (value_counts keys)).
    assert (Hperm : entries ≡ₚ map (fun k => (k, count_of k keys)) (unique keys)).
    { unfold entries, value_counts. rewrite merge_sort_Permutation, stable_sort_Permutation. reflexivity. }
    assert (Hnd : List.NoDup (map fst entries)).
    { rewrite Hperm, map_fst_tagged. apply unique_NoDup. }
    assert (Hval : forall e, In e entries -> snd e = count_of (fst e) keys).
    { intros e He. apply list_elem_of_In in He. rewrite Hperm in He.
      apply list_elem_of_In, in_map_iff in He as (k & <- & _). reflexivity. }
    assert (Hkeys : forall h, In h (map fst entries) <-> In h keys).
    { intros h. rewrite <- list_elem_of_In, Hperm, list_elem_of_In.
      rewrite map_fst_tagged. apply unique_In. }
    assert (Hrow : forall h,
              flow_rows (map (fun hc => (fst hc, hour_label (fst hc), snd hc))
                           entries) h
              = [(h, hour_label h, count_of h keys)]).
    { intros h. unfold flow_rows.
      assert (Hf : List.filter
                (fun r : Z * string * Z =>
                   (fst (fst r) =? h) && String.eqb (snd (fst r)) (hour_label h))
                (map (fun hc : Z * Z => (fst hc, hour_label (fst hc), snd hc))
                   entries)
              = map (fun hc : Z * Z => (fst hc, hour_label (fst hc), snd hc))
                  (List.filter (fun e => fst e =? h) entries)).
      { clear. induction entries as [|[k v] entries IH]; [reflexivity|].
        cbn [map List.filter fst snd].
        destruct (Z.eqb_spec k h) as [-> | Hne].
        - rewrite String.eqb_refl. cbn [andb map fst snd]. rewrite IH. reflexivity.
        - cbn [andb]. exact IH. }
      rewrite Hf.
      destruct (filter_key_entries (fun k => count_of k keys) entries h Hnd Hval)
        as [Hpresent Habsent].
      destruct (in_dec Z.eq_dec h (map fst entries)) as [Hin|Hno].
      - rewrite (Hpresent Hin). reflexivity.
      - rewrite (Habsent Hno). cbn [map].
        rewrite count_of_absent; [reflexivity|].
        intros Hk. apply Hno, Hkeys, Hk. }
    induction (seqZ 9 12) as [|h hs IH]; [reflexivity|].
    cbn [flat_map map]. rewrite Hrow, IH. reflexivity.
Qed.

Lemma get_patient_flow_data_rows_witness :
  get_patient_flow_data monday busy_day
  = map (fun h => (h, hour_label h,
                   count_of h (map hour_of_day
                                 (List.filter (on_date monday) busy_day))))
      (seqZ 9 12) /\
  get_patient_flow_data (monday + 1) busy_day = [].
Proof.
  split.
  - apply (get_patient_flow_data_rows monday busy_day). discriminate.
  - apply (get_patient_flow_data_rows (monday + 1) busy_day). reflexivity.
Defined.

(** ** DataProcessor: hourly wait-time predictions *)

Lemma base_wait_of_range (hour : Z) :
  15 <= base_wait_of hour <= 35 /\ (17 <= hour <= 19 -> base_wait_of hour = 35).
Proof.
  unfold base_wait_of.
  destruct (Z.leb_spec 17 hour), (Z.leb_spec hour 19), (Z.leb_spec 14 hour),
    (Z.ltb_spec hour 17), (Z.ltb_spec 19 hour); cbn; lia.
Qed.

(** X21. [get_wait_time_predictions] lists the hours from the current hour
    on, at most six and none from 21 on, so it is empty from 21:00; every
    predicted wait is at least 5 whatever [randint] returns, and with draws in
    the range -5 to 10 it lies from 10 to 45 and is at least 30 in the hours
    17 to 19. *)
Theorem get_wait_time_predictions_rows (randint : nat -> Z) (now : DateTime) :
  map (fun r => fst (fst r)) (get_wait_time_predictions randint now)
    = List.filter (fun h => h <? 21) (seqZ (time_hour (dt_time now)) 6) /\
  (length (get_wait_time_predictions randint now) <= 6)%nat /\
  (21 <= time_hour (dt_time now) -> get_wait_time_predictions randint now = []) /\
  Forall (fun r => snd (fst r) = hour_label (fst (fst r)) /\ 5 <= snd r)
    (get_wait_time_predictions randint now) /\
  ((forall i, -5 <= randint i <= 10) ->
   Forall (fun r => 10 <= snd r <= 45 /\
                    (17 <= fst (fst r) <= 19 -> 30 <= snd r))
     (get_wait_time_predictions randint now)).
Proof.
  unfold get_wait_time_predictions. cbv zeta.
  set (hours := List.filter (fun h => h <? 21) (seqZ (time_hour (dt_time now)) 6)).
  assert (Hlen : (length hours <= 6)%nat).
  { unfold hours. etransitivity; [apply List.filter_length_le|].
    rewrite length_seqZ. lia. }
  split; [|split; [|split; [|split]]].
  - clear Hlen. generalize randint.
    induction hours as [|h hs IH]; intros rnd; [reflexivity|].
    cbn [imap map fst]. f_equal. apply (IH (fun i => rnd (S i))).
  - rewrite length_imap. exact Hlen.
  - intros Hlate. replace hours with (@nil Z); [reflexivity|].
    symmetry. apply filter_none. intros h Hh.
    apply list_elem_of_In, elem_of_seqZ in Hh. apply Z.ltb_ge. lia.
  - apply Forall_forall. intros r Hr.
    apply elem_of_lookup_imap in Hr as (i & h & -> & _). cbn. split; [reflexivity | lia].
  - intros Hdraw. apply Forall_forall. intros r Hr.
    apply elem_of_lookup_imap in Hr as (i & h & -> & _). cbn.
    pose proof (base_wait_of_range h) as [Hbase Hpeak].
    specialize (Hdraw i). split; [lia|]. intros Hh. rewrite (Hpeak Hh). lia.
Qed.

Lemma get_wait_time_predictions_rows_witness :
  get_wait_time_predictions (fun _ => 3) (mkDateTime monday (at_time 22 0)) = [] /\
  Forall (fun r => 10 <= snd r <= 45)
    (get_wait_time_predictions (fun _ => 3) (mkDateTime monday (at_time 18 0))).
Proof.
  split.
  - apply (get_wait_time_predictions_rows (fun _ => 3)
             (mkDateTime monday (at_time 22 0))).
    vm_compute. discriminate.
  - eapply Forall_impl;
      [apply (get_wait_time_predictions_rows (fun _ => 3)
                (mkDateTime monday (at_time 18 0))); intros i; lia|].
    intros r [Hr _]. exact Hr.
Defined.

(** ** DataProcessor: recent notifications *)

#[local] Instance by_time_desc_total : Total by_time_desc.
Proof. intros x y. unfold by_time_desc. lia. Qed.

#[local] Instance by_time_desc_trans : Transitive by_time_desc.
Proof. intros x y z. unfold by_time_desc. lia. Qed.

(** X22. [get_recent_notifications] notifies the latest appointments of the
    day, five at most: the appointments of the day split into the notified
    ones and the rest, no appointment of the rest starts after a notified
    one, and there is one notification per notified appointment, in order.
    Without appointments that day there is none. *)
Theorem get_recent_notifications_latest (now : DateTime)
  (rows : list AppointmentRow) :
  let today :=
    List.filter (fun r => on_date (dt_date now) (row_appointment r)) rows in
  exists notified rest,
    today ≡ₚ notified ++ rest /\
    get_recent_notifications now rows = map notification_of notified /\
    length notified = Nat.min 5 (length today) /\
    (forall x y, In x notified -> In y rest ->
       appointment_time (row_appointment y)
       <= appointment_time (row_appointment x)).
Proof.
  intros today. unfold get_recent_notifications. fold today.
  destruct (is_empty rows) eqn:Her.
  { apply is_empty_true in Her. subst rows. exists [], [].
    repeat split; try reflexivity. intros x y []. }
  destruct (is_empty today) eqn:Het.
  { apply is_empty_true in Het. rewrite Het. exists [], [].
    repeat split; try reflexivity. intros x y []. }
  exists (take 5 (stable_sort by_time_desc today)),
         (drop 5 (stable_sort by_time_desc today)).
  split; [rewrite take_drop, stable_sort_Permutation; reflexivity|].
  split; [reflexivity|]. split.
  - rewrite length_take.
    rewrite (Permutation_length (stable_sort_Permutation by_time_desc today)).
    reflexivity.
  - intros x y Hx Hy.
    pose proof (StronglySorted_stable_sort by_time_desc today) as Hs.
    rewrite <- (take_drop 5 (stable_sort by_time_desc today)) in Hs.
    apply (StronglySorted_app_1_elem_of by_time_desc _ _ x y Hs);
      apply list_elem_of_In; assumption.
Qed.

Lemma get_recent_notifications_latest_witness :
  let row i h := mkAppointmentRow (sample_appointment i 1 monday h false)
                   "P1001" "scheduled" in
  length (get_recent_notifications (mkDateTime monday (at_time 10 0))
            (map (fun i => row i (9 + i)) (seqZ 0 7))) = 5%nat.
Proof.
  intros row.
  destruct (get_recent_notifications_latest (mkDateTime monday (at_time 10 0))
              (map (fun i => row i (9 + i)) (seqZ 0 7)))
    as (notified & rest & _ & -> & Hlen & _).
  rewrite length_map, Hlen. reflexivity.
Defined.

Lemma time_minute_range (t : time) : 0 <= time_minute t < 60.
Proof. unfold time_minute. apply Z.mod_pos_bound. lia. Qed.

(** X23. Every notification is stamped in the hour of its appointment, ten
    minutes before it but never before the full hour, so its minute lies from
    0 to 49; and it announces a delay for a wait above 30 minutes, an expected
    wait for a wait above 15, and an on-schedule doctor otherwise. *)
Theorem notification_stamp (now : DateTime) (rows : list AppointmentRow) :
  Forall (fun n =>
    exists appt,
      In appt rows /\
      appointment_date (row_appointment appt) = dt_date now /\
      notified_patient n = patient_id appt /\
      notification_hour n = time_hour (appointment_time (row_appointment appt)) /\
      notification_minute n
        = Z.max 0 (time_minute (appointment_time (row_appointment appt)) - 10) /\
      0 <= notification_minute n <= 49 /\
      let w := wait_time_minutes (row_appointment appt) in
      (30 < w -> notification_message n = DelayedBy w) /\
      (15 < w <= 30 -> notification_message n = ExpectWait w) /\
      (w <= 15 -> notification_message n = OnSchedule))
    (get_recent_notifications now rows).
Proof.
  apply Forall_forall. intros n Hn. apply list_elem_of_In in Hn.
  unfold get_recent_notifications in Hn.
  destruct (is_empty rows); [destruct Hn|].
  destruct (is_empty _); [destruct Hn|].
  apply in_map_iff in Hn as (appt & <- & Happt).
  apply In_take_In in Happt.
  apply list_elem_of_In in Happt. rewrite stable_sort_Permutation in Happt.
  apply list_elem_of_In, filter_In in Happt as [Hin Hdate].
  apply Z.eqb_eq in Hdate.
  exists appt. cbn [notification_of notified_patient notification_hour
                    notification_minute notification_message].
  pose proof (time_minute_range (appointment_time (row_appointment appt))).
  repeat split; try assumption; try reflexivity; try lia; intros Hw.
  - destruct (Z.ltb_spec 30 (wait_time_minutes (row_appointment appt)));
      [reflexivity | lia].
  - destruct (Z.ltb_spec 30 (wait_time_minutes (row_appointment appt))); [lia|].
    destruct (Z.ltb_spec 15 (wait_time_minutes (row_appointment appt)));
      [reflexivity | lia].
  - destruct (Z.ltb_spec 30 (wait_time_minutes (row_appointment appt))); [lia|].
    destruct (Z.ltb_spec 15 (wait_time_minutes (row_appointment appt)));
      [lia | reflexivity].
Qed.

Lemma notification_stamp_witness :
  let appt := mkAppointmentRow
                (mkAppointment 1 1 monday (at_time 10 5) 10 0 8 false 40)
                "P1001" "scheduled" in
  get_recent_notifications (mkDateTime monday (at_time 9 0)) [appt]
  = [mkNotification "P1001" 10 0 (DelayedBy 40)].
Proof.
  intros appt.
  pose proof (notification_stamp (mkDateTime monday (at_time 9 0)) [appt]) as Hall.
  destruct (get_recent_notifications (mkDateTime monday (at_time 9 0)) [appt])
    as [|n [|n' ns]] eqn:Hn; try discriminate.
  apply Forall_cons in Hall as [(a & [<- | []] & _ & Hp & Hh & Hm & _ & Hd & _) _].
  destruct n as [pid h m msg]. cbn in Hp, Hh, Hm, Hd.
  rewrite Hp, Hh, Hm, (Hd ltac:(lia)). reflexivity.
Defined.

(** ** DataProcessor: summary metrics *)

Lemma len_split_at {A} (f : A -> Z) (c : Z) (l : list A) :
  len (List.filter (fun a => f a <? c) l)
  + len (List.filter (fun a => c <=? f a) l) = len l.
Proof.
  induction l as [|x l IH]; cbn [List.filter]; [reflexivity|].
  destruct (Z.ltb_spec (f x) c), (Z.leb_spec c (f x)); rewrite !len_cons; lia.
Qed.

(** X24. [get_summary_metrics] always reports the number of doctor rows as
    [total_doctors]. When a frame is empty or the day has no appointments,
    every other metric is 0, the available doctors included. Otherwise the
    completed appointments and the patients in the queue add up to the
    appointments of the day, all doctors count as available, and the queue
    delta compares the queue with yesterday's appointments from the same time
    on. *)
Theorem summary_metrics_counts (now : DateTime) (appts : list Appointment)
  (docs : list Doctor) :
  total_doctors (get_summary_metrics now appts docs) = len docs /\
  (appts = [] \/ docs = [] \/ List.filter (on_date (dt_date now)) appts = [] ->
   get_summary_metrics now appts docs = mkMetrics 0 0 0 0 0 (len docs) 0 0) /\
  (appts <> [] -> docs <> [] ->
   List.filter (on_date (dt_date now)) appts <> [] ->
   let m := get_summary_metrics now appts docs in
   total_appointments m = len (List.filter (on_date (dt_date now)) appts) /\
   completed_appointments m + patients_in_queue m = total_appointments m /\
   available_doctors m = total_doctors m /\
   queue_delta m
   = patients_in_queue m
     - len (List.filter (fun a => (appointment_date a =? dt_date now - 1)
                                  && (dt_time now <=? appointment_time a)) appts)).
Proof.
  unfold get_summary_metrics. cbv zeta.
  destruct appts as [|a0 appts0].
  { cbn. repeat split; try reflexivity; intros; congruence. }
  destruct docs as [|d0 docs0].
  { cbn. repeat split; try reflexivity; intros; congruence. }
  cbn [is_empty orb]. set (appts := a0 :: appts0). set (docs := d0 :: docs0).
  destruct (List.filter (on_date (dt_date now)) appts) as [|t0 today0] eqn:Ht.
  { cbn. repeat split; try reflexivity; intros; congruence. }
  cbn [is_empty]. set (today := t0 :: today0).
  split; [reflexivity|]. split.
  { intros [H | [H | H]]; discriminate. }
  intros _ _ _. cbn [total_appointments completed_appointments patients_in_queue
                     available_doctors total_doctors queue_delta].
  split; [reflexivity|]. split; [|split; reflexivity].
  apply (len_split_at appointment_time (dt_time now) today).
Qed.

Lemma summary_metrics_counts_witness :
  let m := get_summary_metrics (mkDateTime monday (at_time 12 0)) busy_day
             cardiologists in
  completed_appointments m + patients_in_queue m = total_appointments m /\
  get_summary_metrics (mkDateTime (monday + 1) (at_time 12 0)) busy_day
    cardiologists = mkMetrics 0 0 0 0 0 2 0 0.
Proof.
  split.
  - apply (summary_metrics_counts (mkDateTime monday (at_time 12 0)) busy_day
             cardiologists); discriminate.
  - apply (summary_metrics_counts (mkDateTime (monday + 1) (at_time 12 0))
             busy_day cardiologists).
    right. right. reflexivity.
Defined.

Lemma hour_before_wraps (t : time) :
  0 <= t < usec_per_hour -> t < hour_before t.
Proof.
  unfold hour_before, usec_per_day, usec_per_hour. intros Ht.
  replace (t - 3600000000) with (t + 23 * 3600000000 + (-1) * (24 * 3600000000))
    by lia.
  rewrite Z.mod_add by lia. rewrite Z.mod_small by lia. lia.
Qed.

Lemma filter_window_empty {A} (f : A -> Z) (g : A -> bool) (lo hi : Z)
  (l : list A) :
  hi < lo ->
  List.filter (fun a => g a && (lo <=? f a) && (f a <? hi)) l = [].
Proof.
  intros Hlt. apply filter_none. intros a _.
  destruct (g a), (Z.leb_spec lo (f a)), (Z.ltb_spec (f a) hi);
    try reflexivity; lia.
Qed.

(** X25. On a day with appointments: when none of them starts before the
    current time, the average wait is the default, 25 from 17:00 on and 15
    before. And in the first hour of the day the window of the past hour
    starts on the previous evening and is empty, so the average wait is the
    mean over all appointments of the day before the current time, or the
    default 15, and the wait-time delta is 0. *)
Theorem summary_metrics_fallbacks (now : DateTime) (appts : list Appointment)
  (docs : list Doctor) :
  appts <> [] -> docs <> [] ->
  List.filter (on_date (dt_date now)) appts <> [] ->
  let completed :=
    List.filter (fun a => appointment_time a <? dt_time now)
      (List.filter (on_date (dt_date now)) appts) in
  (completed = [] ->
   avg_wait_time (get_summary_metrics now appts docs)
   = if decide (17 <= time_hour (dt_time now)) then 25 else 15) /\
  (0 <= dt_time now < usec_per_hour ->
   avg_wait_time (get_summary_metrics now appts docs)
   = (if decide (completed = []) then 15
      else int_mean (map wait_time_minutes completed)) /\
   wait_time_delta (get_summary_metrics now appts docs) = 0).
Proof.
  intros Ha Hd Ht completed. unfold get_summary_metrics. cbv zeta.
  destruct appts as [|a0 appts0]; [congruence|].
  destruct docs as [|d0 docs0]; [congruence|].
  cbn [is_empty orb]. set (appts := a0 :: appts0) in *.
  destruct (List.filter (on_date (dt_date now)) appts) as [|t0 today0] eqn:Hf;
    [congruence|].
  cbn [is_empty]. set (today := t0 :: today0) in *.
  cbn [avg_wait_time wait_time_delta]. fold completed.
  split.
  - intros Hnone.
    assert (Hpast : List.filter
              (fun a => (hour_before (dt_time now) <=? appointment_time a)
                        && (appointment_time a <? dt_time now)) today = []).
    { apply filter_none. intros a Hin.
      destruct (Z.ltb_spec (appointment_time a) (dt_time now)) as [Hlt|];
        [|apply andb_false_r].
      exfalso.
      assert (Hc : In a completed).
      { apply filter_In. split; [exact Hin | apply Z.ltb_lt, Hlt]. }
      rewrite Hnone in Hc. exact Hc. }
    rewrite Hpast, Hnone. cbn.
    destruct (Z.leb_spec 17 (time_hour (dt_time now))); case_decide;
      try reflexivity; lia.
  - intros Hearly. pose proof (hour_before_wraps _ Hearly) as Hwrap.
    assert (Hpast : List.filter
              (fun a => (hour_before (dt_time now) <=? appointment_time a)
                        && (appointment_time a <? dt_time now)) today = []).
    { apply (filter_window_empty appointment_time (fun _ => true)). exact Hwrap. }
    rewrite Hpast.
    rewrite (filter_window_empty appointment_time
               (on_date (dt_date now - 1)) _ _ appts Hwrap).
    cbn [len length Z.of_nat Z.ltb Z.compare]. split; [|reflexivity].
    destruct completed as [|c0 cs] eqn:Hc.
    + cbn. case_decide; [|congruence].
      assert (Hh : time_hour (dt_time now) = 0).
      { unfold time_hour. apply Z.div_small. exact Hearly. }
      rewrite Hh. reflexivity.
    + case_decide; [discriminate|].
      destruct (Z.ltb_spec 0 (len (c0 :: cs))) as [_|Hz]; [reflexivity|].
      rewrite len_cons in Hz. pose proof (len_nonneg cs). lia.
Qed.

Lemma summary_metrics_fallbacks_witness :
  avg_wait_time (get_summary_metrics (mkDateTime monday (at_time 18 0))
                   [sample_appointment 1 1 monday 19 false] cardiologists) = 25 /\
  wait_time_delta (get_summary_metrics (mkDateTime monday (at_time 0 30))
                     busy_day cardiologists) = 0.
Proof.
  split.
  - apply (summary_metrics_fallbacks (mkDateTime monday (at_time 18 0))
             [sample_appointment 1 1 monday 19 false] cardiologists);
      try discriminate. reflexivity.
  - apply (summary_metrics_fallbacks (mkDateTime monday (at_time 0 30))
             busy_day cardiologists); try discriminate.
    vm_compute. split; [discriminate | reflexivity].
Defined.

(** ** The doctor management page *)

Lemma max_by_spec {A} (key : A -> Z) (x : A) (rest : list A) :
  In (max_by key x rest) (x :: rest) /\
  forall y, In y (x :: rest) -> key y <= key (max_by key x rest).
Proof.
  unfold max_by. revert x.
  induction rest as [|z rest IH]; intros x; cbn [fold_left].
  - split; [left; reflexivity|]. intros y [<- | []]. lia.
  - destruct (IH (if key x <? key z then z else x)) as [Hin Hge]. split.
    + destruct Hin as [Heq | Hin]; [|right; right; exact Hin].
      rewrite <- Heq. destruct (key x <? key z);
        [right; left; reflexivity | left; reflexivity].
    + pose proof (Hge _ (or_introl eq_refl)) as Hbest.
      intros y [<- | [<- | Hy]].
      * destruct (Z.ltb_spec (key x) (key z)); lia.
      * destruct (Z.ltb_spec (key x) (key z)); lia.
      * apply Hge. right. exact Hy.
Qed.

Lemma min_by_spec {A} (key : A -> Z) (x : A) (rest : list A) :
  In (min_by key x rest) (x :: rest) /\
  forall y, In y (x :: rest) -> key (min_by key x rest) <= key y.
Proof.
  unfold min_by. revert x.
  induction rest as [|z rest IH]; intros x; cbn [fold_left].
  - split; [left; reflexivity|]. intros y [<- | []]. lia.
  - destruct (IH (if key z <? key x then z else x)) as [Hin Hle]. split.
    + destruct Hin as [Heq | Hin]; [|right; right; exact Hin].
      rewrite <- Heq. destruct (key z <? key x);
        [right; left; reflexivity | left; reflexivity].
    + pose proof (Hle _ (or_introl eq_refl)) as Hbest.
      intros y [<- | [<- | Hy]].
      * destruct (Z.ltb_spec (key z) (key x)); lia.
      * destruct (Z.ltb_spec (key z) (key x)); lia.
      * apply Hle. right. exact Hy.
Qed.

(** The keyed maximum and minimum carry the largest and smallest key. *)
Lemma max_by_key {A} (key : A -> Z) (x : A) (rest : list A) :
  key (max_by key x rest) = series_max (map key (x :: rest)).
Proof.
  destruct (max_by_spec key x rest) as [Hin Hge].
  apply Z.le_antisymm.
  - apply series_max_ge, in_map, Hin.
  - pose proof (series_max_In (key x) (map key rest)) as Hm.
    change (key x :: map key rest) with (map key (x :: rest)) in Hm.
    apply in_map_iff in Hm as (y & <- & Hy). apply Hge, Hy.
Qed.

Lemma min_by_key {A} (key : A -> Z) (x : A) (rest : list A) :
  key (min_by key x rest) = series_min (map key (x :: rest)).
Proof.
  destruct (min_by_spec key x rest) as [Hin Hle].
  apply Z.le_antisymm.
  - pose proof (series_min_In (key x) (map key rest)) as Hm.
    change (key x :: map key rest) with (map key (x :: rest)) in Hm.
    apply in_map_iff in Hm as (y & <- & Hy). apply Hle, Hy.
  - apply series_min_le, in_map, Hin.
Qed.

(** Counting the remaining appointments of a doctor among the appointments
    of the day is counting them in the whole table. *)
Lemma remaining_of_day (appts : list Appointment) (did : Z) (d : date)
  (t : time) :
  len (List.filter (fun a => (doctor_id a =? did)
                             && (t <=? appointment_time a))
         (List.filter (on_date d) appts))
  = remaining_today appts did (mkDateTime d t).
Proof.
  unfold remaining_today, len. f_equal. cbn [dt_date dt_time].
  induction appts as [|a appts IH]; [reflexivity|].
  cbn [List.filter]. unfold on_date at 1.
  destruct (appointment_date a =? d); cbn [List.filter];
    destruct (doctor_id a =? did), (t <=? appointment_time a);
    cbn [andb length]; rewrite ?IH; reflexivity.
Qed.

(** The head of the selection by identifier is the first row with it. *)
Lemma filter_head_first (docs : list Doctor) (did : Z) (n : Doctor)
  (ns : list Doctor) :
  List.filter (fun d => doc_id d =? did) docs = n :: ns ->
  first_row_with_id docs did n.
Proof.
  induction docs as [|d docs IH]; cbn [List.filter]; [discriminate|].
  destruct (Z.eqb_spec (doc_id d) did) as [Heq|Hne].
  - intros [= -> _]. exists [], docs.
    split; [reflexivity|]. split; [exact Heq | intros d' []].
  - intros Hf. destruct (IH Hf) as (before & after & -> & Hid & Hpre).
    exists (d :: before), after. split; [reflexivity|]. split; [exact Hid|].
    intros d' [<- | Hd']; [exact Hne | apply Hpre, Hd'].
Qed.

(** The inner loop never raises on identifiers taken from the doctor table,
    and gives one entry per identifier, in order. *)
Lemma doctor_loads_returned (today : list Appointment) (docs : list Doctor)
  (t : time) (ids : list Z) :
  (forall i, In i ids -> exists d, In d docs /\ doc_id d = i) ->
  exists loads,
    for_each (doctor_load today docs t) ids = Returned loads /\
    map load_doctor_id loads = ids /\
    forall l, In l loads ->
      remaining_appointments l
      = len (List.filter (fun a => (doctor_id a =? load_doctor_id l)
                                   && (t <=? appointment_time a)) today) /\
      exists n, first_row_with_id docs (load_doctor_id l) n /\
                load_doctor_name l = doctor_name n.
Proof.
  induction ids as [|i ids IH]; intros Hids; cbn [for_each].
  - exists []. split; [reflexivity|]. split; [reflexivity | intros l []].
  - destruct IH as (loads & -> & Hmap & Hall);
      [intros j Hj; apply Hids; right; exact Hj|].
    destruct (Hids i (or_introl eq_refl)) as (d & Hd & Hi).
    unfold doctor_load at 1.
    destruct (List.filter (fun d' => doc_id d' =? i) docs) as [|n ns] eqn:Hf.
    { exfalso. assert (Hin : In d (List.filter (fun d' => doc_id d' =? i) docs)).
      { apply filter_In. split; [exact Hd | apply Z.eqb_eq, Hi]. }
      rewrite Hf in Hin. exact Hin. }
    pose proof (filter_head_first docs i n ns Hf) as Hn.
    eexists. split; [reflexivity|]. cbn [app map load_doctor_id].
    split; [rewrite Hmap; reflexivity|].
    intros l [<- | Hl]; [|apply Hall, Hl].
    cbn [remaining_appointments load_doctor_id load_doctor_name].
    split; [reflexivity|]. exists n. split; [exact Hn | reflexivity].
Qed.

(** What the check of one specialty gives: it returns; what it recommends
    is a transfer between the most and the least loaded doctor of the
    specialty; and it recommends one when two doctors of the specialty are
    three or more remaining appointments apart. *)
Lemma balance_check_spec (appts : list Appointment) (docs : list Doctor)
  (d : date) (t : time) (sp : string) :
  let now := mkDateTime d t in
  exists recs,
    balance_check (List.filter (on_date d) appts) docs t sp = Returned recs /\
    (forall r, In r recs ->
       recs = [r] /\ rec_specialty r = sp /\
       exists busiest least_busy,
         transfer_between appts docs now r busiest least_busy /\
         imbalance r = remaining_today appts (doc_id busiest) now
                       - remaining_today appts (doc_id least_busy) now /\
         3 <= imbalance r /\
         suggested_transfers r = imbalance r / 2) /\
    (forall d1 d2, In d1 docs -> In d2 docs ->
       specialty d1 = sp -> specialty d2 = sp ->
       3 <= remaining_today appts (doc_id d1) now
            - remaining_today appts (doc_id d2) now ->
       exists r, In r recs /\
                 remaining_today appts (doc_id d1) now
                 - remaining_today appts (doc_id d2) now <= imbalance r).
Proof.
  intros now. set (today := List.filter (on_date d) appts).
  set (sd := List.filter (fun x => String.eqb (specialty x) sp) docs).
  set (ids := map doc_id sd).
  assert (Hsd : forall x, In x sd <-> In x docs /\ specialty x = sp).
  { intros x. unfold sd. rewrite filter_In, String.eqb_eq. reflexivity. }
  destruct (doctor_loads_returned today docs t ids) as (loads & Hfe & Hmap & Hall).
  { intros i Hi. apply in_map_iff in Hi as (x & <- & Hx).
    apply Hsd in Hx as [Hx _]. exists x. split; [exact Hx | reflexivity]. }
  assert (Hkey : forall l, In l loads ->
            remaining_appointments l = remaining_today appts (load_doctor_id l) now).
  { intros l Hl. destruct (Hall l Hl) as [-> _]. apply remaining_of_day. }
  assert (Hdoc : forall l, In l loads ->
            exists x, In x docs /\ specialty x = sp /\ doc_id x = load_doctor_id l).
  { intros l Hl. assert (Hi : In (load_doctor_id l) ids)
      by (rewrite <- Hmap; apply in_map, Hl).
    apply in_map_iff in Hi as (x & Hx & Hin). apply Hsd in Hin as [Hin Hs].
    exists x. split; [exact Hin | split; [exact Hs | exact Hx]]. }
  assert (Hcover : forall x, In x docs -> specialty x = sp ->
            exists l, In l loads /\ load_doctor_id l = doc_id x).
  { intros x Hx Hs. assert (Hi : In (doc_id x) ids)
      by (apply in_map, Hsd; split; assumption).
    rewrite <- Hmap in Hi. apply in_map_iff in Hi as (l & Hl & Hin).
    exists l. split; [exact Hin | exact Hl]. }
  unfold balance_check. cbv zeta. fold sd. fold ids.
  destruct (Z.leb_spec (len ids) 1) as [Hle|Hgt].
  { exists []. split; [reflexivity|]. split; [intros r []|].
    intros d1 d2 H1 H2 Hs1 Hs2 Hgap. exfalso.
    assert (Hne : d1 <> d2) by (intros ->; lia).
    pose proof (two_distinct_members sd d1 d2
                  (proj2 (Hsd d1) (conj H1 Hs1))
                  (proj2 (Hsd d2) (conj H2 Hs2)) Hne) as Htwo.
    unfold ids, len in Hle. rewrite length_map in Hle. unfold len in Htwo. lia. }
  rewrite Hfe. cbn [mbind outcome_bind].
  destruct loads as [|l0 rest].
  { exfalso. cbn in Hmap. rewrite <- Hmap in Hgt. unfold len in Hgt.
    cbn [length] in Hgt. lia. }
  destruct (max_by_spec remaining_appointments l0 rest) as [Hbin Hbge].
  destruct (min_by_spec remaining_appointments l0 rest) as [Hlin Hlle].
  rewrite <- (max_by_key remaining_appointments l0 rest).
  rewrite <- (min_by_key remaining_appointments l0 rest).
  set (busiest := max_by remaining_appointments l0 rest) in *.
  set (least := min_by remaining_appointments l0 rest) in *.
  set (loads := l0 :: rest) in *.
  assert (Hcomplete : forall d1 d2, In d1 docs -> In d2 docs ->
            specialty d1 = sp -> specialty d2 = sp ->
            remaining_today appts (doc_id d1) now
            - remaining_today appts (doc_id d2) now
            <= remaining_appointments busiest - remaining_appointments least).
  { intros d1 d2 H1 H2 Hs1 Hs2.
    destruct (Hcover d1 H1 Hs1) as (l1 & Hl1 & <-).
    destruct (Hcover d2 H2 Hs2) as (l2 & Hl2 & <-).
    rewrite <- (Hkey l1 Hl1), <- (Hkey l2 Hl2).
    pose proof (Hbge l1 Hl1). pose proof (Hlle l2 Hl2). lia. }
  destruct (Z.leb_spec 3 (remaining_appointments busiest
                          - remaining_appointments least)) as [H3|Hlt3].
  2:{ exists []. split; [reflexivity|]. split; [intros r []|].
      intros d1 d2 H1 H2 Hs1 Hs2 Hgap. exfalso.
      pose proof (Hcomplete d1 d2 H1 H2 Hs1 Hs2). lia. }
  destruct (Z.ltb_spec 0 ((remaining_appointments busiest
                           - remaining_appointments least) / 2)) as [_|Hz].
  2:{ exfalso.
      pose proof (Z.div_le_mono 2 (remaining_appointments busiest
                                   - remaining_appointments least) 2).
      change (2 / 2) with 1 in *. lia. }
  eexists. split; [reflexivity|]. split.
  - intros r [<- | []]. split; [reflexivity|].
    cbn [rec_specialty imbalance suggested_transfers]. split; [reflexivity|].
    destruct (Hdoc busiest Hbin) as (db & Hdb & Hsb & Hib).
    destruct (Hdoc least Hlin) as (dl & Hdl & Hsl & Hil).
    exists db, dl. rewrite Hib, Hil, <- (Hkey busiest Hbin), <- (Hkey least Hlin).
    split; [|split; [reflexivity | split; [exact H3 | reflexivity]]].
    unfold transfer_between. cbn [rec_specialty from_doctor to_doctor].
    split; [exact Hdb|]. split; [exact Hdl|]. split; [exact Hsb|].
    split; [exact Hsl|]. rewrite Hib, Hil. split; [|split].
    + intros x Hx Hs. destruct (Hcover x Hx Hs) as (l & Hl & <-).
      rewrite <- (Hkey l Hl), <- (Hkey busiest Hbin), <- (Hkey least Hlin).
      split; [apply Hlle, Hl | apply Hbge, Hl].
    + destruct (Hall busiest Hbin) as [_ (n & Hn & Hname)].
      exists n. split; [exact Hn | exact Hname].
    + destruct (Hall least Hlin) as [_ (n & Hn & Hname)].
      exists n. split; [exact Hn | exact Hname].
  - intros d1 d2 H1 H2 Hs1 Hs2 Hgap. eexists. split; [left; reflexivity|].
    cbn [imbalance]. apply Hcomplete; assumption.
Qed.

#[local] Instance by_imbalance_desc_total : Total by_imbalance_desc.
Proof. intros x y. unfold by_imbalance_desc. lia. Qed.

#[local] Instance by_imbalance_desc_trans : Transitive by_imbalance_desc.
Proof. intros x y z. unfold by_imbalance_desc. lia. Qed.

(** The page's list holds what the checks of the specialties collected, in
    the order of the sort. *)
Lemma load_balancing_collected (d : date) (t : time)
  (appts : list Appointment) (docs : list Doctor) :
  exists collected,
    for_each (balance_check (List.filter (on_date d) appts) docs t)
      (unique (map specialty docs)) = Returned collected /\
    load_balancing_recommendations d t appts docs
    = Returned (stable_sort by_imbalance_desc collected).
Proof.
  destruct (for_each_returns
              (balance_check (List.filter (on_date d) appts) docs t)
              (unique (map specialty docs))) as [collected Hc].
  { intros sp _. destruct (balance_check_spec appts docs d t sp) as (zs & Hz & _).
    exists zs. exact Hz. }
  exists collected. split; [exact Hc|].
  unfold load_balancing_recommendations. cbv zeta. rewrite Hc.
  cbn [mbind outcome_bind]. destruct collected; reflexivity.
Qed.

Lemma sorted_by_imbalance_In (l : list LoadRecommendation)
  (r : LoadRecommendation) :
  In r (stable_sort by_imbalance_desc l) <-> In r l.
Proof.
  rewrite <- !list_elem_of_In.
  rewrite (stable_sort_Permutation by_imbalance_desc l). reflexivity.
Qed.

(** X26.  Every load-balancing recommendation on the doctor management
    page is a transfer between two doctors of its specialty, the one with
    the most and the one with the fewest remaining appointments of the
    picked day at the current time.  Its imbalance is the difference of
    their two counts and is at least 3; the suggested number of transfers
    is half of it, rounded down, so at least 1; and carrying the transfers
    out would leave the two doctors at most one appointment apart without
    making the second busier than the first. *)
Theorem load_recommendation_justified (current_date : date)
  (current_time : time) (appts : list Appointment) (docs : list Doctor)
  (recs : list LoadRecommendation) (r : LoadRecommendation) :
  load_balancing_recommendations current_date current_time appts docs
  = Returned recs ->
  In r recs ->
  let now := mkDateTime current_date current_time in
  exists busiest least_busy,
    transfer_between appts docs now r busiest least_busy /\
    imbalance r = remaining_today appts (doc_id busiest) now
                  - remaining_today appts (doc_id least_busy) now /\
    3 <= imbalance r /\
    suggested_transfers r = imbalance r / 2 /\
    1 <= suggested_transfers r /\
    remaining_today appts (doc_id least_busy) now + suggested_transfers r
    <= remaining_today appts (doc_id busiest) now - suggested_transfers r
    <= remaining_today appts (doc_id least_busy) now + suggested_transfers r + 1.
Proof.
  intros Hret Hr now.
  destruct (load_balancing_collected current_date current_time appts docs)
    as (collected & Hc & Hlb).
  rewrite Hlb in Hret. injection Hret as <-.
  apply (proj1 (sorted_by_imbalance_In _ _)) in Hr.
  destruct (for_each_returned _ _ _ Hc r Hr) as (sp & zs & _ & Hz & Hin).
  destruct (balance_check_spec appts docs current_date current_time sp)
    as (zs' & Hz' & Hsound & _).
  rewrite Hz in Hz'. injection Hz' as <-.
  destruct (Hsound r Hin) as (_ & _ & busiest & least & Ht & Hi & H3 & Hs).
  exists busiest, least. fold now.
  split; [exact Ht|]. split; [exact Hi|]. split; [exact H3|].
  split; [exact Hs|].
  pose proof (Z.div_mod (imbalance r) 2 ltac:(lia)) as Hdm.
  pose proof (Z.mod_pos_bound (imbalance r) 2 ltac:(lia)) as Hmod.
  rewrite Hs. fold now in Hi. lia.
Qed.

Lemma load_recommendation_justified_witness :
  let now := mkDateTime monday (at_time 10 0) in
  let docs := [mkDoctor 1 "Asha" "Cardiology" 15 10 true;
               mkDoctor 1 "Bela" "Cardiology" 15 10 true;
               mkDoctor 2 "Chitra" "Cardiology" 15 10 true] in
  let r := mkLoadRecommendation "Cardiology" "Asha" "Chitra" 3 7 in
  load_balancing_recommendations monday (at_time 10 0) busy_day docs
  = Returned [r] /\
  exists busiest least_busy,
    transfer_between busy_day docs now r busiest least_busy /\
    imbalance r = remaining_today busy_day (doc_id busiest) now
                  - remaining_today busy_day (doc_id least_busy) now /\
    3 <= imbalance r /\
    suggested_transfers r = imbalance r / 2 /\
    1 <= suggested_transfers r /\
    remaining_today busy_day (doc_id least_busy) now + suggested_transfers r
    <= remaining_today busy_day (doc_id busiest) now - suggested_transfers r
    <= remaining_today busy_day (doc_id least_busy) now + suggested_transfers r + 1.
Proof.
  intros now docs r. split; [reflexivity|].
  apply (load_recommendation_justified monday (at_time 10 0) busy_day
           docs [r] r).
  - reflexivity.
  - left. reflexivity.
Defined.

(** X27.  Whenever two doctors of one specialty are three or more remaining
    appointments apart, the page recommends a transfer for that specialty,
    with an imbalance of at least their difference.  A doctor with no
    appointment left, or none at all on the day, counts with a load of 0. *)
Theorem load_imbalance_reported (current_date : date) (current_time : time)
  (appts : list Appointment) (docs : list Doctor) (d1 d2 : Doctor) :
  let now := mkDateTime current_date current_time in
  In d1 docs -> In d2 docs -> specialty d1 = specialty d2 ->
  3 <= remaining_today appts (doc_id d1) now
       - remaining_today appts (doc_id d2) now ->
  exists recs r,
    load_balancing_recommendations current_date current_time appts docs
    = Returned recs /\
    In r recs /\ rec_specialty r = specialty d1 /\
    remaining_today appts (doc_id d1) now
    - remaining_today appts (doc_id d2) now <= imbalance r.
Proof.
  intros now H1 H2 Hs Hgap.
  destruct (load_balancing_collected current_date current_time appts docs)
    as (collected & Hc & Hlb).
  destruct (balance_check_spec appts docs current_date current_time
              (specialty d1)) as (zs & Hz & Hsound & Hcomplete).
  destruct (Hcomplete d1 d2 H1 H2 eq_refl (eq_sym Hs) Hgap) as (r & Hr & Hle).
  exists (stable_sort by_imbalance_desc collected), r.
  split; [exact Hlb|]. split; [|split; [apply Hsound, Hr | exact Hle]].
  apply sorted_by_imbalance_In.
  apply (for_each_incl _ _ _ zs (specialty d1) r Hc); [|exact Hz | exact Hr].
  apply unique_In, in_map, H1.
Qed.

Lemma load_imbalance_reported_witness :
  let now := mkDateTime monday (at_time 11 30) in
  remaining_today busy_day 1 now = 0 /\
  exists recs r,
    load_balancing_recommendations monday (at_time 11 30) busy_day cardiologists
    = Returned recs /\
    In r recs /\ rec_specialty r = "Cardiology" /\
    remaining_today busy_day 2 now - remaining_today busy_day 1 now
    <= imbalance r.
Proof.
  intros now. split; [reflexivity|].
  apply (load_imbalance_reported monday (at_time 11 30) busy_day cardiologists
           (sample_doctor 2 "Cardiology" 15 true)
           (sample_doctor 1 "Cardiology" 15 true)).
  - right. left. reflexivity.
  - left. reflexivity.
  - reflexivity.
  - vm_compute. discriminate.
Defined.

(** What the loop over the specialties collects names each specialty at
    most once. *)
Lemma collected_specialties_NoDup (body : string -> Outcome (list LoadRecommendation))
  (sps : list string) (collected : list LoadRecommendation) :
  (forall sp zs r, body sp = Returned zs -> In r zs ->
     zs = [r] /\ rec_specialty r = sp) ->
  List.NoDup sps ->
  for_each body sps = Returned collected ->
  List.NoDup (map rec_specialty collected).
Proof.
  intros Hbody. revert collected.
  induction sps as [|sp sps IH]; intros collected Hnd; cbn [for_each].
  - intros [= <-]. constructor.
  - destruct (body sp) as [zs|] eqn:Hz; [|discriminate].
    destruct (for_each body sps) as [rest|] eqn:Hrest; [|discriminate].
    cbn [mbind outcome_bind]. intros [= <-].
    inversion Hnd as [|? ? Hnotin Hnd']; subst.
    specialize (IH rest Hnd' eq_refl).
    destruct zs as [|r zs']; [exact IH|].
    destruct (Hbody sp _ r Hz (or_introl eq_refl)) as [Hone Hsp].
    injection Hone as ->. cbn [app map]. constructor; [|exact IH].
    intros Hin. apply in_map_iff in Hin as (r' & Heq & Hr').
    destruct (for_each_returned _ _ _ Hrest r' Hr') as (sp' & zs' & Hsp' & Hz' & Hin').
    destruct (Hbody sp' _ r' Hz' Hin') as [_ Hsp''].
    apply Hnotin. congruence.
Qed.

(** X28.  Building the list of load-balancing recommendations never raises;
    the list is ordered by imbalance, largest first, and holds at most one
    recommendation for a specialty. *)
Theorem load_recommendations_ordered (current_date : date)
  (current_time : time) (appts : list Appointment) (docs : list Doctor) :
  exists recs,
    load_balancing_recommendations current_date current_time appts docs
    = Returned recs /\
    StronglySorted by_imbalance_desc recs /\
    List.NoDup (map rec_specialty recs).
Proof.
  destruct (load_balancing_collected current_date current_time appts docs)
    as (collected & Hc & Hlb).
  exists (stable_sort by_imbalance_desc collected).
  split; [exact Hlb|]. split; [apply StronglySorted_stable_sort; apply _|].
  apply (Permutation_NoDup (l := map rec_specialty collected)).
  - apply Permutation_map. symmetry. apply stable_sort_Permutation.
  - refine (collected_specialties_NoDup _ _ _ _ (unique_NoDup _) Hc).
    intros sp zs r Hz Hr.
    destruct (balance_check_spec appts docs current_date current_time sp)
      as (zs' & Hz' & Hsound & _).
    rewrite Hz in Hz'. injection Hz' as <-.
    destruct (Hsound r Hr) as (Hone & Hsp & _). split; assumption.
Qed.

(** Selecting rows of a sorted frame leaves it sorted. *)
Lemma filter_sorted {A} (R : A -> A -> Prop) (f : A -> bool) (l : list A) :
  StronglySorted R l -> StronglySorted R (List.filter f l).
Proof.
  induction 1 as [|x l Hs IH Hall]; cbn [List.filter]; [constructor|].
  destruct (f x); [|exact IH]. constructor; [exact IH|].
  apply Forall_forall. intros y Hy. apply list_elem_of_In in Hy.
  apply filter_In in Hy as [Hy _].
  apply (proj1 (Forall_forall _ _) Hall), list_elem_of_In, Hy.
Qed.

(** X29.  When the schedule optimization panel shows slot cards, it shows
    between one and ten of them, all taken from the optimiser's slots for
    the picked date; every slot of that date it leaves out has a priority
    no higher than each slot it shows; and the cards together with the
    number in the notice of further slots count the slots of that date,
    the notice appearing only when some slot is left out. *)
Theorem slot_panel_shows_best_of_day (current_datetime : DateTime)
  (current_date : date) (appts : list Appointment) (docs : list Doctor)
  (slots shown : list Slot) (more : option Z) :
  calculate_optimal_slots current_datetime appts docs = Returned slots ->
  schedule_optimization_panel current_datetime current_date appts docs
  = Returned (SlotsShown shown more) ->
  1 <= len shown <= 10 /\
  (forall s, In s shown -> In s slots /\ slot_date s = current_date) /\
  (forall s, In s slots -> slot_date s = current_date ->
     In s shown \/ forall s', In s' shown -> priority s <= priority s') /\
  len shown + default 0 more
  = len (List.filter (fun s => slot_date s =? current_date) slots) /\
  more <> Some 0.
Proof.
  intros Hopt. unfold schedule_optimization_panel. rewrite Hopt.
  cbn [mbind outcome_bind].
  destruct (is_empty slots); cbn [negb]; [discriminate|].
  set (today := List.filter (fun s => slot_date s =? current_date) slots).
  destruct (is_empty today) eqn:He; cbn [negb]; [discriminate|].
  intros [= <- <-].
  assert (Hlen : len (take 10 today) = Z.min 10 (len today)).
  { unfold len. rewrite length_take. lia. }
  assert (Hpos : 1 <= len today).
  { destruct today; [discriminate|]. rewrite len_cons.
    pose proof (len_nonneg today). lia. }
  split; [lia|]. split; [|split; [|split]].
  - intros s Hs. apply In_take_In in Hs. apply filter_In in Hs as [Hs Hd].
    split; [exact Hs | apply Z.eqb_eq, Hd].
  - intros s Hs Hd.
    assert (Hin : In s today)
      by (apply filter_In; split; [exact Hs | apply Z.eqb_eq, Hd]).
    rewrite <- (take_drop 10 today) in Hin.
    apply in_app_or in Hin as [Hin | Hin]; [left; exact Hin | right].
    intros s' Hs'.
    destruct (calculate_optimal_slots_returned _ _ _ _ Hopt) as [Hsorted _].
    apply (filter_sorted _ (fun s => slot_date s =? current_date)) in Hsorted.
    fold today in Hsorted. rewrite <- (take_drop 10 today) in Hsorted.
    apply (StronglySorted_app_1_elem_of by_priority_desc _ _ s' s Hsorted);
      apply list_elem_of_In; assumption.
  - rewrite Hlen.
    destruct (Z.ltb_spec 10 (len today)); cbn [default from_option id]; lia.
  - destruct (Z.ltb_spec 10 (len today)); [|discriminate].
    intros [= Hz]. lia.
Qed.

Lemma slot_panel_shows_best_of_day_witness :
  let now := mkDateTime monday (at_time 10 0) in
  exists slots shown more,
    calculate_optimal_slots now busy_day lone_cardiologist = Returned slots /\
    schedule_optimization_panel now monday busy_day lone_cardiologist
    = Returned (SlotsShown shown more) /\
    more = Some 1 /\
    1 <= len shown <= 10 /\
    (forall s, In s shown -> In s slots /\ slot_date s = monday) /\
    (forall s, In s slots -> slot_date s = monday ->
       In s shown \/ forall s', In s' shown -> priority s <= priority s') /\
    len shown + default 0 more
    = len (List.filter (fun s => slot_date s =? monday) slots) /\
    more <> Some 0.
Proof.
  intros now. eexists _, _, _.
  split; [vm_compute; reflexivity|]. split; [vm_compute; reflexivity|].
  split; [reflexivity|].
  apply (slot_panel_shows_best_of_day now monday busy_day lone_cardiologist);
    vm_compute; reflexivity.
Defined.

(** X30.  The panel shows no slot card when the picked date is a Saturday
    or Sunday, lies before the date of the session's clock, or lies seven
    or more days after it: the optimiser, which runs from the session's
    clock, has no slot of such a date. *)
Theorem slot_panel_outside_window (current_datetime : DateTime)
  (current_date : date) (appts : list Appointment) (docs : list Doctor)
  (shown : list Slot) (more : option Z) :
  5 <= weekday current_date \/
  current_date < dt_date current_datetime \/
  dt_date current_datetime + 7 <= current_date ->
  schedule_optimization_panel current_datetime current_date appts docs
  <> Returned (SlotsShown shown more).
Proof.
  intros Hout. unfold schedule_optimization_panel.
  destruct (calculate_optimal_slots current_datetime appts docs)
    as [slots|] eqn:Hopt; cbn [mbind outcome_bind]; [|discriminate].
  destruct (is_empty slots); cbn [negb]; [discriminate|].
  destruct (List.filter (fun s => slot_date s =? current_date) slots)
    as [|s today] eqn:Hf; cbn [is_empty negb]; [discriminate|].
  intros _.
  assert (Hs : In s (List.filter (fun s => slot_date s =? current_date) slots))
    by (rewrite Hf; left; reflexivity).
  apply filter_In in Hs as [Hs Hd]. apply Z.eqb_eq in Hd.
  destruct (calculate_optimal_slots_returned _ _ _ _ Hopt) as [_ Hall].
  destruct (Hall s Hs) as (d & _ & _ & _ & Hslot).
  destruct Hslot as (_ & _ & Hwin & Hwd & _). rewrite Hd in Hwin, Hwd. lia.
Qed.

Lemma slot_panel_outside_window_witness :
  schedule_optimization_panel (mkDateTime monday (at_time 10 0)) (monday - 3)
    [sample_appointment 1 1 (monday - 3) 11 false] cardiologists
  <> Returned (SlotsShown [] None) /\
  schedule_optimization_panel (mkDateTime monday (at_time 10 0)) (monday + 5)
    busy_day cardiologists
  <> Returned (SlotsShown [] None).
Proof.
  split.
  - apply (slot_panel_outside_window (mkDateTime monday (at_time 10 0))
             (monday - 3)).
    right. left. vm_compute. reflexivity.
  - apply (slot_panel_outside_window (mkDateTime monday (at_time 10 0))
             (monday + 5)).
    left. vm_compute. discriminate.
Defined.
